(** * DeliverEase: the session and conversation engine of the chat server

    A shallow embedding of [src/server.ts] (the [/api/chat] handler, the
    session sweep and the administrative routes), [src/llmHandler.ts]
    (tool-call dispatch and reschedule options), [src/aiAssistant.ts]
    (the shared assistant object), [src/database.ts] (the order store),
    [src/whatsappNotifier.ts] (the notifier) and [src/index.ts] (the
    command-line client).

    Conventions of the embedding:
    - a JavaScript string is a [string] of 8-bit code units; no code unit
      above 127 is a digit or a word character, as in the source's regular
      expressions, and 160 (no-break space) is the only white space there;
      the pictographs of the notifier's texts are written as their UTF-8
      bytes;
    - a [Date] and a [Date.now()] reading are the time value in
      milliseconds since the epoch, a [Z]; the Dates that documents and
      sessions hold are valid, and an Invalid Date (time value NaN) is
      written as in [JsDate.NaN]; the time zone of the host gives the
      offset of local time from UTC for every instant, as [LocalTZA] of
      ECMAScript does;
    - a request is handled as one step: the waits of the handler on the
      store, the notifier and the language model are not interleaved with
      other requests;
    - [sessions] is a [gmap], [expiredSessions] a [gset]; the order
      collection is the list of its documents in natural order;
    - everything a request reads from outside (clock readings, the random
      draw, the language model's answer, whether the store and the notifier
      answer) is a field of [Env]. *)

From Stdlib Require Import ZArith Lia Ascii String List.
From stdpp Require Import gmap strings list.

Local Open Scope Z_scope.

(** ** Text primitives *)

Module Text.

Definition code (c : ascii) : Z := Z.of_N (N_of_ascii c).

(** [\d] *)
Definition isDigit (c : ascii) : bool :=
  (48 <=? code c) && (code c <=? 57).

(** [\w], which decides the word boundaries [\b] *)
Definition isWordChar (c : ascii) : bool :=
  isDigit c
  || ((65 <=? code c) && (code c <=? 90))
  || ((97 <=? code c) && (code c <=? 122))
  || (code c =? 95).

(** White space and line terminators stripped by [trim] and [parseInt]. *)
Definition isWhiteSpace (c : ascii) : bool :=
  ((9 <=? code c) && (code c <=? 13)) || (code c =? 32) || (code c =? 160).

(** [toUpperCase] on the letters a to z, which is all of it on text of
    ASCII code units; the source applies it to the match of [extractAWB], three
    letters and six digits. Above 127 JavaScript maps more (code unit 223 to
    two letters), and this does not. *)
Definition toUpperChar (c : ascii) : ascii :=
  if (97 <=? code c) && (code c <=? 122)
  then ascii_of_N (Z.to_N (code c - 32)) else c.

Fixpoint toUpperCase (s : string) : string :=
  match s with
  | EmptyString => EmptyString
  | String c r => String (toUpperChar c) (toUpperCase r)
  end.

Fixpoint trimStart (s : string) : string :=
  match s with
  | EmptyString => EmptyString
  | String c r => if isWhiteSpace c then trimStart r else s
  end.

Fixpoint trimEnd (s : string) : string :=
  match s with
  | EmptyString => EmptyString
  | String c r =>
      match trimEnd r with
      | EmptyString => if isWhiteSpace c then EmptyString else String c EmptyString
      | r' => String c r'
      end
  end.

Definition trim (s : string) : string := trimEnd (trimStart s).

Fixpoint allDigits (s : string) : bool :=
  match s with
  | EmptyString => true
  | String c r => isDigit c && allDigits r
  end.

(** [/^\d{6}$/.test(s)] *)
Definition isSixDigits (s : string) : bool :=
  (Nat.eqb (String.length s) 6) && allDigits s.

(** Number.prototype.toString for a non-negative integer. *)
Definition digitChar (d : Z) : ascii := ascii_of_N (Z.to_N (48 + d)).

Fixpoint digitsOf (fuel : nat) (n : Z) (acc : string) : string :=
  match fuel with
  | O => acc
  | S fuel' =>
      let acc' := String (digitChar (n mod 10)) acc in
      if n / 10 =? 0 then acc' else digitsOf fuel' (n / 10) acc'
  end.

Definition toString (n : Z) : string :=
  digitsOf (S (Z.to_nat (Z.log2 n))) n EmptyString.

(** The value of a digit in radix 10 or 16, as [parseInt] reads it. *)
Definition digitValue (radix : Z) (c : ascii) : option Z :=
  let v :=
    if isDigit c then code c - 48
    else if (97 <=? code c) && (code c <=? 102) then code c - 87
    else if (65 <=? code c) && (code c <=? 70) then code c - 55
    else 99 in
  if v <? radix then Some v else None.

(** Longest prefix of digits, folded to its value; [None] when it is empty. *)
Fixpoint readDigits (radix : Z) (s : string) (acc : option Z) : option Z :=
  match s with
  | EmptyString => acc
  | String c r =>
      match digitValue radix c with
      | Some v => readDigits radix r (Some (radix * default 0 acc + v))
      | None => acc
      end
  end.

(** [parseInt(s)] without a radix: leading white space, an optional sign, an
    optional [0x]/[0X] prefix, then the longest digit prefix. [None] is NaN.
    The result is kept exact; the source compares it with small integers
    only, which rounding to a double does not change. *)
Definition parseInt (s : string) : option Z :=
  let s1 := trimStart s in
  let '(sign, s2) :=
    match s1 with
    | String "-" r => (-1, r)
    | String "+" r => (1, r)
    | _ => (1, s1)
    end in
  let '(radix, s3) :=
    match s2 with
    | String "0" (String "x" r) => (16, r)
    | String "0" (String "X" r) => (16, r)
    | _ => (10, s2)
    end in
  match readDigits radix s3 None with
  | Some v => Some (sign * v)
  | None => None
  end.

End Text.

(** ** Tracking ids: [extractAWB] of [src/server.ts] *)

Definition isLetter (upper : ascii) (c : ascii) : bool :=
  bool_decide (Text.toUpperChar c = upper).

(** [AWB\d{6}\b] matched (ignoring case) at the head of [s]: the nine matched
    characters, upper-cased. *)
Definition awbAt (s : string) : option string :=
  match s with
  | String a (String w (String b (String d1 (String d2 (String d3
      (String d4 (String d5 (String d6 rest)))))))) =>
      if isLetter "A" a && isLetter "W" w && isLetter "B" b
         && Text.allDigits (String d1 (String d2 (String d3
              (String d4 (String d5 (String d6 EmptyString))))))
         && match rest with
            | EmptyString => true
            | String c _ => negb (Text.isWordChar c)
            end
      then Some (Text.toUpperCase (String a (String w (String b (String d1
             (String d2 (String d3 (String d4 (String d5
               (String d6 EmptyString))))))))))
      else None
  | _ => None
  end.

(** The leftmost match of [/\bAWB\d{6}\b/i]; [prevWord] tells whether the
    character before the current position is a word character. *)
Fixpoint scanAWB (prevWord : bool) (s : string) : option string :=
  match s with
  | EmptyString => None
  | String c r =>
      match (if prevWord then None else awbAt s) with
      | Some m => Some m
      | None => scanAWB (Text.isWordChar c) r
      end
  end.

Definition extractAWB (input : string) : option string := scanAWB false input.

(** ** Dates *)

Module JsDate.

Definition msPerHour : Z := 3600000.
Definition msPerDay : Z := 86400000.

(** A time value is a number of milliseconds since the epoch, at most
    [maxTime] away from it, or NaN, the time value of an Invalid Date. Time
    values are integers here; NaN is written as the first integer past the
    range, and every integer out of the range is read as NaN. [TimeClip]
    sends what leaves the range to NaN. *)
Definition maxTime : Z := 8640000000000000.
Definition NaN : Z := maxTime + 1.
Definition isNaN (t : Z) : bool := (t <? - maxTime) || (maxTime <? t).
Definition TimeClip (t : Z) : Z := if isNaN t then NaN else t.

(** The time zone of the host, as ECMAScript reads it: [LocalTZA z t true] is
    the offset of local time from UTC at the instant [t], and
    [LocalTZA z t false] is the offset taken for the local time [t] (for a
    local time that a transition of the zone skips or repeats, the offset
    before the transition). *)
Record Zone := { LocalTZA : Z -> bool -> Z }.

(** A zone that keeps one offset. *)
Definition fixedZone (offset : Z) : Zone :=
  {| LocalTZA := fun _ _ => offset |}.

Definition LocalTime (tz : Zone) (t : Z) : Z := t + LocalTZA tz t true.
Definition UTC (tz : Zone) (t : Z) : Z := t - LocalTZA tz t false.
Definition Day (t : Z) : Z := t / msPerDay.
Definition TimeWithinDay (t : Z) : Z := t mod msPerDay.

Definition MakeDate (day time : Z) : Z := day * msPerDay + time.

(** [date.setHours(h, 0, 0, 0)] *)
Definition setHours (tz : Zone) (t h : Z) : Z :=
  if isNaN t then NaN
  else TimeClip (UTC tz (MakeDate (Day (LocalTime tz t)) (h * msPerHour))).

(** Day of the week of a day number, 0 for Sunday. *)
Definition WeekDay (day : Z) : Z := (day + 4) mod 7.

(** Year of the era, month (1 to 12) and day of the month of a day of a
    400-year era that starts on a first of March. *)
Definition civilOfEraDay (doe : Z) : Z * Z * Z :=
  let yoe := (doe - doe / 1460 + doe / 36524 - doe / 146096) / 365 in
  let doy := doe - (365 * yoe + yoe / 4 - yoe / 100) in
  let mp := (5 * doy + 2) / 153 in
  let d := doy - (153 * mp + 2) / 5 + 1 in
  let m := if mp <? 10 then mp + 3 else mp - 9 in
  (yoe, m, d).

(** Year, month (1 to 12) and day of the month of a day number. *)
Definition civil (day : Z) : Z * Z * Z :=
  let z := day + 719468 in
  let era := z / 146097 in
  let '(yoe, m, d) := civilOfEraDay (z mod 146097) in
  (yoe + era * 400 + (if m <=? 2 then 1 else 0), m, d).

Definition eraDayOf (yoe m d : Z) : Z :=
  let doy := (153 * (if 2 <? m then m - 3 else m + 9) + 2) / 5 + d - 1 in
  yoe * 365 + yoe / 4 - yoe / 100 + doy.

(** [MakeDay(year, month, date)] for a month from 1 to 12: the day number of
    the first of the month, plus [date - 1]; a [date] past the end of the
    month runs into the months that follow. *)
Definition MakeDay (y m dt : Z) : Z :=
  let y' := if m <=? 2 then y - 1 else y in
  let era := y' / 400 in
  era * 146097 + eraDayOf (y' - era * 400) m 1 - 719468 + dt - 1.

(** [date.getDate()] of a valid Date. Of an Invalid Date it is NaN, and so
    is [date.getDate() + i]; the source hands that to [setDate] of the same
    Invalid Date only, which gives NaN whatever it is handed. *)
Definition getDate (tz : Zone) (t : Z) : Z :=
  let '(_, _, d) := civil (Day (LocalTime tz t)) in d.

(** [date.setDate(dt)] *)
Definition setDate (tz : Zone) (t dt : Z) : Z :=
  if isNaN t then NaN
  else
    let local := LocalTime tz t in
    let '(y, m, _) := civil (Day local) in
    TimeClip (UTC tz (MakeDate (MakeDay y m dt) (TimeWithinDay local))).

Definition weekdayShort (k : Z) : string :=
  nth (Z.to_nat k) ["Sun"; "Mon"; "Tue"; "Wed"; "Thu"; "Fri"; "Sat"]%string ""%string.

Definition monthShort (m : Z) : string :=
  nth (Z.to_nat (m - 1))
    ["Jan"; "Feb"; "Mar"; "Apr"; "May"; "Jun";
     "Jul"; "Aug"; "Sep"; "Oct"; "Nov"; "Dec"]%string ""%string.

(** [toLocaleDateString('en-US', {weekday:'short', month:'short', day:'numeric'})] *)
Definition shortLabel (tz : Zone) (t : Z) : string :=
  if isNaN t then "Invalid Date"%string
  else
    let day := Day (LocalTime tz t) in
    let '(_, m, d) := civil day in
    (weekdayShort (WeekDay day) +:+ ", " +:+ monthShort m +:+ " " +:+ Text.toString d)%string.

Definition twoDigits (n : Z) : string :=
  if n <? 10 then ("0" +:+ Text.toString n)%string else Text.toString n.

(** The en-US renderings of [toLocaleDateString()] and [toLocaleString()]. *)
Definition enUSDate (tz : Zone) (t : Z) : string :=
  if isNaN t then "Invalid Date"%string
  else
    let '(y, m, d) := civil (Day (LocalTime tz t)) in
    (Text.toString m +:+ "/" +:+ Text.toString d +:+ "/" +:+ Text.toString y)%string.

Definition enUSDateTime (tz : Zone) (t : Z) : string :=
  if isNaN t then "Invalid Date"%string
  else
    let w := TimeWithinDay (LocalTime tz t) in
    let hh := w / msPerHour in
    let h12 := if hh mod 12 =? 0 then 12 else hh mod 12 in
    let half := if hh <? 12 then " AM"%string else " PM"%string in
    (enUSDate tz t +:+ ", " +:+ Text.toString h12 +:+ ":"
     +:+ twoDigits (w / 60000 mod 60) +:+ ":" +:+ twoDigits (w / 1000 mod 60)
     +:+ half)%string.

End JsDate.

(** What the server reads from its host: the time zone, the default
    locale's renderings of a date, and the time the modules were loaded. *)
Record Host := {
  tz : JsDate.Zone;
  toLocaleDateString : Z -> string;
  toLocaleString : Z -> string;
  loadTime : Z
}.

Definition enUSHost (zone : JsDate.Zone) (load : Z) : Host :=
  {| tz := zone;
     toLocaleDateString := JsDate.enUSDate zone;
     toLocaleString := JsDate.enUSDateTime zone;
     loadTime := load |}.

(** ** The order store: [src/database.ts] and [src/sampleOrders.ts] *)

Inductive Status :=
  | Processing | Shipped | InTransit | OutForDelivery | Delivered | Delayed
  | Rescheduled.

#[global] Instance Status_eq_dec : EqDecision Status.
Proof. solve_decision. Defined.

Definition statusText (s : Status) : string :=
  match s with
  | Processing => "Processing"
  | Shipped => "Shipped"
  | InTransit => "In Transit"
  | OutForDelivery => "Out for Delivery"
  | Delivered => "Delivered"
  | Delayed => "Delayed"
  | Rescheduled => "Rescheduled"
  end.

(** A document of the collection ([DeliveryStatus]; the store's own [_id] is
    not read by the server and is left out). *)
Record DeliveryStatus := {
  awb : string;
  status : Status;
  lastUpdate : Z;
  estimatedDelivery : option Z;
  scheduledDelivery : option Z;
  delayReason : option string;
  customerName : option string;
  customerPhone : option string;
  rescheduled : option bool
}.

#[global] Instance DeliveryStatus_eq_dec : EqDecision DeliveryStatus.
Proof. solve_decision. Defined.

(** Truthiness of an optional string and of an optional boolean. *)
Definition truthyString (o : option string) : bool :=
  match o with
  | Some s => negb (bool_decide (s = ""%string))
  | None => false
  end.

Definition truthy (o : option bool) : bool := default false o.

Definition sampleOrders (load : Z) : list DeliveryStatus :=
  [ {| awb := "AWB123456"; status := Delivered;
       lastUpdate := 1684108800000; estimatedDelivery := Some 1684108800000;
       scheduledDelivery := None; delayReason := None;
       customerName := Some "John Doe"%string;
       customerPhone := Some "+1234567890"%string;
       rescheduled := Some false |};
    {| awb := "AWB789012"; status := InTransit;
       lastUpdate := load;
       estimatedDelivery := Some (load + 2 * 24 * 60 * 60 * 1000);
       scheduledDelivery := None; delayReason := None;
       customerName := Some "Jane Smith"%string;
       customerPhone := Some "+1987654321"%string;
       rescheduled := Some false |};
    {| awb := "AWB345678"; status := Delayed;
       lastUpdate := load;
       estimatedDelivery := Some (load + 5 * 24 * 60 * 60 * 1000);
       scheduledDelivery := None;
       delayReason := Some "Heavy rainfall affecting transportation routes"%string;
       customerName := Some "Robert Johnson"%string;
       customerPhone := Some "+1122334455"%string;
       rescheduled := Some false |};
    {| awb := "AWB999999"; status := InTransit;
       lastUpdate := load;
       estimatedDelivery := Some (load + 3 * 24 * 60 * 60 * 1000);
       scheduledDelivery := None; delayReason := None;
       customerName := Some "Sarah Williams"%string;
       customerPhone := Some "+917269063619"%string;
       rescheduled := Some false |} ].

Module Database.

(** [findOne({ awb })] *)
Definition getOrderStatus (key : string) (orders : list DeliveryStatus)
  : option DeliveryStatus :=
  find (fun o => bool_decide (awb o = key)) orders.

(** [updateOne({ awb }, { $set })]: the first matching document is rewritten;
    the second component is [modifiedCount]. *)
Fixpoint updateOne (key : string) (set : DeliveryStatus -> DeliveryStatus)
    (orders : list DeliveryStatus) : list DeliveryStatus * Z :=
  match orders with
  | [] => ([], 0)
  | o :: rest =>
      if bool_decide (awb o = key)
      then (set o :: rest, if bool_decide (set o = o) then 0 else 1)
      else let '(rest', n) := updateOne key set rest in (o :: rest', n)
  end.

Definition rescheduleSet (newDate now : Z) (o : DeliveryStatus) : DeliveryStatus :=
  {| awb := awb o;
     status := Rescheduled;
     lastUpdate := now;
     estimatedDelivery := estimatedDelivery o;
     scheduledDelivery := Some newDate;
     delayReason := delayReason o;
     customerName := customerName o;
     customerPhone := customerPhone o;
     rescheduled := Some true |}.

(** [rescheduleOrder]: [updateOk] tells whether the store answers the update
    (the source turns a rejected update into [false]); [now] is the reading
    of [new Date()]. *)
Definition rescheduleOrder (updateOk : bool) (now : Z) (key : string)
    (newDate : Z) (orders : list DeliveryStatus) : list DeliveryStatus * bool :=
  if updateOk
  then let '(orders', modifiedCount) := updateOne key (rescheduleSet newDate now) orders in
       (orders', modifiedCount =? 1)
  else (orders, false).

Definition canReschedule (order : DeliveryStatus) : bool :=
  negb (bool_decide (status order = Delivered))
  && negb (bool_decide (status order = OutForDelivery))
  && negb (truthy (rescheduled order)).

Definition resetAllOrdersToSeed (h : Host) : list DeliveryStatus :=
  sampleOrders (loadTime h).

End Database.

(** ** The notifier: [src/whatsappNotifier.ts] *)

Record WhatsAppCall := {
  wa_to : string;
  wa_body : string;
  wa_delivered : bool
}.

Definition nl : string := String "010"%char EmptyString.

(** [sendWhatsAppUpdate] never throws: without credentials it returns at
    once, and a failed send is caught and logged. [twilioOk] tells whether
    the message went out; the call is recorded either way. *)
Definition sendWhatsAppUpdate (twilioOk : bool) (phone message : string)
    (log : list WhatsAppCall) : list WhatsAppCall :=
  log ++ [ {| wa_to := phone; wa_body := message; wa_delivered := twilioOk |} ].

Definition formatWhatsAppMessage (h : Host) (order : DeliveryStatus) : string :=
  ("📦 Order Update: " +:+ awb order +:+ nl
   +:+ "🔄 Status: " +:+ statusText (status order) +:+ nl
   +:+ "📅 Scheduled Delivery: "
   +:+ match scheduledDelivery order with
       | Some d => toLocaleString h d
       | None => "N/A"
       end +:+ nl
   +:+ "⏰ Last Updated: " +:+ toLocaleString h (lastUpdate order) +:+ nl
   +:+ nl +:+ "Thank you for using our service!")%string.

(** ** Tool-call dispatch and reschedule options: [src/llmHandler.ts] *)

Inductive ConvState :=
  | INITIAL | AWAITING_AWB | AWAITING_OTP | ORDER_FOUND | RESCHEDULE_OPTIONS
  | RESCHEDULE_CONFIRMATION | COMPLETED | SESSION_EXPIRED.

#[global] Instance ConvState_eq_dec : EqDecision ConvState.
Proof. solve_decision. Defined.

Record LLMResponse := {
  llm_response : string;
  nextState : ConvState;
  llm_requiresAwb : option bool;
  llm_requiresReschedule : option bool;
  llm_showDetails : option bool;
  llm_endConversation : option bool
}.

Record RescheduleOption := {
  date : Z;
  display : string
}.

(** What the chat-completion request comes back with, as [handleLlmRequest]
    reads it: the request is rejected or the arguments of the tool call do
    not parse ([CompletionFails], the [catch] branch); the answer carries no
    tool call; or the first tool call, with the [action] and [type] members
    of its parsed arguments ([None] when the member is absent or is not a
    string). *)
Inductive Completion :=
  | CompletionFails
  | NoToolCall
  | ToolCall (name : string) (action type : option string).

Definition plain (text : string) (next : ConvState) : LLMResponse :=
  {| llm_response := text; nextState := next;
     llm_requiresAwb := None; llm_requiresReschedule := None;
     llm_showDetails := None; llm_endConversation := None |}.

Definition handleOrderAction (action : option string) (order : option DeliveryStatus)
  : LLMResponse :=
  match order with
  | None =>
      {| llm_response := "I'd be happy to help track your order! Could you share your tracking number with me?";
         nextState := AWAITING_AWB;
         llm_requiresAwb := Some true; llm_requiresReschedule := None;
         llm_showDetails := None; llm_endConversation := None |}
  | Some order =>
      if bool_decide (action = Some "status"%string) then
        plain ("Your order " +:+ awb order +:+ " is currently: "
               +:+ statusText (status order) +:+ ".") ORDER_FOUND
      else if bool_decide (action = Some "details"%string) then
        {| llm_response := "Here are your order details:";
           nextState := ORDER_FOUND;
           llm_requiresAwb := None; llm_requiresReschedule := None;
           llm_showDetails := Some true; llm_endConversation := None |}
      else if bool_decide (action = Some "reschedule"%string) then
        if negb (Database.canReschedule order) then
          plain "I'm sorry, but this order can't be rescheduled right now." ORDER_FOUND
        else
          {| llm_response := "Sure, I can help with that! Here are some available slots:";
             nextState := RESCHEDULE_OPTIONS;
             llm_requiresAwb := None; llm_requiresReschedule := Some true;
             llm_showDetails := None; llm_endConversation := None |}
      else
        plain "How else can I help with your order?" ORDER_FOUND
  end.

Definition handleGreeting : LLMResponse :=
  plain "Hello! How can I help with your delivery?" INITIAL.

Definition handleFarewell : LLMResponse :=
  {| llm_response := "Thank you! Have a great day!";
     nextState := COMPLETED;
     llm_requiresAwb := None; llm_requiresReschedule := None;
     llm_showDetails := None; llm_endConversation := Some true |}.

Definition handleLlmRequest (completion : Completion) (currentState : ConvState)
    (order : option DeliveryStatus) : LLMResponse :=
  match completion with
  | NoToolCall => plain "How can I help with your delivery today?" currentState
  | ToolCall name action type =>
      if bool_decide (name = "get_order_info"%string) then
        handleOrderAction action order
      else if bool_decide (name = "handle_conversation"%string) then
        if bool_decide (type = Some "greeting"%string)
        then handleGreeting else handleFarewell
      else plain "How can I assist with your delivery?" INITIAL
  | CompletionFails =>
      plain "I'm having some trouble right now. Could you try again in a moment?" INITIAL
  end.

Definition slotTypes : list string := ["Morning"; "Afternoon"; "Evening"]%string.

(** The body of the loop of [generateRescheduleOptions] for one [i]. *)
Definition rescheduleOption (tz : JsDate.Zone) (baseDate i : Z) : RescheduleOption :=
  let date := baseDate in
  let date := JsDate.setDate tz date (JsDate.getDate tz date + i) in
  let slotType := nth (Z.to_nat (i mod 3)) slotTypes ""%string in
  let date :=
    if bool_decide (slotType = "Morning"%string) then JsDate.setHours tz date 9
    else if bool_decide (slotType = "Afternoon"%string) then JsDate.setHours tz date 13
    else if bool_decide (slotType = "Evening"%string) then JsDate.setHours tz date 18
    else date in
  {| date := date;
     display := (JsDate.shortLabel tz date +:+ " | " +:+ slotType)%string |}.

Definition generateRescheduleOptions (tz : JsDate.Zone) (baseDate : Z)
  : list RescheduleOption :=
  map (rescheduleOption tz baseDate) [1; 2; 3].

Definition join (sep : string) (parts : list string) : string :=
  match parts with
  | [] => ""%string
  | p :: rest => fold_left (fun acc q => (acc +:+ sep +:+ q)%string) rest p
  end.

Definition formatOrderDetails (h : Host) (order : DeliveryStatus) : string :=
  join nl
    ([ ("AWB: " +:+ awb order)%string;
       ("Status: " +:+ statusText (status order))%string;
       ("Est. Delivery: "
        +:+ match estimatedDelivery order with
            | Some d => toLocaleDateString h d
            | None => "N/A"
            end)%string ]
     ++ match scheduledDelivery order with
        | Some d => [ ("Scheduled Delivery: " +:+ toLocaleString h d)%string ]
        | None => []
        end
     ++ [ ("Last Updated: " +:+ toLocaleString h (lastUpdate order))%string;
          if truthy (rescheduled order) then "(Rescheduled)"%string else ""%string ]).

(** ** The assistant object: [src/aiAssistant.ts]

    One [AIAssistant] is exported and shared by all requests; its
    [conversationState] is the [assistant] component of the server state.
    [handleLlmRequest] catches every failure of the completion itself, so
    the [catch] of [handleUserMessage] is never entered. *)

Definition handleUserMessage (completion : Completion) (assistant : ConvState)
    (order : option DeliveryStatus) : LLMResponse * ConvState :=
  let llmResponse := handleLlmRequest completion assistant order in
  (llmResponse, nextState llmResponse).

(** ** The server: [src/server.ts] *)

Definition SESSION_EXPIRATION : Z := 2 * 60 * 1000.

(** A session object. [otpVerified] is written by the one place that
    creates sessions, so it is never absent. *)
Record Session := {
  conversationState : ConvState;
  currentOrder : option DeliveryStatus;
  rescheduleOptions : list RescheduleOption;
  lastActive : Z;
  otp : option string;
  otpTimestamp : option Z;
  otpVerified : bool
}.

(** The JSON body of an answer of [/api/chat]; [None] is an absent member
    (for [orderDetails], also [null]). *)
Record Reply := {
  response : string;
  r_conversationState : ConvState;
  requiresReschedule : option bool;
  requiresAwb : option bool;
  showDetails : option bool;
  endConversation : option bool;
  requiresOtp : option bool;
  sessionExpired : option bool;
  orderDetails : option string;
  whatsappSent : option bool;
  r_rescheduleOptions : option (list string)
}.

(** An answer: status 200 with a body, status 400 (no session id), or
    status 500 (the outer [catch]). *)
Inductive HttpResult :=
  | Json (r : Reply)
  | BadRequest
  | InternalError.

Record Request := {
  message : string;
  sessionId : string
}.

(** What one request reads from outside the process. *)
Record Env := {
  now : Z;               (* [Date.now()] on arrival *)
  nowOtp : Z;            (* [Date.now()] when a 6-digit code is checked *)
  nowIssued : Z;         (* [Date.now()] when a code is issued *)
  nowUpdate : Z;         (* [new Date()] inside [rescheduleOrder] *)
  nowBase : Z;           (* [new Date()] standing in for a missing estimate *)
  random : Z;            (* [Math.floor(Math.random() * 900000)] *)
  completion : Completion;
  findOk : bool;         (* [findOne] answers (it is not wrapped in a [try]) *)
  updateOk : bool;       (* [updateOne] answers *)
  twilioOk : bool        (* the notifier gets the message out *)
}.

Record World := {
  sessions : gmap string Session;
  expiredSessions : gset string;
  orders : list DeliveryStatus;
  assistant : ConvState;
  whatsapp : list WhatsAppCall
}.

Definition initial (docs : list DeliveryStatus) : World :=
  {| sessions := ∅; expiredSessions := ∅; orders := docs;
     assistant := INITIAL; whatsapp := [] |}.

(** The part of the state a request works on: its session object, the
    collection, the shared assistant and the notifier's log. *)
Record St := {
  st_session : Session;
  st_orders : list DeliveryStatus;
  st_assistant : ConvState;
  st_whatsapp : list WhatsAppCall
}.

(** A stage of the handler either answers ([Some]) or falls through to the
    code below it ([None]). *)
Definition Stage := St -> St * option HttpResult.
Definition Handler := St -> St * HttpResult.

Definition orElse (a : Stage) (k : Handler) : Handler :=
  fun st =>
    match a st with
    | (st', Some r) => (st', r)
    | (st', None) => k st'
    end.

Definition andThen (a b : Stage) : Stage :=
  fun st =>
    match a st with
    | (st', Some r) => (st', Some r)
    | (st', None) => b st'
    end.

Notation "a >> b" := (andThen a b) (at level 65, right associativity).
Notation "a >>> k" := (orElse a k) (at level 66, left associativity).

Definition withSession (st : St) (s : Session) : St :=
  {| st_session := s; st_orders := st_orders st;
     st_assistant := st_assistant st; st_whatsapp := st_whatsapp st |}.

Definition expiredReply : Reply :=
  {| response := "Your session has expired due to inactivity. Please start a new conversation to continue.";
     r_conversationState := SESSION_EXPIRED;
     requiresReschedule := Some false; requiresAwb := Some false;
     showDetails := Some false; endConversation := Some true;
     requiresOtp := None; sessionExpired := Some true;
     orderDetails := None; whatsappSent := None; r_rescheduleOptions := None |}.

Definition otpReply (text : string) (state : ConvState) (again : bool) : Reply :=
  {| response := text; r_conversationState := state;
     requiresReschedule := None; requiresAwb := None;
     showDetails := None; endConversation := None;
     requiresOtp := Some again; sessionExpired := None;
     orderDetails := None; whatsappSent := None; r_rescheduleOptions := None |}.

Definition slotReply (text : string) (state : ConvState) : Reply :=
  {| response := text; r_conversationState := state;
     requiresReschedule := Some false; requiresAwb := Some false;
     showDetails := Some false; endConversation := Some false;
     requiresOtp := None; sessionExpired := None;
     orderDetails := None; whatsappSent := None; r_rescheduleOptions := None |}.

Definition newSession (t : Z) : Session :=
  {| conversationState := INITIAL; currentOrder := None;
     rescheduleOptions := []; lastActive := t;
     otp := None; otpTimestamp := None; otpVerified := false |}.

Definition touch (s : Session) (t : Z) : Session :=
  {| conversationState := conversationState s; currentOrder := currentOrder s;
     rescheduleOptions := rescheduleOptions s; lastActive := t;
     otp := otp s; otpTimestamp := otpTimestamp s; otpVerified := otpVerified s |}.

(** *** OTP verification logic *)

Definition otpAccepted (s : Session) (t : Z) (code : string) : bool :=
  match otp s, otpTimestamp s with
  | Some issued, Some stamp =>
      negb (bool_decide (issued = ""%string)) && negb (stamp =? 0)
      && (t - stamp <=? 2 * 60 * 1000) && bool_decide (code = issued)
  | _, _ => false
  end.

Definition otpStage (e : Env) (msg : string) : Stage := fun st =>
  let session := st_session st in
  if bool_decide (conversationState session = AWAITING_OTP) && negb (otpVerified session)
  then
    if Text.isSixDigits (Text.trim msg) then
      if otpAccepted session (nowOtp e) (Text.trim msg) then
        (withSession st
           {| conversationState := ORDER_FOUND; currentOrder := currentOrder session;
              rescheduleOptions := rescheduleOptions session;
              lastActive := lastActive session;
              otp := otp session; otpTimestamp := otpTimestamp session;
              otpVerified := true |},
         Some (Json (otpReply "Verification successful! You can now access your order details."
                       ORDER_FOUND false)))
      else
        (withSession st
           {| conversationState := INITIAL; currentOrder := currentOrder session;
              rescheduleOptions := rescheduleOptions session;
              lastActive := lastActive session;
              otp := None; otpTimestamp := None; otpVerified := false |},
         Some (Json (otpReply "Verification unsuccessful, try again later." INITIAL false)))
    else
      (st, Some (Json (otpReply "Please enter the 6-digit OTP sent to your WhatsApp number."
                         AWAITING_OTP true)))
  else (st, None).

(** *** Slot selection *)

(** [!isNaN(slotNumber) && slotNumber >= 1 && slotNumber <= n] *)
Definition slotInRange (slotNumber : option Z) (n : nat) : option Z :=
  match slotNumber with
  | Some k => if (1 <=? k) && (k <=? Z.of_nat n) then Some k else None
  | None => None
  end.

Definition rescheduledReply (h : Host) (selected : RescheduleOption)
    (order : option DeliveryStatus) : Reply :=
  {| response := ("Your order has been rescheduled to " +:+ display selected +:+ ".")%string;
     r_conversationState := ORDER_FOUND;
     requiresReschedule := Some false; requiresAwb := Some false;
     showDetails := Some true; endConversation := Some false;
     requiresOtp := None; sessionExpired := None;
     orderDetails := formatOrderDetails h <$> order;
     whatsappSent := Some (truthyString (order ≫= customerPhone));
     r_rescheduleOptions := None |}.

Definition slotStage (h : Host) (e : Env) (msg : string) : Stage := fun st =>
  let session := st_session st in
  if bool_decide (conversationState session = RESCHEDULE_OPTIONS)
     && negb (Nat.eqb (length (rescheduleOptions session)) 0)
  then
    match slotInRange (Text.parseInt (Text.trim msg)) (length (rescheduleOptions session)) with
    | Some slotNumber =>
        match rescheduleOptions session !! Z.to_nat (slotNumber - 1) with
        | Some selectedOption =>
            match currentOrder session with
            | Some order =>
                let '(orders', success) :=
                  Database.rescheduleOrder (updateOk e) (nowUpdate e) (awb order)
                    (date selectedOption) (st_orders st) in
                if success then
                  if findOk e then
                    let fresh := Database.getOrderStatus (awb order) orders' in
                    ({| st_session :=
                          {| conversationState := ORDER_FOUND; currentOrder := fresh;
                             rescheduleOptions := [];
                             lastActive := lastActive session;
                             otp := otp session; otpTimestamp := otpTimestamp session;
                             otpVerified := otpVerified session |};
                        st_orders := orders';
                        st_assistant := st_assistant st;
                        st_whatsapp :=
                          match fresh with
                          | Some o =>
                              if truthyString (customerPhone o)
                              then sendWhatsAppUpdate (twilioOk e)
                                     (default ""%string (customerPhone o))
                                     (formatWhatsAppMessage h o) (st_whatsapp st)
                              else st_whatsapp st
                          | None => st_whatsapp st
                          end |},
                     Some (Json (rescheduledReply h selectedOption fresh)))
                  else
                    ({| st_session := session; st_orders := orders';
                        st_assistant := st_assistant st;
                        st_whatsapp := st_whatsapp st |},
                     Some InternalError)
                else
                  ({| st_session := session; st_orders := orders';
                      st_assistant := st_assistant st;
                      st_whatsapp := st_whatsapp st |},
                   Some (Json (slotReply "Failed to reschedule. Please try again later."
                                 ORDER_FOUND)))
            | None => (st, None)
            end
        | None => (st, Some InternalError)
        end
    | None =>
        (st, Some (Json (slotReply
           ("Please enter a number between 1 and "
            +:+ Text.toString (Z.of_nat (length (rescheduleOptions session))) +:+ ".")%string
           RESCHEDULE_OPTIONS)))
    end
  else (st, None).

(** *** Tracking-id extraction and OTP issuance *)

Definition issuedCode (e : Env) : string := Text.toString (100000 + random e).

Definition otpMessage (code : string) : string :=
  ("Your verification code is: " +:+ code +:+ nl
   +:+ "This code is valid for 2 minutes.")%string.

Definition awbStage (e : Env) (msg : string) : Stage := fun st =>
  let session := st_session st in
  match extractAWB msg with
  | Some awbFromInput =>
      if findOk e then
        match Database.getOrderStatus awbFromInput (st_orders st) with
        | Some freshOrder =>
            if negb (otpVerified session) then
              ({| st_session :=
                    {| conversationState := AWAITING_OTP;
                       currentOrder := Some freshOrder;
                       rescheduleOptions := rescheduleOptions session;
                       lastActive := lastActive session;
                       otp := Some (issuedCode e);
                       otpTimestamp := Some (nowIssued e);
                       otpVerified := otpVerified session |};
                  st_orders := st_orders st;
                  st_assistant := st_assistant st;
                  st_whatsapp :=
                    if truthyString (customerPhone freshOrder)
                    then sendWhatsAppUpdate (twilioOk e)
                           (default ""%string (customerPhone freshOrder))
                           (otpMessage (issuedCode e)) (st_whatsapp st)
                    else st_whatsapp st |},
               Some (Json (otpReply
                  "For your security, please enter the 6-digit OTP sent to your WhatsApp number to access your order details."
                  AWAITING_OTP true)))
            else
              (withSession st
                 {| conversationState := conversationState session;
                    currentOrder := Some freshOrder;
                    rescheduleOptions := rescheduleOptions session;
                    lastActive := lastActive session;
                    otp := otp session; otpTimestamp := otpTimestamp session;
                    otpVerified := otpVerified session |},
               None)
        | None => (st, None)
        end
      else (st, Some InternalError)
  | None => (st, None)
  end.

(** *** Verification gate *)

Definition gateStage : Stage := fun st =>
  match currentOrder (st_session st) with
  | Some _ =>
      if negb (otpVerified (st_session st)) then
        (st, Some (Json (otpReply
           "Please complete OTP verification to access your order details."
           AWAITING_OTP true)))
      else (st, None)
  | None => (st, None)
  end.

(** *** Intent dispatch *)

Definition intentStage (h : Host) (e : Env) : Handler := fun st =>
  let session := st_session st in
  let '(llm, assistant') :=
    handleUserMessage (completion e) (st_assistant st) (currentOrder session) in
  let generated :=
    match currentOrder session with
    | Some order =>
        if truthy (llm_requiresReschedule llm)
        then Some (generateRescheduleOptions (tz h)
                     (default (nowBase e) (estimatedDelivery order)))
        else None
    | None => None
    end in
  let session' :=
    {| conversationState := assistant';
       currentOrder := currentOrder session;
       rescheduleOptions := default (rescheduleOptions session) generated;
       lastActive := lastActive session;
       otp := otp session; otpTimestamp := otpTimestamp session;
       otpVerified := otpVerified session |} in
  ({| st_session := session'; st_orders := st_orders st;
      st_assistant := assistant'; st_whatsapp := st_whatsapp st |},
   Json
     {| response := llm_response llm;
        r_conversationState := assistant';
        requiresReschedule := llm_requiresReschedule llm;
        requiresAwb := llm_requiresAwb llm;
        showDetails := llm_showDetails llm;
        endConversation := llm_endConversation llm;
        requiresOtp := None; sessionExpired := None;
        orderDetails :=
          if truthy (llm_showDetails llm)
          then formatOrderDetails h <$> currentOrder session else None;
        whatsappSent := None;
        r_rescheduleOptions :=
          if truthy (llm_requiresReschedule llm)
          then match default [] generated with
               | [] => None
               | opts => Some (map display opts)
               end
          else None |}).

(** *** The handler of [POST /api/chat] *)

(** The stages that may answer before the assistant is asked, in the order
    of the source. *)
Definition earlyStages (h : Host) (e : Env) (msg : string) : Stage :=
  otpStage e msg >> slotStage h e msg >> awbStage e msg >> gateStage.

Definition engine (h : Host) (e : Env) (msg : string) : Handler :=
  earlyStages h e msg >>> intentStage h e.

Definition start (w : World) (s : Session) : St :=
  {| st_session := s; st_orders := orders w;
     st_assistant := assistant w; st_whatsapp := whatsapp w |}.

(** Runs the stages on the session object [s] stored under [id]; the object
    is mutated in place, so what the stages leave is what the map holds. *)
Definition process (h : Host) (e : Env) (req : Request) (w : World) (s : Session)
  : World * HttpResult :=
  let '(st, res) := engine h e (message req) (start w s) in
  ({| sessions := <[sessionId req := st_session st]> (sessions w);
      expiredSessions := expiredSessions w;
      orders := st_orders st;
      assistant := st_assistant st;
      whatsapp := st_whatsapp st |}, res).

Definition expire (id : string) (w : World) : World :=
  {| sessions := delete id (sessions w);
     expiredSessions := {[ id ]} ∪ expiredSessions w;
     orders := orders w; assistant := assistant w; whatsapp := whatsapp w |}.

Definition chat (h : Host) (e : Env) (req : Request) (w : World) : World * HttpResult :=
  if bool_decide (sessionId req = ""%string) then (w, BadRequest)
  else if bool_decide (sessionId req ∈ expiredSessions w) then (w, Json expiredReply)
  else
    match sessions w !! sessionId req with
    | None => process h e req w (newSession (now e))
    | Some session =>
        if now e - lastActive session >? SESSION_EXPIRATION
        then (expire (sessionId req) w, Json expiredReply)
        else process h e req w (touch session (now e))
    end.

(** The session object the stages of [chat] work on: a new one for an
    unknown id, the stored one with [lastActive] refreshed for a live one;
    [None] when the request is answered before (no id, or expired). *)
Definition resolve (e : Env) (req : Request) (w : World) : option Session :=
  if bool_decide (sessionId req = ""%string) then None
  else if bool_decide (sessionId req ∈ expiredSessions w) then None
  else
    match sessions w !! sessionId req with
    | None => Some (newSession (now e))
    | Some session =>
        if now e - lastActive session >? SESSION_EXPIRATION
        then None else Some (touch session (now e))
    end.

(** *** The sweep, and the administrative routes *)

Definition idleAt (t : Z) (s : Session) : bool :=
  t - lastActive s >? SESSION_EXPIRATION.

(** The test of the second loop of [cleanupExpiredSessions]. *)
Definition forgetAt (t : Z) (live : gmap string Session) (id : string) : bool :=
  match live !! id with
  | None => true
  | Some s => negb (lastActive s =? 0) && (t - lastActive s >? 5 * 60 * 1000)
  end.

Definition cleanupExpiredSessions (t : Z) (w : World) : World :=
  let idle := filter (fun kv => idleAt t kv.2 = true) (sessions w) in
  let live := filter (fun kv => idleAt t kv.2 = false) (sessions w) in
  let marked := expiredSessions w ∪ dom idle in
  {| sessions := live;
     expiredSessions := filter (fun id => forgetAt t live id = false) marked;
     orders := orders w; assistant := assistant w; whatsapp := whatsapp w |}.

(** [POST /api/reset-session/:sessionId] *)
Definition resetSession (h : Host) (id : string) (w : World) : World :=
  {| sessions := delete id (sessions w);
     expiredSessions := expiredSessions w ∖ {[ id ]};
     orders := Database.resetAllOrdersToSeed h;
     assistant := assistant w; whatsapp := whatsapp w |}.

(** [POST /api/test-session-expiration/:sessionId] *)
Definition testSessionExpiration (t : Z) (id : string) (w : World) : World :=
  match sessions w !! id with
  | None => w
  | Some s =>
      {| sessions := <[id := touch s (t - (SESSION_EXPIRATION + 60000))]> (sessions w);
         expiredSessions := expiredSessions w;
         orders := orders w; assistant := assistant w; whatsapp := whatsapp w |}
  end.

(** ** Runs of the server *)

(** What can happen to the server state: a chat request, a tick of the
    sweep, the two administrative routes, and a write to the collection by
    anybody else. *)
Inductive Event :=
  | Chat (e : Env) (req : Request)
  | Sweep (t : Z)
  | ResetSession (id : string)
  | TestExpiration (t : Z) (id : string)
  | StoreWrite (docs : list DeliveryStatus).

Definition apply (h : Host) (w : World) (ev : Event) : World :=
  match ev with
  | Chat e req => (chat h e req w).1
  | Sweep t => cleanupExpiredSessions t w
  | ResetSession id => resetSession h id w
  | TestExpiration t id => testSessionExpiration t id w
  | StoreWrite docs =>
      {| sessions := sessions w; expiredSessions := expiredSessions w;
         orders := docs; assistant := assistant w; whatsapp := whatsapp w |}
  end.

Definition run (h : Host) (evs : list Event) (w : World) : World :=
  fold_left (apply h) evs w.

Definition reachable (h : Host) (w : World) : Prop :=
  exists docs evs, w = run h evs (initial docs).

(** ** Numbered options: [formatOptions] of [src/llmHandler.ts] *)

(** The callback of [options.map]: [`${i+1}. ${opt}`]. *)
Definition numberedOption (i : nat) (opt : string) : string :=
  (Text.toString (Z.of_nat i + 1) +:+ ". " +:+ opt)%string.

Definition formatOptions (options : list string) : string :=
  join nl (imap numberedOption options).

(** ** The command-line client: [src/index.ts]

    One question of [readline] is pending at a time: the main one
    (['You: ']) or the one for a tracking number. [getOrderStatus] is
    awaited inside the callbacks with no [try] around it: when the store
    does not answer, the callback's promise rejects and no further question
    is asked. The console holds the lines written by [console.log] after
    the banner, oldest first; the prompts are not part of it. *)

(** [toLowerCase] on the letters A to Z; the other code units are compared
    with ['exit'] and ['quit'] only, which they never equal. *)
Definition toLowerChar (c : ascii) : ascii :=
  if (65 <=? Text.code c) && (Text.code c <=? 90)
  then ascii_of_N (Z.to_N (Text.code c + 32)) else c.

Fixpoint toLowerCase (s : string) : string :=
  match s with
  | EmptyString => EmptyString
  | String c r => String (toLowerChar c) (toLowerCase r)
  end.

Inductive Prompt :=
  | AskYou       (* the question of [startConversation] *)
  | AskAwb       (* the question for a tracking number *)
  | Closed       (* after [shutdown] *)
  | Stalled.     (* a callback has rejected *)

Record Cli := {
  cli_prompt : Prompt;
  cli_currentOrder : option DeliveryStatus;
  cli_rescheduleOptions : list RescheduleOption;
  cli_assistant : ConvState;
  cli_orders : list DeliveryStatus;
  cli_whatsapp : list WhatsAppCall;
  cli_console : list string
}.

Definition cliStart (docs : list DeliveryStatus) : Cli :=
  {| cli_prompt := AskYou; cli_currentOrder := None; cli_rescheduleOptions := [];
     cli_assistant := INITIAL; cli_orders := docs; cli_whatsapp := [];
     cli_console := [] |}.

Definition assistantSays (text : string) : string :=
  (nl +:+ "Assistant: " +:+ text)%string.

(** The main question is asked again after [lines] have been written, with
    nothing else changed but the assistant's state. *)
Definition said (c : Cli) (a : ConvState) (lines : list string) : Cli :=
  {| cli_prompt := AskYou; cli_currentOrder := cli_currentOrder c;
     cli_rescheduleOptions := cli_rescheduleOptions c;
     cli_assistant := a; cli_orders := cli_orders c;
     cli_whatsapp := cli_whatsapp c; cli_console := cli_console c ++ lines |}.

(** A callback rejects: no further question is asked. [docs] is the
    collection at that point. *)
Definition stalled (c : Cli) (docs : list DeliveryStatus) : Cli :=
  {| cli_prompt := Stalled; cli_currentOrder := cli_currentOrder c;
     cli_rescheduleOptions := cli_rescheduleOptions c;
     cli_assistant := cli_assistant c; cli_orders := docs;
     cli_whatsapp := cli_whatsapp c; cli_console := cli_console c |}.

(** The slot branch of the main callback; every path that ends normally
    puts the assistant in [ORDER_FOUND] and asks the main question again. *)
Definition selectSlot (h : Host) (e : Env) (userInput : string) (c : Cli) : Cli :=
  match Text.parseInt (Text.trim userInput) with
  | Some slotNumber =>
      if (1 <=? slotNumber) && (slotNumber <=? Z.of_nat (length (cli_rescheduleOptions c)))
      then
        match cli_currentOrder c with
        | Some order =>
            match cli_rescheduleOptions c !! Z.to_nat (slotNumber - 1) with
            | Some selectedOption =>
                let '(orders', success) :=
                  Database.rescheduleOrder (updateOk e) (nowUpdate e) (awb order)
                    (date selectedOption) (cli_orders c) in
                if success then
                  if findOk e then
                    let fresh := Database.getOrderStatus (awb order) orders' in
                    let confirmation :=
                      [ assistantSays ("Your order has been rescheduled to "
                                       +:+ display selectedOption +:+ ".");
                        (nl +:+ "Updated order details:")%string ] in
                    match fresh with
                    | Some o =>
                        {| cli_prompt := AskYou; cli_currentOrder := fresh;
                           cli_rescheduleOptions := cli_rescheduleOptions c;
                           cli_assistant := ORDER_FOUND; cli_orders := orders';
                           cli_whatsapp :=
                             if truthyString (customerPhone o)
                             then sendWhatsAppUpdate (twilioOk e)
                                    (default ""%string (customerPhone o))
                                    (formatWhatsAppMessage h o) (cli_whatsapp c)
                             else cli_whatsapp c;
                           cli_console :=
                             cli_console c ++ confirmation
                             ++ [ formatOrderDetails h o ]
                             ++ (if truthyString (customerPhone o)
                                 then [ assistantSays "A confirmation has been sent to your WhatsApp." ]
                                 else []) |}
                    | None =>
                        {| cli_prompt := AskYou; cli_currentOrder := None;
                           cli_rescheduleOptions := cli_rescheduleOptions c;
                           cli_assistant := ORDER_FOUND; cli_orders := orders';
                           cli_whatsapp := cli_whatsapp c;
                           cli_console :=
                             cli_console c ++ confirmation
                             ++ [ assistantSays "Failed to fetch updated order details." ] |}
                    end
                  else stalled c orders'
                else
                  {| cli_prompt := AskYou; cli_currentOrder := cli_currentOrder c;
                     cli_rescheduleOptions := cli_rescheduleOptions c;
                     cli_assistant := ORDER_FOUND; cli_orders := orders';
                     cli_whatsapp := cli_whatsapp c;
                     cli_console :=
                       cli_console c
                       ++ [ assistantSays "Failed to reschedule. Please try again later." ] |}
            | None => stalled c (cli_orders c)
            end
        | None =>
            said c ORDER_FOUND
              [ assistantSays "Order not found. Please restart the conversation." ]
        end
      else
        said c ORDER_FOUND
          [ assistantSays
              ("Please enter a number between 1 and "
               +:+ Text.toString (Z.of_nat (length (cli_rescheduleOptions c))) +:+ ".") ]
  | None => said c ORDER_FOUND [ assistantSays "Please enter a valid slot number." ]
  end.

(** The rest of the main callback: the lookup of a tracking id while no
    order is held, then the assistant. *)
Definition converse (h : Host) (e : Env) (userInput : string) (c : Cli) : Cli :=
  match (match extractAWB userInput, cli_currentOrder c with
         | Some awbFromInput, None =>
             if findOk e
             then Some (Database.getOrderStatus awbFromInput (cli_orders c))
             else None
         | _, _ => Some (cli_currentOrder c)
         end) with
  | None => stalled c (cli_orders c)
  | Some currentOrder =>
      let '(llm, assistant') :=
        handleUserMessage (completion e) (cli_assistant c) currentOrder in
      let answer := assistantSays (llm_response llm) in
      let offered :=
        match currentOrder with
        | Some order =>
            if truthy (llm_requiresReschedule llm)
            then Some (generateRescheduleOptions (tz h)
                         (default (nowBase e) (estimatedDelivery order)))
            else None
        | None => None
        end in
      if truthy (llm_endConversation llm) then
        {| cli_prompt := Closed; cli_currentOrder := currentOrder;
           cli_rescheduleOptions := cli_rescheduleOptions c;
           cli_assistant := assistant'; cli_orders := cli_orders c;
           cli_whatsapp := cli_whatsapp c;
           cli_console := cli_console c ++ [ answer ] |}
      else if truthy (llm_showDetails llm) && bool_decide (is_Some currentOrder) then
        {| cli_prompt := AskYou; cli_currentOrder := currentOrder;
           cli_rescheduleOptions := cli_rescheduleOptions c;
           cli_assistant := assistant'; cli_orders := cli_orders c;
           cli_whatsapp := cli_whatsapp c;
           cli_console :=
             cli_console c ++ [ answer ]
             ++ match currentOrder with
                | Some order => [ formatOrderDetails h order ]
                | None => []
                end |}
      else
        {| cli_prompt :=
             if truthy (llm_requiresAwb llm) && negb (bool_decide (is_Some currentOrder))
             then AskAwb else AskYou;
           cli_currentOrder := currentOrder;
           cli_rescheduleOptions := default (cli_rescheduleOptions c) offered;
           cli_assistant := assistant'; cli_orders := cli_orders c;
           cli_whatsapp := cli_whatsapp c;
           cli_console :=
             cli_console c ++ [ answer ]
             ++ match offered with
                | Some options =>
                    [ (nl +:+ "Available delivery slots:")%string;
                      formatOptions (map display options);
                      (nl +:+ "Please enter the number of your preferred slot (1-3)")%string ]
                | None => []
                end |}
  end.

(** The callback of the question for a tracking number. *)
Definition answerAwb (e : Env) (awbInput : string) (c : Cli) : Cli :=
  let extractedAwb := default (Text.trim awbInput) (extractAWB awbInput) in
  if findOk e then
    let found := Database.getOrderStatus extractedAwb (cli_orders c) in
    {| cli_prompt := AskYou; cli_currentOrder := found;
       cli_rescheduleOptions := cli_rescheduleOptions c;
       cli_assistant := cli_assistant c; cli_orders := cli_orders c;
       cli_whatsapp := cli_whatsapp c;
       cli_console :=
         cli_console c
         ++ match found with
            | Some _ => []
            | None => [ assistantSays "Order not found. Please check your AWB number." ]
            end |}
  else stalled c (cli_orders c).

(** One line typed at the pending question. *)
Definition cliStep (h : Host) (e : Env) (userInput : string) (c : Cli) : Cli :=
  match cli_prompt c with
  | AskYou =>
      if bool_decide (toLowerCase userInput = "exit"%string)
         || bool_decide (toLowerCase userInput = "quit"%string)
      then
        {| cli_prompt := Closed; cli_currentOrder := cli_currentOrder c;
           cli_rescheduleOptions := cli_rescheduleOptions c;
           cli_assistant := cli_assistant c; cli_orders := cli_orders c;
           cli_whatsapp := cli_whatsapp c;
           cli_console := cli_console c ++ [ assistantSays "Thank you! Have a great day!" ] |}
      else if bool_decide (cli_assistant c = RESCHEDULE_OPTIONS)
              && negb (Nat.eqb (length (cli_rescheduleOptions c)) 0)
      then selectSlot h e userInput c
      else converse h e userInput c
  | AskAwb => answerAwb e userInput c
  | Closed | Stalled => c
  end.

(** What happens to the client: a line is typed, or somebody else writes to
    the collection. *)
Inductive CliEvent :=
  | Typed (e : Env) (userInput : string)
  | Written (docs : list DeliveryStatus).

Definition cliApply (h : Host) (c : Cli) (ev : CliEvent) : Cli :=
  match ev with
  | Typed e userInput => cliStep h e userInput c
  | Written docs =>
      {| cli_prompt := cli_prompt c; cli_currentOrder := cli_currentOrder c;
         cli_rescheduleOptions := cli_rescheduleOptions c;
         cli_assistant := cli_assistant c; cli_orders := docs;
         cli_whatsapp := cli_whatsapp c; cli_console := cli_console c |}
  end.

Definition cliRun (h : Host) (evs : list CliEvent) (docs : list DeliveryStatus) : Cli :=
  fold_left (cliApply h) evs (cliStart docs).

Definition cliReachable (h : Host) (c : Cli) : Prop :=
  exists docs evs, c = cliRun h evs docs.

(** ** Predicates of the specification, and states to run the server on *)

(** A stage started where [P] holds either falls through to a state where
    [Qn] holds or answers with [Qs]; likewise for a handler. *)
Definition stageSpec (P : St -> Prop) (a : Stage)
    (Qn : St -> Prop) (Qs : St -> HttpResult -> Prop) : Prop :=
  forall st, P st ->
    match a st with
    | (st', None) => Qn st'
    | (st', Some r) => Qs st' r
    end.

Definition handlerSpec (P : St -> Prop) (k : Handler)
    (Q : St -> HttpResult -> Prop) : Prop :=
  forall st, P st -> Q (k st).1 (k st).2.

(** The session holds an order that [canReschedule] accepts. *)
Definition eligible (o : option DeliveryStatus) : Prop :=
  exists order, o = Some order /\ Database.canReschedule order = true.

(** What every stored session satisfies: options are pending only for a
    verified session in [RESCHEDULE_OPTIONS] whose order can be
    rescheduled. *)
Definition session_ok (s : Session) : Prop :=
  rescheduleOptions s <> [] ->
  otpVerified s = true /\ conversationState s = RESCHEDULE_OPTIONS
  /\ eligible (currentOrder s).

Definition okSt (st : St) : Prop := session_ok (st_session st).
Definition noOptions (st : St) : Prop := rescheduleOptions (st_session st) = [].
Definition gatePassed (st : St) : Prop :=
  noOptions st /\
  (currentOrder (st_session st) = None \/ otpVerified (st_session st) = true).

(** What every reachable state satisfies: the sessions are as above, and an
    id marked expired has no session. *)
Definition world_ok (w : World) : Prop :=
  (forall id s, sessions w !! id = Some s -> session_ok s)
  /\ (forall id, id ∈ expiredSessions w -> sessions w !! id = None).

(** The texts the server answers with that are written out in the source
    and carry nothing of an order. *)
Definition orderFreeTexts : list string :=
  [ "Your session has expired due to inactivity. Please start a new conversation to continue.";
    "Verification successful! You can now access your order details.";
    "Verification unsuccessful, try again later.";
    "Please enter the 6-digit OTP sent to your WhatsApp number.";
    "For your security, please enter the 6-digit OTP sent to your WhatsApp number to access your order details.";
    "Please complete OTP verification to access your order details.";
    "How can I help with your delivery today?";
    "How can I assist with your delivery?";
    "I'm having some trouble right now. Could you try again in a moment?";
    "I'd be happy to help track your order! Could you share your tracking number with me?";
    "Hello! How can I help with your delivery?";
    "Thank you! Have a great day!" ]%string.

(** An answer that exposes nothing of an order: no [orderDetails] member and
    a response text that does not depend on any order. Answers with status
    400 and 500 carry fixed bodies. *)
Definition withoutOrderDetails (res : HttpResult) : Prop :=
  match res with
  | Json r => orderDetails r = None /\ In (response r) orderFreeTexts
  | BadRequest | InternalError => True
  end.

(** The [otpVerified] flag of the session stored under [id]; an id without
    a session is not verified. *)
Definition verifiedAt (w : World) (id : string) : bool :=
  match sessions w !! id with
  | Some s => otpVerified s
  | None => false
  end.

Definition unverified (st : St) : Prop := otpVerified (st_session st) = false.
Definition verified (st : St) : Prop := otpVerified (st_session st) = true.

(** A stored session that the next request finds alive: the request names
    it, the id is not marked expired, and the idle window is not over. *)
Definition live (e : Env) (req : Request) (w : World) (s : Session) : Prop :=
  sessionId req <> ""%string
  /\ (sessionId req ∉ expiredSessions w)
  /\ sessions w !! sessionId req = Some s
  /\ now e - lastActive s <= SESSION_EXPIRATION.

(** The hour of the day of a slot type. *)
Definition slotHour (slot : string) : Z :=
  if bool_decide (slot = "Morning"%string) then 9
  else if bool_decide (slot = "Afternoon"%string) then 13
  else if bool_decide (slot = "Evening"%string) then 18
  else 0.

(** The local time [x] exists on the host: no transition of the zone skips
    it, so that it is the local time of the instant [UTC] gives for it. *)
Definition unskipped (tz : JsDate.Zone) (x : Z) : Prop :=
  JsDate.LocalTime tz (JsDate.UTC tz x) = x.

(** The local time [x] exists on the host or is skipped to a local time of
    the same day. *)
Definition keepsDay (tz : JsDate.Zone) (x : Z) : Prop :=
  JsDate.Day (JsDate.LocalTime tz (JsDate.UTC tz x)) = JsDate.Day x.

(** The offsets of the zone, over all instants and local times, lie less
    than [span] apart. *)
Definition steadyZone (span : Z) (tz : JsDate.Zone) : Prop :=
  forall t b t' b', JsDate.LocalTZA tz t b - JsDate.LocalTZA tz t' b' < span.

(** The local time of the slot [i] days after the day of the local time
    [local]. *)
Definition slotTime (local i : Z) : Z :=
  (JsDate.Day local + i) * JsDate.msPerDay
  + slotHour (nth (Z.to_nat (i mod 3)) slotTypes ""%string) * JsDate.msPerHour.

(** The host has the local times that the options for [baseDate] go
    through, as valid Dates: the time of day of [baseDate] on the three days
    that follow (or, where the zone skips it, a time of the same day), and
    the hours of the three slots. *)
Definition hostHasSlots (tz : JsDate.Zone) (baseDate : Z) : Prop :=
  forall i, 1 <= i <= 3 ->
    let x := JsDate.LocalTime tz baseDate + i * JsDate.msPerDay in
    let y := slotTime (JsDate.LocalTime tz baseDate) i in
    JsDate.isNaN (JsDate.UTC tz x) = false /\ keepsDay tz x
    /\ JsDate.isNaN (JsDate.UTC tz y) = false /\ unskipped tz y.

(** America/New_York in 2023: five hours behind UTC, four from 12 March
    07:00 UTC to 5 November 06:00 UTC. The local hour from 02:00 on 12 March
    is skipped and the one from 01:00 on 5 November comes twice. *)
Definition newYork2023 : JsDate.Zone :=
  {| JsDate.LocalTZA := fun t isUTC =>
       if isUTC
       then if (1678604400000 <=? t) && (t <? 1699164000000)
            then -14400000 else -18000000
       else if (1678590000000 <=? t) && (t <? 1699149600000)
            then -14400000 else -18000000 |}.


(** A host in UTC with the en-US locale, the seed collection it loads, and
    an environment in which every clock reading is [t], the random draw makes
    the code 482193, the completion is [c] and store and notifier answer. *)
Definition demoHost : Host := enUSHost (JsDate.fixedZone 0) 1700000000000.

Definition demoOrders : list DeliveryStatus := sampleOrders 1700000000000.

Definition demoEnv (t : Z) (c : Completion) : Env :=
  {| now := t; nowOtp := t; nowIssued := t; nowUpdate := t; nowBase := t;
     random := 382193; completion := c;
     findOk := true; updateOk := true; twilioOk := true |}.

Definition say (id text : string) : Request :=
  {| message := text; sessionId := id |}.

(** The environment [e] with the notifier's outcome set to [b]. *)
Definition withTwilio (e : Env) (b : bool) : Env :=
  {| now := now e; nowOtp := nowOtp e; nowIssued := nowIssued e;
     nowUpdate := nowUpdate e; nowBase := nowBase e; random := random e;
     completion := completion e; findOk := findOk e; updateOk := updateOk e;
     twilioOk := b |}.

(** The environment [e] with the random draw set to [r]. *)
Definition withRandom (e : Env) (r : Z) : Env :=
  {| now := now e; nowOtp := nowOtp e; nowIssued := nowIssued e;
     nowUpdate := nowUpdate e; nowBase := nowBase e; random := r;
     completion := completion e; findOk := findOk e; updateOk := updateOk e;
     twilioOk := twilioOk e |}.

(** The environment [e] with the store's answer to an update set to [b]. *)
Definition withUpdate (e : Env) (b : bool) : Env :=
  {| now := now e; nowOtp := nowOtp e; nowIssued := nowIssued e;
     nowUpdate := nowUpdate e; nowBase := nowBase e; random := random e;
     completion := completion e; findOk := findOk e; updateOk := b;
     twilioOk := twilioOk e |}.

(** A session that has been verified for the order AWB789012 and has asked
    to reschedule it: three options are pending. *)
Definition pendingWorld : World :=
  run demoHost
    [ Chat (demoEnv 1700000001000 NoToolCall) (say "s1" "track AWB789012");
      Chat (demoEnv 1700000002000 NoToolCall) (say "s1" "482193");
      Chat (demoEnv 1700000003000
              (ToolCall "get_order_info" (Some "reschedule"%string) None))
        (say "s1" "please reschedule") ]
    (initial demoOrders).



(** A session that has given a tracking id and waits for its code. *)
Definition awaitingWorld : World :=
  run demoHost
    [ Chat (demoEnv 1700000001000 NoToolCall) (say "s1" "track AWB789012") ]
    (initial demoOrders).

(** The session stored in [awaitingWorld], in [pendingWorld], and the order
    of [rescheduledWorld] in the collection. *)
Definition awaitingSession : Session :=
  {| conversationState := AWAITING_OTP;
     currentOrder := Database.getOrderStatus "AWB789012" demoOrders;
     rescheduleOptions := [];
     lastActive := 1700000001000;
     otp := Some "482193"%string;
     otpTimestamp := Some 1700000001000;
     otpVerified := false |}.

Definition pendingSession : Session :=
  Eval vm_compute in default (newSession 0) (sessions pendingWorld !! "s1"%string).

(** An order without a customer phone. *)
Definition noPhoneOrders : list DeliveryStatus :=
  [ {| awb := "AWB000001"; status := InTransit; lastUpdate := 1700000000000;
       estimatedDelivery := Some 1700172800000; scheduledDelivery := None;
       delayReason := None; customerName := None; customerPhone := None;
       rescheduled := None |} ].

(** The session of [pendingWorld] after it has picked its second option. *)
Definition rescheduledWorld : World :=
  (chat demoHost (demoEnv 1700000004000 NoToolCall) (say "s1" "2") pendingWorld).1.


(** A session that has been verified through the order AWB789012. *)
Definition verifiedWorld : World :=
  run demoHost
    [ Chat (demoEnv 1700000001000 NoToolCall) (say "s1" "track AWB789012");
      Chat (demoEnv 1700000002000 NoToolCall) (say "s1" "482193") ]
    (initial demoOrders).


(** ** Predicates of the further properties, and states to run them on *)

(** A normalised tracking id: [AWB] and six digits. *)
Definition isTrackingId (k : string) : bool :=
  match k with
  | String "A" (String "W" (String "B" digits)) => Text.isSixDigits digits
  | _ => false
  end.

(** Text of ASCII code units (below 128). *)
Fixpoint asciiText (s : string) : bool :=
  match s with
  | EmptyString => true
  | String c r => (Text.code c <? 128) && asciiText r
  end.

(** Whether the position after [pre] follows a word character, when the
    position before [pre] does so according to [prev]. *)
Fixpoint wordBefore (prev : bool) (pre : string) : bool :=
  match pre with
  | EmptyString => prev
  | String c r => wordBefore (Text.isWordChar c) r
  end.

Definition wordAhead (post : string) : bool :=
  match post with
  | EmptyString => false
  | String c _ => Text.isWordChar c
  end.

(** The states the shared assistant can be in. *)
Definition assistantState (a : ConvState) : Prop :=
  a = INITIAL \/ a = AWAITING_AWB \/ a = ORDER_FOUND \/ a = RESCHEDULE_OPTIONS
  \/ a = COMPLETED.

(** The shape of a stored session: no or three pending options; a state
    that is neither [SESSION_EXPIRED] nor [RESCHEDULE_CONFIRMATION]; a code
    and its time of issuance stored together; and, while the session waits
    for a code, an order, a code and no verification yet. *)
Definition sessionShape (s : Session) : Prop :=
  (length (rescheduleOptions s) = 0%nat \/ length (rescheduleOptions s) = 3%nat)
  /\ conversationState s <> SESSION_EXPIRED
  /\ conversationState s <> RESCHEDULE_CONFIRMATION
  /\ (is_Some (otp s) <-> is_Some (otpTimestamp s))
  /\ (conversationState s = AWAITING_OTP ->
      otpVerified s = false /\ is_Some (otp s) /\ is_Some (currentOrder s)).

Definition shapeSt (st : St) : Prop :=
  sessionShape (st_session st) /\ assistantState (st_assistant st).

Definition world_shape (w : World) : Prop :=
  assistantState (assistant w)
  /\ forall id s, sessions w !! id = Some s -> sessionShape s.

(** The log of the notifier grows by at most one call in a request. *)
Definition atMostOneCall (before after : list WhatsAppCall) : Prop :=
  after = before \/ exists call, after = before ++ [call].

(** The collection [after] has as many documents as [before], and the same
    document under [key]. *)
Definition sameUnder (key : string) (before after : list DeliveryStatus) : Prop :=
  length after = length before
  /\ Database.getOrderStatus key after = Database.getOrderStatus key before.

(** The session [s] with the order [o] attached. *)
Definition withOrder (s : Session) (o : DeliveryStatus) : Session :=
  {| conversationState := conversationState s; currentOrder := Some o;
     rescheduleOptions := rescheduleOptions s; lastActive := lastActive s;
     otp := otp s; otpTimestamp := otpTimestamp s; otpVerified := otpVerified s |}.

(** No slot selection is going on. *)
Definition idle (s : Session) : Prop :=
  conversationState s <> RESCHEDULE_OPTIONS \/ rescheduleOptions s = [].

(** The session [s] in the state [c]. *)
Definition withState (s : Session) (c : ConvState) : Session :=
  {| conversationState := c; currentOrder := currentOrder s;
     rescheduleOptions := rescheduleOptions s; lastActive := lastActive s;
     otp := otp s; otpTimestamp := otpTimestamp s; otpVerified := otpVerified s |}.

(** The states no stage of the handler tests for. *)
Definition untested (c : ConvState) : Prop :=
  c <> AWAITING_OTP /\ c <> RESCHEDULE_OPTIONS.

(** Two states of a request that differ at most in what the stages after
    the slot selection do not read. *)
Definition alike (a b : St) : Prop :=
  st_orders a = st_orders b /\ st_assistant a = st_assistant b
  /\ st_whatsapp a = st_whatsapp b
  /\ currentOrder (st_session a) = currentOrder (st_session b)
  /\ otpVerified (st_session a) = otpVerified (st_session b)
  /\ rescheduleOptions (st_session a) = rescheduleOptions (st_session b).

Definition alikeOut (a b : St * option HttpResult) : Prop :=
  a.2 = b.2 /\ alike a.1 b.1.

(** The state [w] with the session under [id] put in the state [c]. *)
Definition restated (w : World) (id : string) (s : Session) (c : ConvState) : World :=
  {| sessions := <[id := withState s c]> (sessions w);
     expiredSessions := expiredSessions w; orders := orders w;
     assistant := assistant w; whatsapp := whatsapp w |}.

(** The question for a tracking number is pending only while no order is
    held. *)
Definition cli_ok (c : Cli) : Prop :=
  cli_prompt c = AskAwb -> cli_currentOrder c = None.

(** The environment [e] with the completion set to [c]. *)
Definition withCompletion (e : Env) (c : Completion) : Env :=
  {| now := now e; nowOtp := nowOtp e; nowIssued := nowIssued e;
     nowUpdate := nowUpdate e; nowBase := nowBase e; random := random e;
     completion := c; findOk := findOk e; updateOk := updateOk e;
     twilioOk := twilioOk e |}.

(** The environment [e] with the store's answer to a read set to [b]. *)
Definition withFind (e : Env) (b : bool) : Env :=
  {| now := now e; nowOtp := nowOtp e; nowIssued := nowIssued e;
     nowUpdate := nowUpdate e; nowBase := nowBase e; random := random e;
     completion := completion e; findOk := b; updateOk := updateOk e;
     twilioOk := twilioOk e |}.

(** A document with nothing in it, to read optional documents with. *)
Definition blankOrder : DeliveryStatus :=
  {| awb := EmptyString; status := Processing; lastUpdate := 0;
     estimatedDelivery := None; scheduledDelivery := None; delayReason := None;
     customerName := None; customerPhone := None; rescheduled := None |}.

(** The session of [awaitingWorld] after it has sent a wrong code. *)
Definition refusedWorld : World :=
  run demoHost
    [ Chat (demoEnv 1700000001000 NoToolCall) (say "s1" "track AWB789012");
      Chat (demoEnv 1700000002000 NoToolCall) (say "s1" "000000") ]
    (initial demoOrders).

Definition refusedSession : Session :=
  Eval vm_compute in default (newSession 0) (sessions refusedWorld !! "s1"%string).

Definition rescheduledSession : Session :=
  Eval vm_compute in default (newSession 0) (sessions rescheduledWorld !! "s1"%string).

(** The client after a tracking id has been typed, and after a reschedule
    has been asked for. *)
Definition cliHolding : Cli :=
  cliRun demoHost
    [ Typed (demoEnv 1700000001000 NoToolCall) "track AWB789012" ] demoOrders.

Definition cliMenu : Cli :=
  cliRun demoHost
    [ Typed (demoEnv 1700000001000 NoToolCall) "track AWB789012";
      Typed (demoEnv 1700000002000
               (ToolCall "get_order_info" (Some "reschedule"%string) None))
        "please reschedule" ]
    demoOrders.

(** * Properties *)

(** ** The primitives on small inputs *)

Example trim_ex : Text.trim "  42 " = "42"%string.
Proof. reflexivity. Qed.

Example toString_ex : Text.toString 482193 = "482193"%string.
Proof. reflexivity. Qed.

Example parseInt_ex :
  map Text.parseInt ["1"; "3"; "0"; "4"; "abc"; " 2nd"; "0x2"; "-1"; ""]%string
  = [Some 1; Some 3; Some 0; Some 4; None; Some 2; Some 2; Some (-1); None].
Proof. reflexivity. Qed.

Example extractAWB_ex :
  map extractAWB ["track awb123456 please"; "AWB1234567"; "xAWB123456";
                  "AWB12345"; "my AWB999999."]%string
  = [Some "AWB123456"; None; None; None; Some "AWB999999"]%string.
Proof. reflexivity. Qed.

Example shortLabel_ex :
  JsDate.shortLabel (JsDate.fixedZone 0) 1684108800000 = "Mon, May 15"%string
  /\ JsDate.enUSDateTime (JsDate.fixedZone 0) (1684108800000 + 47045000)
     = "5/15/2023, 1:04:05 PM"%string.
Proof. split; reflexivity. Qed.

Example generateRescheduleOptions_ex :
  generateRescheduleOptions (JsDate.fixedZone 0) 1684108800000
  = [ {| date := 1684242000000; display := "Tue, May 16 | Afternoon" |};
      {| date := 1684346400000; display := "Wed, May 17 | Evening" |};
      {| date := 1684400400000; display := "Thu, May 18 | Morning" |} ].
Proof. reflexivity. Qed.

(** ** Reasoning about stages *)

#[local] Arguments generateRescheduleOptions : simpl never.
#[local] Arguments formatOrderDetails : simpl never.
#[local] Arguments formatWhatsAppMessage : simpl never.

Lemma andThen_spec P a M b Qn Qs :
  stageSpec P a M Qs -> stageSpec M b Qn Qs -> stageSpec P (a >> b) Qn Qs.
Proof.
  intros Ha Hb st HP. unfold andThen.
  specialize (Ha st HP). destruct (a st) as [st1 [r|]]; [exact Ha|].
  exact (Hb st1 Ha).
Qed.

Lemma orElse_spec P a M k Q :
  stageSpec P a M Q -> handlerSpec M k Q -> handlerSpec P (a >>> k) Q.
Proof.
  intros Ha Hk st HP. unfold orElse.
  specialize (Ha st HP). destruct (a st) as [st1 [r|]]; [exact Ha|].
  specialize (Hk st1 Ha). destruct (k st1); exact Hk.
Qed.

Lemma stageSpec_weaken (P P' : St -> Prop) a (Qn Qn' : St -> Prop)
    (Qs Qs' : St -> HttpResult -> Prop) :
  stageSpec P a Qn Qs ->
  (forall st, P' st -> P st) -> (forall st, Qn st -> Qn' st) ->
  (forall st r, Qs st r -> Qs' st r) ->
  stageSpec P' a Qn' Qs'.
Proof.
  intros Ha HP Hn Hs st HP'. specialize (Ha st (HP st HP')).
  destruct (a st) as [st1 [r|]]; auto.
Qed.

Ltac stage_unfold :=
  unfold stageSpec, handlerSpec, otpStage, slotStage, awbStage, gateStage,
    intentStage, handleUserMessage, withSession.

Ltac stage_fields :=
  cbn [st_session st_orders st_assistant st_whatsapp lastActive
       conversationState currentOrder rescheduleOptions otp otpTimestamp
       otpVerified fst snd] in *.

Ltac stage_cases := stage_unfold; intros; repeat case_match; simplify_eq; stage_fields.

Lemma noOptions_ok st : noOptions st -> okSt st.
Proof. intros H Hne. destruct (Hne H). Qed.

Lemma session_ok_empty s :
  session_ok s ->
  conversationState s <> RESCHEDULE_OPTIONS \/ otpVerified s = false
  \/ currentOrder s = None ->
  rescheduleOptions s = [].
Proof.
  intros Hok Hc. destruct (rescheduleOptions s) eqn:E; [reflexivity|].
  destruct Hok as (Hv & Hs & (o & Ho & _)); [rewrite E; discriminate|].
  destruct Hc as [Hc|[Hc|Hc]]; congruence.
Qed.

Lemma guard_otp s :
  bool_decide (conversationState s = AWAITING_OTP) && negb (otpVerified s) = true ->
  conversationState s = AWAITING_OTP /\ otpVerified s = false.
Proof.
  intros [H1 H2]%andb_prop. apply bool_decide_eq_true in H1.
  apply negb_true_iff in H2. done.
Qed.

Lemma otpStage_ok e msg : stageSpec okSt (otpStage e msg) okSt (fun st _ => okSt st).
Proof.
  stage_cases; try assumption;
    match goal with
    | Hg : _ && _ = true, Hok : okSt _ |- _ =>
        apply guard_otp in Hg as [Hs Hv];
        apply noOptions_ok; red; stage_fields;
        apply (session_ok_empty _ Hok); left; congruence
    end.
Qed.

Lemma guard_slot s :
  bool_decide (conversationState s = RESCHEDULE_OPTIONS)
  && negb (Nat.eqb (length (rescheduleOptions s)) 0) = false ->
  conversationState s <> RESCHEDULE_OPTIONS \/ rescheduleOptions s = [].
Proof.
  intros [H|H]%andb_false_iff.
  - left. by apply bool_decide_eq_false in H.
  - right. apply negb_false_iff, Nat.eqb_eq in H. by destruct (rescheduleOptions s).
Qed.

Lemma slotStage_ok h e msg :
  stageSpec okSt (slotStage h e msg) noOptions (fun st _ => okSt st).
Proof.
  stage_cases; try assumption; try (apply noOptions_ok; reflexivity).
  - apply (session_ok_empty _ H). auto.
  - match goal with
    | Hg : _ && _ = false |- _ => destruct (guard_slot _ Hg) as [Hc|Hc]
    end; [apply (session_ok_empty _ H); auto|exact Hc].
Qed.

Lemma awbStage_ok e msg :
  stageSpec noOptions (awbStage e msg) noOptions (fun st _ => okSt st).
Proof.
  stage_cases; try assumption; try (apply noOptions_ok; assumption).
Qed.

Lemma gateStage_ok :
  stageSpec noOptions gateStage gatePassed (fun st _ => okSt st).
Proof.
  stage_cases; try (apply noOptions_ok; assumption).
  - split; [assumption|]. right.
    match goal with Hv : negb _ = false |- _ => by apply negb_false_iff in Hv end.
  - split; [assumption|]. by left.
Qed.

Lemma requiresReschedule_eligible c a o :
  truthy (llm_requiresReschedule (handleLlmRequest c a o)) = true ->
  eligible o /\ nextState (handleLlmRequest c a o) = RESCHEDULE_OPTIONS.
Proof.
  unfold handleLlmRequest, handleOrderAction, handleGreeting, handleFarewell, plain.
  repeat case_match; cbn; try discriminate.
  intros _. split; [|reflexivity].
  eexists; split; [reflexivity|].
  match goal with Hc : negb _ = false |- _ => by apply negb_false_iff in Hc end.
Qed.

Lemma intentStage_ok h e :
  handlerSpec gatePassed (intentStage h e) (fun st _ => okSt st).
Proof.
  stage_unfold. intros st [Hno Hgate]. red in Hno.
  cbn. intros Hne. cbn in Hne.
  destruct (currentOrder (st_session st)) as [order|] eqn:Ho;
    [|cbn in Hne; congruence].
  destruct (truthy (llm_requiresReschedule _)) eqn:Ht; [|cbn in Hne; congruence].
  apply requiresReschedule_eligible in Ht as [He Hs].
  destruct Hgate as [Hg|Hg]; [discriminate|]. auto.
Qed.

Lemma engine_ok h e msg : handlerSpec okSt (engine h e msg) (fun st _ => okSt st).
Proof.
  unfold engine, earlyStages.
  eapply orElse_spec; [|apply intentStage_ok].
  eapply andThen_spec; [apply otpStage_ok|].
  eapply andThen_spec; [apply slotStage_ok|].
  eapply andThen_spec; [apply awbStage_ok|apply gateStage_ok].
Qed.

(** ** Invariants of the server state *)

Lemma touch_ok s t : session_ok s -> session_ok (touch s t).
Proof. exact id. Qed.

Lemma newSession_ok t : session_ok (newSession t).
Proof. intros H. by destruct H. Qed.

Lemma chat_resolved h e req w s :
  resolve e req w = Some s -> chat h e req w = process h e req w s.
Proof.
  unfold resolve, chat. repeat case_match; intros; simplify_eq; reflexivity.
Qed.

Lemma chat_unresolved h e req w :
  resolve e req w = None ->
  chat h e req w = (w, BadRequest) \/ chat h e req w = (w, Json expiredReply)
  \/ chat h e req w = (expire (sessionId req) w, Json expiredReply).
Proof.
  unfold resolve, chat. repeat case_match; intros; simplify_eq; auto.
Qed.

Lemma resolve_ok e req w s :
  world_ok w -> resolve e req w = Some s ->
  session_ok s /\ sessionId req ∉ expiredSessions w.
Proof.
  intros [Hs _]. unfold resolve.
  repeat case_match; intros; simplify_eq;
    (split; [|by match goal with
                 | H : bool_decide (_ ∈ _) = false |- _ =>
                     apply bool_decide_eq_false in H
                 end]).
  - apply touch_ok. eauto.
  - apply newSession_ok.
Qed.

Lemma process_sessions h e req w s :
  sessions (process h e req w s).1
  = <[sessionId req := st_session (engine h e (message req) (start w s)).1]> (sessions w).
Proof. unfold process. by destruct (engine _ _ _ _). Qed.

Lemma process_expiredSessions h e req w s :
  expiredSessions (process h e req w s).1 = expiredSessions w.
Proof. unfold process. by destruct (engine _ _ _ _). Qed.

Lemma process_result h e req w s :
  (process h e req w s).2 = (engine h e (message req) (start w s)).2.
Proof. unfold process. by destruct (engine _ _ _ _). Qed.

Lemma chat_ok h e req w : world_ok w -> world_ok (chat h e req w).1.
Proof.
  intros Hw. destruct (resolve e req w) as [s|] eqn:Hr.
  - rewrite (chat_resolved _ _ _ _ _ Hr).
    destruct (resolve_ok _ _ _ _ Hw Hr) as [Hs Hne]. destruct Hw as [Hw1 Hw2].
    split.
    + intros id s'. rewrite process_sessions.
      destruct (decide (sessionId req = id)) as [->|Hd].
      * rewrite lookup_insert_eq. intros [= <-].
        apply (engine_ok h e (message req) (start w s)). exact Hs.
      * rewrite lookup_insert_ne by done. apply Hw1.
    + intros id. rewrite process_expiredSessions, process_sessions. intros Hin.
      rewrite lookup_insert_ne; [by apply Hw2|]. intros Heq. by rewrite Heq in Hne.
  - destruct Hw as [Hw1 Hw2].
    destruct (chat_unresolved h _ _ _ Hr) as [->|[->| ->]]; try done.
    split; cbn.
    + intros id s [_ Hl]%lookup_delete_Some. eauto.
    + intros id [->%elem_of_singleton|Hin]%elem_of_union.
      * apply lookup_delete_eq.
      * destruct (decide (sessionId req = id)) as [Heq|Hd];
          [rewrite Heq; apply lookup_delete_eq|rewrite lookup_delete_ne by done; auto].
Qed.

Lemma sweep_forgets t w :
  (forall id, id ∈ expiredSessions w -> sessions w !! id = None) ->
  expiredSessions (cleanupExpiredSessions t w) = ∅.
Proof.
  intros Hd. apply set_eq. intros id. split; [|set_solver].
  unfold cleanupExpiredSessions; cbn.
  intros [Hf Hin]%elem_of_filter. exfalso.
  unfold forgetAt in Hf.
  destruct (filter _ (sessions w) !! id) as [s|] eqn:Hl; [|done].
  apply map_lookup_filter_Some in Hl as [Hl Hidle]. cbn in Hidle.
  apply elem_of_union in Hin as [Hin|Hin].
  - rewrite (Hd _ Hin) in Hl. done.
  - apply elem_of_dom in Hin as [s' Hs'].
    apply map_lookup_filter_Some in Hs' as [Hs' Hidle']. cbn in Hidle'.
    congruence.
Qed.

Lemma sweep_ok t w : world_ok w -> world_ok (cleanupExpiredSessions t w).
Proof.
  intros [Hw1 Hw2]. split.
  - intros id s [Hl _]%map_lookup_filter_Some. eauto.
  - intros id. rewrite (sweep_forgets t w Hw2). set_solver.
Qed.

Lemma resetSession_ok h id w : world_ok w -> world_ok (resetSession h id w).
Proof.
  intros [Hw1 Hw2]. split; cbn.
  - intros i s [_ Hl]%lookup_delete_Some. eauto.
  - intros i [Hin Hne]%elem_of_difference.
    rewrite lookup_delete_ne; [auto|]. set_solver.
Qed.

Lemma testSessionExpiration_ok t id w :
  world_ok w -> world_ok (testSessionExpiration t id w).
Proof.
  intros [Hw1 Hw2]. unfold testSessionExpiration.
  destruct (sessions w !! id) as [s|] eqn:Hs; [|done].
  split; cbn.
  - intros i s'. destruct (decide (id = i)) as [->|Hd].
    + rewrite lookup_insert_eq. intros [= <-]. apply touch_ok. eauto.
    + rewrite lookup_insert_ne by done. apply Hw1.
  - intros i Hin. rewrite lookup_insert_ne; [auto|].
    intros ->. rewrite (Hw2 _ Hin) in Hs. done.
Qed.

Lemma apply_ok h w ev : world_ok w -> world_ok (apply h w ev).
Proof.
  destruct ev; cbn [apply].
  - apply chat_ok.
  - apply sweep_ok.
  - apply resetSession_ok.
  - apply testSessionExpiration_ok.
  - intros Hw. exact Hw.
Qed.

Lemma run_ok h evs w : world_ok w -> world_ok (run h evs w).
Proof.
  revert w. induction evs as [|ev evs IH]; intros w Hw; [exact Hw|].
  cbn. apply IH, apply_ok, Hw.
Qed.

Lemma reachable_ok h w : reachable h w -> world_ok w.
Proof.
  intros (docs & evs & ->). apply run_ok. split; cbn.
  - intros id s. rewrite lookup_empty. done.
  - set_solver.
Qed.

(** ** Order details stay behind the OTP *)

Ltac order_free := cbn; split; [reflexivity|auto 20].

Lemma otpStage_unverified e msg :
  stageSpec (fun st => okSt st /\ unverified st) (otpStage e msg)
    (fun st => okSt st /\ unverified st) (fun _ r => withoutOrderDetails r).
Proof. stage_cases; try assumption; order_free. Qed.

Lemma slotStage_unverified h e msg :
  stageSpec (fun st => okSt st /\ unverified st) (slotStage h e msg)
    unverified (fun _ r => withoutOrderDetails r).
Proof.
  intros st [Hok Hu].
  assert (Hno : rescheduleOptions (st_session st) = [])
    by (apply (session_ok_empty _ Hok); auto).
  unfold slotStage. rewrite Hno. cbn [length Nat.eqb negb].
  rewrite andb_false_r. exact Hu.
Qed.

Lemma awbStage_unverified e msg :
  stageSpec unverified (awbStage e msg) unverified (fun _ r => withoutOrderDetails r).
Proof.
  stage_cases; try assumption; try exact I; order_free.
Qed.

Lemma gateStage_unverified :
  stageSpec unverified gateStage
    (fun st => currentOrder (st_session st) = None) (fun _ r => withoutOrderDetails r).
Proof.
  stage_cases; try assumption; try order_free.
  red in H. rewrite H in *. discriminate.
Qed.

Lemma handleLlmRequest_no_order c a :
  In (llm_response (handleLlmRequest c a None)) orderFreeTexts.
Proof.
  unfold handleLlmRequest, handleOrderAction, handleGreeting, handleFarewell, plain.
  repeat case_match; cbn; auto 20.
Qed.

Lemma intentStage_unverified h e :
  handlerSpec (fun st => currentOrder (st_session st) = None) (intentStage h e)
    (fun _ r => withoutOrderDetails r).
Proof.
  stage_unfold. intros st Hnone. cbn. rewrite Hnone.
  split; [by destruct (truthy _)|apply handleLlmRequest_no_order].
Qed.

Lemma engine_unverified h e msg :
  handlerSpec (fun st => okSt st /\ unverified st) (engine h e msg)
    (fun _ r => withoutOrderDetails r).
Proof.
  unfold engine, earlyStages.
  eapply orElse_spec; [|apply intentStage_unverified].
  eapply andThen_spec; [apply otpStage_unverified|].
  eapply andThen_spec; [apply slotStage_unverified|].
  eapply andThen_spec; [apply awbStage_unverified|apply gateStage_unverified].
Qed.

(** A verified session stays verified through a request. *)
Lemma engine_verified h e msg :
  handlerSpec verified (engine h e msg) (fun st _ => verified st).
Proof.
  unfold engine, earlyStages.
  eapply orElse_spec; [|intros st Hv; exact Hv].
  eapply andThen_spec with (M := verified).
  { stage_cases; try assumption.
    all: match goal with
         | Hv : verified _, Hg : _ && _ = true |- _ =>
             red in Hv; destruct (guard_otp _ Hg) as [_ Hu]; congruence
         end. }
  eapply andThen_spec with (M := verified).
  { stage_cases; assumption. }
  eapply andThen_spec with (M := verified).
  { stage_cases; assumption. }
  stage_cases; assumption.
Qed.

Lemma withoutOrderDetails_expired : withoutOrderDetails (Json expiredReply).
Proof. order_free. Qed.

(** C1. In every state the server can reach, a session whose [otpVerified]
    flag is false (on arrival of the message, or once it is processed; an id
    without a session counts as unverified) gets an answer with no
    [orderDetails] member and with a response text that carries nothing of
    an order. *)
Theorem unverified_session_sees_no_order_details h w e req :
  reachable h w ->
  verifiedAt w (sessionId req) = false
  \/ verifiedAt (chat h e req w).1 (sessionId req) = false ->
  withoutOrderDetails (chat h e req w).2.
Proof.
  intros Hw%reachable_ok Hflag.
  destruct (resolve e req w) as [s|] eqn:Hr.
  - destruct (resolve_ok _ _ _ _ Hw Hr) as [Hs _].
    rewrite (chat_resolved _ _ _ _ _ Hr) in *.
    rewrite process_result.
    apply (engine_unverified h e (message req) (start w s)).
    split; [exact Hs|]. red. cbn [start st_session].
    destruct (otpVerified s) eqn:Hv; [exfalso|reflexivity].
    destruct Hflag as [Hflag|Hflag].
    + unfold verifiedAt, resolve in *.
      repeat case_match; simplify_eq; cbn in *; congruence.
    + unfold verifiedAt in Hflag.
      rewrite process_sessions, lookup_insert_eq in Hflag.
      pose proof (engine_verified h e (message req) (start w s) Hv) as Hv'.
      red in Hv'. congruence.
  - destruct (chat_unresolved h _ _ _ Hr) as [->|[->| ->]];
      [exact I|apply withoutOrderDetails_expired..].
Qed.

(** ** Single paths through the handler *)

Lemma live_resolve e req w s :
  live e req w s -> resolve e req w = Some (touch s (now e)).
Proof.
  intros (Hid & Hex & Hs & Hidle). unfold resolve.
  rewrite bool_decide_eq_false_2 by done.
  rewrite bool_decide_eq_false_2 by done.
  rewrite Hs.
  destruct (now e - lastActive s >? SESSION_EXPIRATION) eqn:Hgt; [|reflexivity].
  apply Z.gtb_lt in Hgt. lia.
Qed.

Lemma engine_otp h e msg st st' r :
  otpStage e msg st = (st', Some r) -> engine h e msg st = (st', r).
Proof.
  intros H. unfold engine, earlyStages, orElse, andThen. by rewrite H.
Qed.

Lemma engine_slot h e msg st st' r :
  otpStage e msg st = (st, None) -> slotStage h e msg st = (st', Some r) ->
  engine h e msg st = (st', r).
Proof.
  intros H1 H2. unfold engine, earlyStages, orElse, andThen. by rewrite H1, H2.
Qed.

Lemma otpStage_skip e msg st :
  conversationState (st_session st) <> AWAITING_OTP
  \/ otpVerified (st_session st) = true ->
  otpStage e msg st = (st, None).
Proof.
  intros H. unfold otpStage.
  destruct H as [H|H].
  - by rewrite bool_decide_eq_false_2.
  - by rewrite H, andb_false_r.
Qed.

Lemma process_eq h e req w s st res :
  engine h e (message req) (start w s) = (st, res) ->
  process h e req w s
  = ({| sessions := <[sessionId req := st_session st]> (sessions w);
        expiredSessions := expiredSessions w;
        orders := st_orders st;
        assistant := st_assistant st;
        whatsapp := st_whatsapp st |}, res).
Proof. intros H. unfold process. by rewrite H. Qed.

Lemma otpAccepted_true s t code stamp :
  otp s = Some code -> otpTimestamp s = Some stamp -> stamp <> 0 ->
  Text.isSixDigits code = true -> t - stamp <= 120 * 1000 ->
  otpAccepted s t code = true.
Proof.
  intros Ho Ht Hs H6 Hw. unfold otpAccepted. rewrite Ho, Ht.
  assert (code <> ""%string) by (intros ->; discriminate).
  rewrite (bool_decide_eq_true_2 (code = code)) by reflexivity.
  rewrite (bool_decide_eq_false_2 (code = ""%string)) by done.
  rewrite (proj2 (Z.eqb_neq _ _) Hs).
  rewrite (proj2 (Z.leb_le _ _)) by lia. reflexivity.
Qed.

Lemma otpAccepted_false s t code :
  otp s <> Some code
  \/ (exists stamp, otpTimestamp s = Some stamp /\ t - stamp > 120 * 1000) ->
  otpAccepted s t code = false.
Proof.
  intros H. unfold otpAccepted.
  destruct (otp s) as [issued|]; [|reflexivity].
  destruct (otpTimestamp s) as [stamp|]; [|reflexivity].
  destruct H as [H|(stamp' & [= <-] & H)].
  - rewrite (bool_decide_eq_false_2 (code = issued)) by congruence.
    by rewrite andb_false_r.
  - rewrite (proj2 (Z.leb_gt _ _)) by lia.
    by rewrite andb_false_r.
Qed.

(** C2, amended. A session in [AWAITING_OTP] that is not verified and that
    the request finds alive (its last activity is at most 120 seconds before
    the arrival of the message): the issued
    six-digit code, sent within 120 seconds of its issuance, moves the
    session to [ORDER_FOUND] with [otpVerified] set; a six-digit message
    that is not the issued code, or that comes after the 120 seconds, moves
    it to [INITIAL] with [otp] and [otpTimestamp] cleared and [otpVerified]
    false; any other message is answered with the prompt for the code and
    leaves [otp], [otpTimestamp] and the state as they were. *)
Theorem otp_validation h e req w s :
  live e req w s ->
  conversationState s = AWAITING_OTP -> otpVerified s = false ->
  let code := Text.trim (message req) in
  let w' := (chat h e req w).1 in
  (forall stamp,
     otp s = Some code -> otpTimestamp s = Some stamp -> stamp <> 0 ->
     Text.isSixDigits code = true -> nowOtp e - stamp <= 120 * 1000 ->
     exists s', sessions w' !! sessionId req = Some s'
       /\ conversationState s' = ORDER_FOUND /\ otpVerified s' = true)
  /\ (Text.isSixDigits code = true ->
      otp s <> Some code
      \/ (exists stamp, otpTimestamp s = Some stamp /\ nowOtp e - stamp > 120 * 1000) ->
      exists s', sessions w' !! sessionId req = Some s'
        /\ conversationState s' = INITIAL /\ otp s' = None
        /\ otpTimestamp s' = None /\ otpVerified s' = false)
  /\ (Text.isSixDigits code = false ->
      (chat h e req w).2
      = Json (otpReply "Please enter the 6-digit OTP sent to your WhatsApp number."
                AWAITING_OTP true)
      /\ exists s', sessions w' !! sessionId req = Some s'
        /\ otp s' = otp s /\ otpTimestamp s' = otpTimestamp s
        /\ conversationState s' = conversationState s).
Proof.
  intros Hlive Hstate Hver code w'. subst w'.
  rewrite (chat_resolved _ _ _ _ _ (live_resolve _ _ _ _ Hlive)).
  assert (Hstage : otpStage e (message req) (start w (touch s (now e)))
    = if Text.isSixDigits code then
        if otpAccepted (touch s (now e)) (nowOtp e) code then
          (withSession (start w (touch s (now e)))
             {| conversationState := ORDER_FOUND; currentOrder := currentOrder s;
                rescheduleOptions := rescheduleOptions s; lastActive := now e;
                otp := otp s; otpTimestamp := otpTimestamp s; otpVerified := true |},
           Some (Json (otpReply "Verification successful! You can now access your order details."
                         ORDER_FOUND false)))
        else
          (withSession (start w (touch s (now e)))
             {| conversationState := INITIAL; currentOrder := currentOrder s;
                rescheduleOptions := rescheduleOptions s; lastActive := now e;
                otp := None; otpTimestamp := None; otpVerified := false |},
           Some (Json (otpReply "Verification unsuccessful, try again later." INITIAL false)))
      else
        (start w (touch s (now e)),
         Some (Json (otpReply "Please enter the 6-digit OTP sent to your WhatsApp number."
                       AWAITING_OTP true)))).
  { unfold otpStage. cbn [start st_session touch conversationState otpVerified].
    rewrite Hstate, Hver. rewrite bool_decide_eq_true_2 by reflexivity.
    reflexivity. }
  split; [|split].
  - intros stamp Ho Ht Hs H6 Hw.
    rewrite H6, (otpAccepted_true (touch s (now e)) _ _ stamp) in Hstage by done.
    rewrite (process_eq _ _ _ _ _ _ _ (engine_otp h _ _ _ _ _ Hstage)).
    cbn. rewrite lookup_insert_eq. eauto.
  - intros H6 Hbad.
    rewrite H6, (otpAccepted_false (touch s (now e))) in Hstage by done.
    rewrite (process_eq _ _ _ _ _ _ _ (engine_otp h _ _ _ _ _ Hstage)).
    cbn. rewrite lookup_insert_eq. eauto 10.
  - intros H6. rewrite H6 in Hstage.
    rewrite (process_eq _ _ _ _ _ _ _ (engine_otp h _ _ _ _ _ Hstage)).
    cbn. rewrite lookup_insert_eq. eauto 10.
Qed.

Lemma engine_lastActive h e msg t :
  handlerSpec (fun st => lastActive (st_session st) = t) (engine h e msg)
    (fun st _ => lastActive (st_session st) = t).
Proof.
  unfold engine, earlyStages.
  set (P := fun st : St => lastActive (st_session st) = t).
  eapply orElse_spec with (M := P); [|stage_cases; assumption].
  eapply andThen_spec with (M := P); [stage_cases; assumption|].
  eapply andThen_spec with (M := P); [stage_cases; assumption|].
  eapply andThen_spec with (M := P); stage_cases; assumption.
Qed.

(** C3. A stored session whose id is not marked expired: when its
    [lastActive] is more than 120 seconds before the arrival of the message,
    the answer has [sessionExpired] and [endConversation] set, the session
    is removed from [sessions] and its id is put in [expiredSessions];
    otherwise the message is processed on the session with [lastActive] set
    to the arrival time, which is what the stored session then carries. *)
Theorem session_expiry h e req w s :
  sessionId req <> ""%string ->
  sessionId req ∉ expiredSessions w ->
  sessions w !! sessionId req = Some s ->
  (now e - lastActive s > 120 * 1000 ->
   (exists r, (chat h e req w).2 = Json r
      /\ sessionExpired r = Some true /\ endConversation r = Some true)
   /\ sessions (chat h e req w).1 !! sessionId req = None
   /\ sessionId req ∈ expiredSessions (chat h e req w).1)
  /\ (now e - lastActive s <= 120 * 1000 ->
      chat h e req w = process h e req w (touch s (now e))
      /\ exists s', sessions (chat h e req w).1 !! sessionId req = Some s'
           /\ lastActive s' = now e).
Proof.
  intros Hid Hex Hs. split.
  - intros Hidle. unfold chat.
    rewrite bool_decide_eq_false_2 by done.
    rewrite bool_decide_eq_false_2 by done.
    rewrite Hs.
    rewrite (proj2 (Z.gtb_lt _ _)) by (unfold SESSION_EXPIRATION; lia).
    cbn. split; [eauto|]. split; [apply lookup_delete_eq|set_solver].
  - intros Hidle.
    assert (Hlive : live e req w s) by (unfold live, SESSION_EXPIRATION; auto with lia).
    rewrite (chat_resolved h _ _ _ _ (live_resolve _ _ _ _ Hlive)).
    split; [reflexivity|].
    rewrite process_sessions, lookup_insert_eq. eexists; split; [reflexivity|].
    apply (engine_lastActive h e (message req) (now e) (start w (touch s (now e)))).
    reflexivity.
Qed.

(** ** Reschedule options *)

Lemma isNaN_inside t :
  - JsDate.maxTime <= t <= JsDate.maxTime -> JsDate.isNaN t = false.
Proof.
  intros Ht. unfold JsDate.isNaN.
  rewrite (proj2 (Z.ltb_ge _ _)), (proj2 (Z.ltb_ge _ _)) by lia. reflexivity.
Qed.

Lemma TimeClip_inside t :
  - JsDate.maxTime <= t <= JsDate.maxTime -> JsDate.TimeClip t = t.
Proof. intros Ht. unfold JsDate.TimeClip. by rewrite isNaN_inside. Qed.



Lemma Day_plus t i :
  JsDate.Day (t + i * JsDate.msPerDay) = JsDate.Day t + i.
Proof. unfold JsDate.Day, JsDate.msPerDay. by rewrite Z.div_add. Qed.

(** [eraDayOf] undoes [civilOfEraDay] on the days of an era, and the year of
    the era is in range. *)
Lemma civilOfEraDay_inverse doe :
  0 <= doe < 146097 ->
  let '(yoe, m, d) := JsDate.civilOfEraDay doe in
  0 <= yoe < 400 /\ JsDate.eraDayOf yoe m 1 + d - 1 = doe.
Proof.
  intros Hd. unfold JsDate.civilOfEraDay, JsDate.eraDayOf. cbv zeta.
  set (yoe := (doe - doe / 1460 + doe / 36524 - doe / 146096) / 365).
  set (doy := doe - (365 * yoe + yoe / 4 - yoe / 100)).
  set (mp := (5 * doy + 2) / 153).
  assert (Hy : 0 <= yoe < 400 /\ 0 <= doy <= 365)
    by (subst doy yoe; Z.div_mod_to_equations; lia).
  assert (Hmp : 0 <= mp <= 11) by (subst mp; Z.div_mod_to_equations; lia).
  split; [lia|].
  destruct (mp <? 10) eqn:Hlt.
  - apply Z.ltb_lt in Hlt.
    rewrite (proj2 (Z.ltb_lt 2 (mp + 3))) by lia.
    replace (mp + 3 - 3) with mp by lia. subst doy. lia.
  - apply Z.ltb_ge in Hlt.
    rewrite (proj2 (Z.ltb_ge 2 (mp - 9))) by lia.
    replace (mp - 9 + 9) with mp by lia. subst doy. lia.
Qed.

Lemma MakeDay_civil day dt :
  let '(y, m, d) := JsDate.civil day in JsDate.MakeDay y m (d + dt) = day + dt.
Proof.
  unfold JsDate.civil.
  pose proof (Z.mod_pos_bound (day + 719468) 146097 ltac:(lia)) as Hb.
  pose proof (civilOfEraDay_inverse _ Hb) as Hc.
  pose proof (Z.div_mod (day + 719468) 146097 ltac:(lia)) as Hdm.
  destruct (JsDate.civilOfEraDay _) as [[yoe m] d].
  destruct Hc as [Hy Hinv].
  unfold JsDate.MakeDay.
  set (era := (day + 719468) / 146097) in *.
  assert (Hy' : (if m <=? 2 then yoe + era * 400 + (if m <=? 2 then 1 else 0) - 1
                 else yoe + era * 400 + (if m <=? 2 then 1 else 0))
                = yoe + era * 400) by (destruct (m <=? 2); lia).
  rewrite Hy'.
  assert (He : (yoe + era * 400) / 400 = era)
    by (symmetry; apply (Z.div_unique _ _ _ yoe); lia).
  rewrite He. replace (yoe + era * 400 - era * 400) with yoe by lia. lia.
Qed.

(** [date.setDate(date.getDate() + i)] on a valid Date asks for the local
    time [i] days on. *)
Lemma setDate_getDate tz t i :
  JsDate.isNaN t = false ->
  JsDate.setDate tz t (JsDate.getDate tz t + i)
  = JsDate.TimeClip (JsDate.UTC tz (JsDate.LocalTime tz t + i * JsDate.msPerDay)).
Proof.
  intros Ht. unfold JsDate.setDate, JsDate.getDate. rewrite Ht.
  pose proof (MakeDay_civil (JsDate.Day (JsDate.LocalTime tz t)) i) as Hm.
  destruct (JsDate.civil _) as [[y m] d]. rewrite Hm. do 2 f_equal.
  unfold JsDate.MakeDate, JsDate.TimeWithinDay, JsDate.Day.
  pose proof (Z.div_mod (JsDate.LocalTime tz t) JsDate.msPerDay
                ltac:(unfold JsDate.msPerDay; lia)).
  lia.
Qed.

(** On an Invalid Date both stay NaN. *)
Lemma setDate_NaN tz t dt : JsDate.isNaN t = true -> JsDate.setDate tz t dt = JsDate.NaN.
Proof. intros Ht. unfold JsDate.setDate. by rewrite Ht. Qed.


(** The option generated for offset [i], for the three offsets of the loop. *)
Lemma rescheduleOption_eq tz baseDate i :
  1 <= i <= 3 ->
  rescheduleOption tz baseDate i
  = let slot := nth (Z.to_nat (i mod 3)) slotTypes ""%string in
    let d := JsDate.setHours tz
               (JsDate.setDate tz baseDate (JsDate.getDate tz baseDate + i))
               (slotHour slot) in
    {| date := d; display := (JsDate.shortLabel tz d +:+ " | " +:+ slot)%string |}.
Proof.
  intros Hi. assert (i = 1 \/ i = 2 \/ i = 3) as [->|[->| ->]] by lia.
  all: unfold rescheduleOption, slotHour; cbv zeta.
  - change (nth _ slotTypes _) with "Afternoon"%string.
    change (bool_decide ("Afternoon"%string = "Morning"%string)) with false.
    change (bool_decide ("Afternoon"%string = "Afternoon"%string)) with true.
    reflexivity.
  - change (nth _ slotTypes _) with "Evening"%string.
    change (bool_decide ("Evening"%string = "Morning"%string)) with false.
    change (bool_decide ("Evening"%string = "Afternoon"%string)) with false.
    change (bool_decide ("Evening"%string = "Evening"%string)) with true.
    reflexivity.
  - change (nth _ slotTypes _) with "Morning"%string.
    change (bool_decide ("Morning"%string = "Morning"%string)) with true.
    reflexivity.
Qed.

(** The date of the option for offset [i]: the instant of the local time
    [slotTime], [i] local days on, at the hour of its slot. *)
Lemma rescheduleOption_date tz baseDate i :
  1 <= i <= 3 ->
  JsDate.isNaN baseDate = false -> hostHasSlots tz baseDate ->
  date (rescheduleOption tz baseDate i)
  = JsDate.UTC tz (slotTime (JsDate.LocalTime tz baseDate) i)
  /\ JsDate.isNaN (date (rescheduleOption tz baseDate i)) = false
  /\ JsDate.LocalTime tz (date (rescheduleOption tz baseDate i))
     = slotTime (JsDate.LocalTime tz baseDate) i.
Proof.
  intros Hi Hbase Hhost. destruct (Hhost i Hi) as (Hx & Hkeep & Hy & Hun).
  assert (Hd : date (rescheduleOption tz baseDate i)
               = JsDate.UTC tz (slotTime (JsDate.LocalTime tz baseDate) i)).
  { rewrite (rescheduleOption_eq tz baseDate i Hi). cbv zeta. cbn [date].
    rewrite (setDate_getDate tz baseDate i Hbase).
    set (local := JsDate.LocalTime tz baseDate) in *.
    unfold JsDate.TimeClip at 1. rewrite Hx.
    unfold JsDate.setHours. rewrite Hx.
    unfold keepsDay in Hkeep. rewrite Hkeep, Day_plus.
    unfold JsDate.MakeDate.
    change ((JsDate.Day local + i) * JsDate.msPerDay
            + slotHour (nth (Z.to_nat (i mod 3)) slotTypes ""%string)
              * JsDate.msPerHour)
      with (slotTime local i).
    unfold JsDate.TimeClip. rewrite Hy. reflexivity. }
  rewrite Hd. split; [reflexivity|split; [exact Hy|exact Hun]].
Qed.

(** Of an Invalid Date the loop makes three Invalid Dates. *)
Lemma rescheduleOption_NaN tz baseDate i :
  1 <= i <= 3 -> JsDate.isNaN baseDate = true ->
  rescheduleOption tz baseDate i
  = {| date := JsDate.NaN;
       display := ("Invalid Date | " +:+ nth (Z.to_nat (i mod 3)) slotTypes "")%string |}.
Proof.
  intros Hi Hn. rewrite (rescheduleOption_eq tz baseDate i Hi). cbv zeta.
  rewrite setDate_NaN by exact Hn. reflexivity.
Qed.

Lemma steadyZone_newYork2023 : steadyZone (13 * JsDate.msPerHour) newYork2023.
Proof.
  intros t b t' b'. unfold newYork2023, JsDate.LocalTZA, JsDate.msPerHour.
  repeat case_match; lia.
Qed.


(** The dates of the three options, by their local slot times. *)
Lemma options_dates tz baseDate :
  JsDate.isNaN baseDate = false -> hostHasSlots tz baseDate ->
  let local := JsDate.LocalTime tz baseDate in
  exists c1 c2 c3,
    c1 = JsDate.LocalTZA tz (slotTime local 1) false
    /\ c2 = JsDate.LocalTZA tz (slotTime local 2) false
    /\ c3 = JsDate.LocalTZA tz (slotTime local 3) false
    /\ date (rescheduleOption tz baseDate 1)
       = (JsDate.Day local + 1) * JsDate.msPerDay + 13 * JsDate.msPerHour - c1
    /\ date (rescheduleOption tz baseDate 2)
       = (JsDate.Day local + 2) * JsDate.msPerDay + 18 * JsDate.msPerHour - c2
    /\ date (rescheduleOption tz baseDate 3)
       = (JsDate.Day local + 3) * JsDate.msPerDay + 9 * JsDate.msPerHour - c3.
Proof.
  intros Hbase Hhost local. do 3 eexists. do 3 (split; [reflexivity|]).
  destruct (rescheduleOption_date tz baseDate 1 ltac:(lia) Hbase Hhost) as [-> _].
  destruct (rescheduleOption_date tz baseDate 2 ltac:(lia) Hbase Hhost) as [-> _].
  destruct (rescheduleOption_date tz baseDate 3 ltac:(lia) Hbase Hhost) as [-> _].
  repeat split; reflexivity.
Qed.


Lemma hostHasSlots_newYork2023 : hostHasSlots newYork2023 1678449600000.
Proof.
  intros i Hi. assert (i = 1 \/ i = 2 \/ i = 3) as [->|[->| ->]] by lia;
    vm_compute; repeat split; reflexivity.
Qed.



(** On a host in America/New_York, two days before the clocks go forward:
    the first option is at 13:00 of the old offset, the others at 18:00 and
    09:00 of the new one. *)
Example generateRescheduleOptions_newYork :
  generateRescheduleOptions newYork2023 1678449600000
  = [ {| date := 1678557600000; display := "Sat, Mar 11 | Afternoon" |};
      {| date := 1678658400000; display := "Sun, Mar 12 | Evening" |};
      {| date := 1678712400000; display := "Mon, Mar 13 | Morning" |} ].
Proof. vm_compute. reflexivity. Qed.

(** ** Slot selection *)

Lemma updateOne_count key set docs :
  (Database.updateOne key set docs).2 = 0 \/ (Database.updateOne key set docs).2 = 1.
Proof.
  induction docs as [|o rest IH]; cbn; [by left|].
  destruct (bool_decide (awb o = key)); cbn.
  - destruct (bool_decide (set o = o)); auto.
  - destruct (Database.updateOne key set rest). exact IH.
Qed.

Lemma updateOne_unmodified key set docs :
  (Database.updateOne key set docs).2 = 0 -> (Database.updateOne key set docs).1 = docs.
Proof.
  induction docs as [|o rest IH]; cbn; [done|].
  destruct (bool_decide (awb o = key)); cbn.
  - destruct (bool_decide (set o = o)) eqn:E; [|done].
    apply bool_decide_eq_true in E. intros _. by rewrite E.
  - destruct (Database.updateOne key set rest). cbn in *. intros H. by rewrite IH.
Qed.

(** A failed [rescheduleOrder] leaves the collection as it was. *)
Lemma rescheduleOrder_failed ok t key newDate docs :
  (Database.rescheduleOrder ok t key newDate docs).2 = false ->
  (Database.rescheduleOrder ok t key newDate docs).1 = docs.
Proof.
  unfold Database.rescheduleOrder. destruct ok; [|done].
  pose proof (updateOne_count key (Database.rescheduleSet newDate t) docs) as Hc.
  pose proof (updateOne_unmodified key (Database.rescheduleSet newDate t) docs) as Hu.
  destruct (Database.updateOne _ _ _) as [docs' n]. cbn in *.
  intros Hn%Z.eqb_neq. apply Hu. lia.
Qed.

Lemma slotStage_selected h e msg st k selected order :
  conversationState (st_session st) = RESCHEDULE_OPTIONS ->
  Text.parseInt (Text.trim msg) = Some k -> 1 <= k ->
  rescheduleOptions (st_session st) !! Z.to_nat (k - 1) = Some selected ->
  currentOrder (st_session st) = Some order ->
  slotStage h e msg st
  = let session := st_session st in
    let '(orders', success) :=
      Database.rescheduleOrder (updateOk e) (nowUpdate e) (awb order)
        (date selected) (st_orders st) in
    if success then
      if findOk e then
        let fresh := Database.getOrderStatus (awb order) orders' in
        ({| st_session :=
              {| conversationState := ORDER_FOUND; currentOrder := fresh;
                 rescheduleOptions := [];
                 lastActive := lastActive session;
                 otp := otp session; otpTimestamp := otpTimestamp session;
                 otpVerified := otpVerified session |};
            st_orders := orders';
            st_assistant := st_assistant st;
            st_whatsapp :=
              match fresh with
              | Some o =>
                  if truthyString (customerPhone o)
                  then sendWhatsAppUpdate (twilioOk e)
                         (default ""%string (customerPhone o))
                         (formatWhatsAppMessage h o) (st_whatsapp st)
                  else st_whatsapp st
              | None => st_whatsapp st
              end |},
         Some (Json (rescheduledReply h selected fresh)))
      else
        ({| st_session := session; st_orders := orders';
            st_assistant := st_assistant st; st_whatsapp := st_whatsapp st |},
         Some InternalError)
    else
      ({| st_session := session; st_orders := orders';
          st_assistant := st_assistant st; st_whatsapp := st_whatsapp st |},
       Some (Json (slotReply "Failed to reschedule. Please try again later."
                     ORDER_FOUND))).
Proof.
  intros Hs Hp Hk Hsel Ho. unfold slotStage.
  pose proof (lookup_lt_Some _ _ _ Hsel) as Hlen.
  rewrite Hs, bool_decide_eq_true_2 by reflexivity.
  destruct (length (rescheduleOptions (st_session st))) as [|n] eqn:Hn; [lia|].
  cbn [Nat.eqb negb andb]. rewrite Hp. unfold slotInRange.
  rewrite (proj2 (Z.leb_le 1 k)) by lia.
  rewrite (proj2 (Z.leb_le k _)) by lia.
  cbn [andb]. rewrite Hsel, Ho. reflexivity.
Qed.

Lemma slotStage_rejected h e msg st :
  conversationState (st_session st) = RESCHEDULE_OPTIONS ->
  rescheduleOptions (st_session st) <> [] ->
  slotInRange (Text.parseInt (Text.trim msg)) (length (rescheduleOptions (st_session st)))
  = None ->
  slotStage h e msg st
  = (st, Some (Json (slotReply
       ("Please enter a number between 1 and "
        +:+ Text.toString (Z.of_nat (length (rescheduleOptions (st_session st)))) +:+ ".")%string
       RESCHEDULE_OPTIONS))).
Proof.
  intros Hs Hne Hr. unfold slotStage.
  rewrite Hs, bool_decide_eq_true_2 by reflexivity.
  destruct (rescheduleOptions (st_session st)) as [|o opts] eqn:Hopts; [done|].
  cbn [length Nat.eqb negb andb] in *. rewrite Hr. reflexivity.
Qed.

Lemma live_slot h e req w s st r :
  live e req w s ->
  conversationState s = RESCHEDULE_OPTIONS ->
  slotStage h e (message req) (start w (touch s (now e))) = (st, Some r) ->
  chat h e req w
  = ({| sessions := <[sessionId req := st_session st]> (sessions w);
        expiredSessions := expiredSessions w;
        orders := st_orders st;
        assistant := st_assistant st;
        whatsapp := st_whatsapp st |}, r).
Proof.
  intros Hlive Hs Hslot.
  rewrite (chat_resolved h _ _ _ _ (live_resolve _ _ _ _ Hlive)).
  apply process_eq, engine_slot; [|exact Hslot].
  apply otpStage_skip. left. cbn. congruence.
Qed.

(** C8. When the store does not apply the update for a selected option
    ([rescheduleOrder] gives [false]), the stored session keeps its state
    [RESCHEDULE_OPTIONS] and its list of options, nothing else of the server
    state changes (the collection, the assistant, the notifier's log), and
    the answer is the message that suggests to try again. *)
Theorem failed_update_keeps_selection h e req w s k selected order :
  live e req w s ->
  conversationState s = RESCHEDULE_OPTIONS ->
  Text.parseInt (Text.trim (message req)) = Some k -> 1 <= k ->
  rescheduleOptions s !! Z.to_nat (k - 1) = Some selected ->
  currentOrder s = Some order ->
  (Database.rescheduleOrder (updateOk e) (nowUpdate e) (awb order)
     (date selected) (orders w)).2 = false ->
  chat h e req w
  = ({| sessions := <[sessionId req := touch s (now e)]> (sessions w);
        expiredSessions := expiredSessions w;
        orders := orders w;
        assistant := assistant w;
        whatsapp := whatsapp w |},
     Json (slotReply "Failed to reschedule. Please try again later." ORDER_FOUND))
  /\ conversationState (touch s (now e)) = RESCHEDULE_OPTIONS
  /\ rescheduleOptions (touch s (now e)) = rescheduleOptions s.
Proof.
  intros Hlive Hs Hp Hk Hsel Ho Hfail.
  split; [|split; [exact Hs|reflexivity]].
  pose proof (rescheduleOrder_failed _ _ _ _ _ Hfail) as Hsame.
  eapply (live_slot h e req w s (start w (touch s (now e)))); [done..|].
  rewrite (slotStage_selected h e _ _ k selected order) by done.
  cbn [start st_orders st_session].
  destruct (Database.rescheduleOrder _ _ _ _ _) as [orders' success].
  cbn in Hfail, Hsame. rewrite Hfail, Hsame. reflexivity.
Qed.

(** ** Decimal numerals *)

Lemma isDigit_digitChar d : 0 <= d < 10 -> Text.isDigit (Text.digitChar d) = true.
Proof.
  intros Hd.
  assert (d = 0 \/ d = 1 \/ d = 2 \/ d = 3 \/ d = 4 \/ d = 5 \/ d = 6 \/ d = 7
          \/ d = 8 \/ d = 9) as Hc by lia.
  repeat destruct Hc as [->|Hc]; try reflexivity. by subst.
Qed.

Lemma toString_six_digits n :
  100000 <= n < 1000000 -> Text.isSixDigits (Text.toString n) = true.
Proof.
  intros Hn. unfold Text.toString.
  assert (Hlog : 16 <= Z.log2 n).
  { change 16 with (Z.log2 65536). apply Z.log2_le_mono. lia. }
  destruct (Z.to_nat (Z.log2 n)) as [|[|[|[|[|f]]]]] eqn:Hf; try lia.
  cbn [Text.digitsOf].
  assert (H1 : n / 10 <> 0) by (intros H; apply Z.div_small_iff in H; lia).
  assert (H2 : n / 10 / 10 <> 0)
    by (rewrite Z.div_div by lia; intros H; apply Z.div_small_iff in H; lia).
  assert (H3 : n / 10 / 10 / 10 <> 0)
    by (rewrite !Z.div_div by lia; intros H; apply Z.div_small_iff in H; lia).
  assert (H4 : n / 10 / 10 / 10 / 10 <> 0)
    by (rewrite !Z.div_div by lia; intros H; apply Z.div_small_iff in H; lia).
  assert (H5 : n / 10 / 10 / 10 / 10 / 10 <> 0)
    by (rewrite !Z.div_div by lia; intros H; apply Z.div_small_iff in H; lia).
  assert (H6 : n / 10 / 10 / 10 / 10 / 10 / 10 = 0)
    by (rewrite !Z.div_div by lia; apply Z.div_small; lia).
  rewrite (proj2 (Z.eqb_neq _ _) H1), (proj2 (Z.eqb_neq _ _) H2),
    (proj2 (Z.eqb_neq _ _) H3), (proj2 (Z.eqb_neq _ _) H4),
    (proj2 (Z.eqb_neq _ _) H5), H6.
  cbn [Z.eqb]. unfold Text.isSixDigits. cbn [String.length Nat.eqb andb Text.allDigits].
  rewrite !isDigit_digitChar by (apply Z.mod_pos_bound; lia).
  reflexivity.
Qed.

(** ** Slot selection bounds *)

(** C5, amended. A live session in [RESCHEDULE_OPTIONS] with three pending
    options and an order: on the message "1", "2" or "3", the date of the
    option with that number is sent to the store, and when the store applies
    the update and answers the read that follows, the pending list is
    cleared, the state becomes [ORDER_FOUND] and the answer names the
    selected option; on "0", "4" and "abc" nothing changes but [lastActive]
    and the answer asks for a number between 1 and 3. *)
Theorem slot_selection_bounds h e req w s o1 o2 o3 order :
  live e req w s ->
  conversationState s = RESCHEDULE_OPTIONS ->
  rescheduleOptions s = [o1; o2; o3] ->
  currentOrder s = Some order ->
  (forall k selected orders',
     1 <= k <= 3 -> message req = Text.toString k ->
     [o1; o2; o3] !! Z.to_nat (k - 1) = Some selected ->
     Database.rescheduleOrder (updateOk e) (nowUpdate e) (awb order)
       (date selected) (orders w) = (orders', true) ->
     findOk e = true ->
     (chat h e req w).2
     = Json (rescheduledReply h selected (Database.getOrderStatus (awb order) orders'))
     /\ orders (chat h e req w).1 = orders'
     /\ exists s', sessions (chat h e req w).1 !! sessionId req = Some s'
          /\ rescheduleOptions s' = [] /\ conversationState s' = ORDER_FOUND)
  /\ (In (message req) ["0"; "4"; "abc"]%string ->
      chat h e req w
      = ({| sessions := <[sessionId req := touch s (now e)]> (sessions w);
            expiredSessions := expiredSessions w;
            orders := orders w;
            assistant := assistant w;
            whatsapp := whatsapp w |},
         Json (slotReply "Please enter a number between 1 and 3." RESCHEDULE_OPTIONS))).
Proof.
  intros Hlive Hs Hopts Ho. split.
  - intros k selected orders' Hk Hmsg Hsel Hupd Hfind.
    assert (Hparse : Text.parseInt (Text.trim (message req)) = Some k).
    { rewrite Hmsg.
      assert (k = 1 \/ k = 2 \/ k = 3) as [->|[->| ->]] by lia; reflexivity. }
    erewrite (live_slot h e req w s); [| done | done |].
    2:{ rewrite (slotStage_selected h e _ _ k selected order);
          [| done | done | lia | by cbn; rewrite Hopts | done].
        cbn [start st_orders st_session]. rewrite Hupd, Hfind. reflexivity. }
    cbn. split; [reflexivity|]. split; [reflexivity|].
    rewrite lookup_insert_eq. eauto.
  - intros Hin.
    eapply (live_slot h e req w s (start w (touch s (now e)))); [done..|].
    rewrite slotStage_rejected; cbn [start st_session touch rescheduleOptions
      conversationState]; rewrite ?Hopts; try done.
    cbn in Hin. destruct Hin as [<-|[<-|[<-|[]]]]; reflexivity.
Qed.

(** ** Tracking ids and the issue of a code *)

Lemma slotStage_skip h e msg st :
  rescheduleOptions (st_session st) = [] -> slotStage h e msg st = (st, None).
Proof.
  intros H. unfold slotStage. rewrite H. cbn [length Nat.eqb negb].
  by rewrite andb_false_r.
Qed.

Lemma engine_awb h e msg st st' r :
  otpStage e msg st = (st, None) -> slotStage h e msg st = (st, None) ->
  awbStage e msg st = (st', Some r) ->
  engine h e msg st = (st', r).
Proof.
  intros H1 H2 H3. unfold engine, earlyStages, orElse, andThen.
  by rewrite H1, H2, H3.
Qed.

Lemma resolve_withTwilio e b req w : resolve (withTwilio e b) req w = resolve e req w.
Proof. reflexivity. Qed.

(** C6, amended. In a reachable state, a message that carries a tracking id
    of an order in the collection, for a session that is not verified (the
    flag [otpVerified] is the session's, whichever order it was set through)
    and is not waiting for a code: a six-digit code is generated and stored with
    its time of issuance, the session moves to [AWAITING_OTP], and the
    notifier is asked to deliver the code exactly when the order has a
    customer phone; the outcome [b] of the notifier changes nothing but the
    flag of the recorded call. *)
Theorem tracking_id_issues_otp h e req w s key order b :
  reachable h w ->
  resolve e req w = Some s ->
  conversationState s <> AWAITING_OTP -> otpVerified s = false ->
  extractAWB (message req) = Some key ->
  Database.getOrderStatus key (orders w) = Some order ->
  findOk e = true ->
  0 <= random e < 900000 ->
  let w' := (chat h (withTwilio e b) req w).1 in
  Text.isSixDigits (issuedCode e) = true
  /\ (exists s', sessions w' !! sessionId req = Some s'
        /\ conversationState s' = AWAITING_OTP /\ currentOrder s' = Some order
        /\ otp s' = Some (issuedCode e) /\ otpTimestamp s' = Some (nowIssued e)
        /\ otpVerified s' = false)
  /\ whatsapp w'
     = (if truthyString (customerPhone order)
        then whatsapp w ++ [ {| wa_to := default ""%string (customerPhone order);
                                wa_body := otpMessage (issuedCode e);
                                wa_delivered := b |} ]
        else whatsapp w)
  /\ (chat h (withTwilio e b) req w).2
     = Json (otpReply
         "For your security, please enter the 6-digit OTP sent to your WhatsApp number to access your order details."
         AWAITING_OTP true).
Proof.
  intros Hw%reachable_ok Hr Hs Hv Hawb Hget Hfind Hrand w'. subst w'.
  destruct (resolve_ok _ _ _ _ Hw Hr) as [Hok _].
  assert (Hno : rescheduleOptions s = []) by (apply (session_ok_empty _ Hok); auto).
  split; [apply toString_six_digits; lia|].
  rewrite (chat_resolved h (withTwilio e b) req w s) by done.
  erewrite process_eq.
  2:{ apply engine_awb;
        [apply otpStage_skip; by left | by apply slotStage_skip |].
      unfold awbStage. rewrite Hawb.
      cbn [findOk withTwilio start st_session st_orders]. rewrite Hfind, Hget, Hv.
      cbn [negb]. reflexivity. }
  cbn. rewrite lookup_insert_eq. split; [eauto 10|].
  split; [|reflexivity]. by destruct (truthyString (customerPhone order)).
Qed.

(** ** Reschedule eligibility *)






(** ** The resolver's fallbacks *)


Lemma engine_dispatch h e msg st st1 :
  earlyStages h e msg st = (st1, None) ->
  engine h e msg st = intentStage h e st1.
Proof. intros H. unfold engine, orElse. by rewrite H. Qed.


Lemma awaitingWorld_reachable : reachable demoHost awaitingWorld.
Proof. eexists _, _. reflexivity. Qed.

Lemma awaitingWorld_session : sessions awaitingWorld !! "s1"%string = Some awaitingSession.
Proof. vm_compute. reflexivity. Qed.

Lemma awaitingWorld_unmarked : "s1"%string ∉ expiredSessions awaitingWorld.
Proof.
  assert (H : bool_decide ("s1"%string ∈ expiredSessions awaitingWorld) = false)
    by (vm_compute; reflexivity).
  exact (proj1 (bool_decide_eq_false _) H).
Qed.

Lemma awaiting_live t c text : 
  t - 1700000001000 <= SESSION_EXPIRATION ->
  live (demoEnv t c) (say "s1" text) awaitingWorld awaitingSession.
Proof.
  intros Ht. split; [done|]. split; [|split; [apply awaitingWorld_session|exact Ht]].
  apply awaitingWorld_unmarked.
Qed.

Lemma unverified_session_sees_no_order_details_witness :
  withoutOrderDetails
    (chat demoHost
       (demoEnv 1700000002000 (ToolCall "get_order_info" (Some "details"%string) None))
       (say "s1" "show me the details") awaitingWorld).2.
Proof.
  apply unverified_session_sees_no_order_details.
  - exists demoOrders. eexists. reflexivity.
  - left. vm_compute. reflexivity.
Defined.

Lemma otp_validation_witness :
  exists s',
    sessions (chat demoHost (demoEnv 1700000002000 NoToolCall) (say "s1" " 482193 ")
                awaitingWorld).1 !! "s1"%string = Some s'
    /\ conversationState s' = ORDER_FOUND /\ otpVerified s' = true.
Proof.
  refine (proj1 (otp_validation demoHost (demoEnv 1700000002000 NoToolCall)
                   (say "s1" " 482193 ") awaitingWorld awaitingSession _ _ _)
            1700000001000 _ _ _ _ _).
  - split; [discriminate|]. split; [|split].
    + apply awaitingWorld_unmarked.
    + vm_compute. reflexivity.
    + vm_compute. discriminate.
  - reflexivity.
  - reflexivity.
  - reflexivity.
  - reflexivity.
  - lia.
  - reflexivity.
  - vm_compute. discriminate.
Defined.

(** Against C2 as stated: the code was issued at 1700000001000, when the
    session was last active; sent 121 seconds later it meets the idle check
    first, and the session is removed instead of going to [INITIAL]. *)
Lemma late_code_meets_idle_expiry :
  let out := chat demoHost (demoEnv 1700000122000 NoToolCall) (say "s1" "482193")
               awaitingWorld in
  sessions awaitingWorld !! "s1"%string = Some awaitingSession
  /\ Text.isSixDigits "482193" = true
  /\ out.2 = Json expiredReply
  /\ sessions out.1 !! "s1"%string = None.
Proof.
  cbv zeta. split; [apply awaitingWorld_session|]. split; [reflexivity|].
  split; vm_compute; reflexivity.
Qed.

(** A verified session does get the details: the statement on unverified
    sessions is not an empty one. *)
Example verified_session_sees_order_details :
  exists r,
    (chat demoHost
       (demoEnv 1700000005000 (ToolCall "get_order_info" (Some "details"%string) None))
       (say "s1" "details please") rescheduledWorld).2 = Json r
    /\ orderDetails r <> None.
Proof. eexists. split; [vm_compute; reflexivity|discriminate]. Qed.

Lemma session_expiry_witness :
  sessions (chat demoHost (demoEnv 1700000121001 NoToolCall) (say "s1" "482193")
              awaitingWorld).1 !! "s1"%string = None
  /\ "s1"%string ∈ expiredSessions
       (chat demoHost (demoEnv 1700000121001 NoToolCall) (say "s1" "482193")
          awaitingWorld).1.
Proof.
  refine (proj2 (proj1 (session_expiry demoHost (demoEnv 1700000121001 NoToolCall)
                          (say "s1" "482193") awaitingWorld awaitingSession _ _ _) _)).
  - discriminate.
  - apply awaitingWorld_unmarked.
  - vm_compute. reflexivity.
  - vm_compute. reflexivity.
Defined.

Lemma pendingWorld_session : sessions pendingWorld !! "s1"%string = Some pendingSession.
Proof. vm_compute. reflexivity. Qed.

Lemma pendingWorld_unmarked : "s1"%string ∉ expiredSessions pendingWorld.
Proof.
  assert (H : bool_decide ("s1"%string ∈ expiredSessions pendingWorld) = false)
    by (vm_compute; reflexivity).
  exact (proj1 (bool_decide_eq_false _) H).
Qed.

Lemma slot_selection_bounds_witness :
  exists s',
    sessions (chat demoHost (demoEnv 1700000004000 NoToolCall) (say "s1" "2")
                pendingWorld).1 !! "s1"%string = Some s'
    /\ rescheduleOptions s' = [] /\ conversationState s' = ORDER_FOUND.
Proof.
  refine (proj2 (proj2 (proj1 (slot_selection_bounds demoHost
            (demoEnv 1700000004000 NoToolCall) (say "s1" "2") pendingWorld
            pendingSession _ _ _ _ _ _ _ _) 2 _ _ _ _ _ _ _))).
  - split; [discriminate|]. split; [apply pendingWorld_unmarked|].
    split; [apply pendingWorld_session|]. vm_compute. discriminate.
  - reflexivity.
  - reflexivity.
  - reflexivity.
  - lia.
  - reflexivity.
  - reflexivity.
  - vm_compute. reflexivity.
  - reflexivity.
Defined.

(** Against C5 as stated: when the store does not apply the update, the
    message "1" leaves all three options pending. *)
Lemma selection_stays_pending_when_update_fails :
  let out := chat demoHost (withUpdate (demoEnv 1700000004000 NoToolCall) false)
               (say "s1" "1") pendingWorld in
  (exists s, sessions pendingWorld !! "s1"%string = Some s
     /\ conversationState s = RESCHEDULE_OPTIONS
     /\ length (rescheduleOptions s) = 3%nat)
  /\ (exists s', sessions out.1 !! "s1"%string = Some s'
        /\ length (rescheduleOptions s') = 3%nat).
Proof.
  cbv zeta. split.
  - exists pendingSession. split; [apply pendingWorld_session|]. split; reflexivity.
  - eexists. split; [vm_compute; reflexivity|reflexivity].
Qed.

Lemma tracking_id_issues_otp_witness :
  let w' := (chat demoHost (withTwilio (demoEnv 1700000001000 NoToolCall) false)
               (say "s1" "track awb789012 please") (initial demoOrders)).1 in
  (exists s', sessions w' !! "s1"%string = Some s'
     /\ conversationState s' = AWAITING_OTP
     /\ otp s' = Some "482193"%string
     /\ otpTimestamp s' = Some 1700000001000)
  /\ whatsapp w'
     = [ {| wa_to := "+1987654321"; wa_body := otpMessage "482193";
            wa_delivered := false |} ].
Proof.
  cbv zeta.
  destruct (tracking_id_issues_otp demoHost (demoEnv 1700000001000 NoToolCall)
              (say "s1" "track awb789012 please") (initial demoOrders)
              (newSession 1700000001000) "AWB789012"
              (default (Build_DeliveryStatus "" Processing 0 None None None None None None)
                 (Database.getOrderStatus "AWB789012" demoOrders))
              false)
    as (_ & (s' & Hs' & Hst & _ & Hotp & Hstamp & _) & Hlog & _).
  - exists demoOrders, []. reflexivity.
  - reflexivity.
  - discriminate.
  - reflexivity.
  - reflexivity.
  - reflexivity.
  - reflexivity.
  - vm_compute. split; [discriminate|reflexivity].
  - split; [exists s'; repeat split; assumption|exact Hlog].
Defined.

(** Against C6 as stated, in three places: for an order without a customer
    phone a code is issued but the notifier is not asked to deliver it; a
    session that already waits for a code gets no new code when it sends the
    tracking id again; and [otpVerified] belongs to the session, not to an
    order: a session verified through AWB789012 that names AWB345678, which
    it has not been verified for, gets no code; the order is attached, the
    session stays in [ORDER_FOUND] and the answer shows the order's
    details. *)
Lemma tracking_id_without_delivery_or_new_code :
  (let out := chat demoHost (demoEnv 1700000001000 NoToolCall)
                (say "s1" "track AWB000001") (initial noPhoneOrders) in
   (exists s', sessions out.1 !! "s1"%string = Some s'
      /\ conversationState s' = AWAITING_OTP /\ otp s' = Some "482193"%string)
   /\ whatsapp out.1 = [])
  /\ (let out := chat demoHost
                   (withRandom (demoEnv 1700000002000 NoToolCall) 111111)
                   (say "s1" "track AWB789012") awaitingWorld in
      extractAWB "track AWB789012" = Some "AWB789012"%string
      /\ out.2 = Json (otpReply "Please enter the 6-digit OTP sent to your WhatsApp number."
                         AWAITING_OTP true)
      /\ exists s', sessions out.1 !! "s1"%string = Some s'
           /\ otp s' = Some "482193"%string
           /\ otpTimestamp s' = Some 1700000001000)
  /\ (let out := chat demoHost
                   (withRandom
                      (demoEnv 1700000003000
                         (ToolCall "get_order_info" (Some "details"%string) None))
                      111111)
                   (say "s1" "and AWB345678?") verifiedWorld in
      reachable demoHost verifiedWorld
      /\ (exists s o, sessions verifiedWorld !! "s1"%string = Some s
            /\ otpVerified s = true
            /\ currentOrder s = Some o /\ awb o = "AWB789012"%string)
      /\ extractAWB "and AWB345678?" = Some "AWB345678"%string
      /\ (exists o r, Database.getOrderStatus "AWB345678" demoOrders = Some o
            /\ out.2 = Json r
            /\ r_conversationState r = ORDER_FOUND
            /\ requiresOtp r = None
            /\ orderDetails r = Some (formatOrderDetails demoHost o))
      /\ (exists s' o, sessions out.1 !! "s1"%string = Some s'
            /\ conversationState s' = ORDER_FOUND
            /\ currentOrder s' = Some o /\ awb o = "AWB345678"%string
            /\ otp s' = Some "482193"%string
            /\ otpTimestamp s' = Some 1700000001000)
      /\ whatsapp out.1 = whatsapp verifiedWorld).
Proof.
  cbv zeta. split; [split|split; [split; [|split]|]].
  - eexists. split; [vm_compute; reflexivity|]. split; reflexivity.
  - vm_compute. reflexivity.
  - reflexivity.
  - vm_compute. reflexivity.
  - eexists. split; [vm_compute; reflexivity|]. split; reflexivity.
  - split; [|split; [|split; [|split; [|split]]]].
    + exists demoOrders. eexists. reflexivity.
    + do 2 eexists. split; [vm_compute; reflexivity|]. repeat split; reflexivity.
    + reflexivity.
    + do 2 eexists. split; [vm_compute; reflexivity|].
      split; [vm_compute; reflexivity|]. repeat split; vm_compute; reflexivity.
    + do 2 eexists. split; [vm_compute; reflexivity|]. repeat split; reflexivity.
    + vm_compute. reflexivity.
Qed.




Lemma failed_update_keeps_selection_witness :
  (chat demoHost (withUpdate (demoEnv 1700000004000 NoToolCall) false)
     (say "s1" "1") pendingWorld).2
  = Json (slotReply "Failed to reschedule. Please try again later." ORDER_FOUND)
  /\ conversationState (touch pendingSession 1700000004000) = RESCHEDULE_OPTIONS.
Proof.
  destruct (failed_update_keeps_selection demoHost
              (withUpdate (demoEnv 1700000004000 NoToolCall) false)
              (say "s1" "1") pendingWorld pendingSession 1
              (default (Build_RescheduleOption 0 "") (rescheduleOptions pendingSession !! 0%nat))
              (default (Build_DeliveryStatus "" Processing 0 None None None None None None)
                 (currentOrder pendingSession)))
    as (Hchat & Hstate & _).
  - split; [discriminate|]. split; [apply pendingWorld_unmarked|].
    split; [apply pendingWorld_session|]. vm_compute. discriminate.
  - reflexivity.
  - reflexivity.
  - lia.
  - reflexivity.
  - reflexivity.
  - reflexivity.
  - split; [by rewrite Hchat|exact Hstate].
Defined.



(** C10. The sweep forgets an expired id at once, not five minutes after
    the session's last activity. The session of [pendingWorld] was last
    active at 1700000003000. (a) A sweep 120001 ms later removes the session
    and leaves its id unmarked, so that a message one millisecond after the
    sweep is answered as the first message of a new session. (b) When the
    session is expired by a message instead, the id is marked, and the next
    sweep, 10 seconds later, removes the mark. *)
Lemma sweep_forgets_expired_id_at_once :
  (let swept := cleanupExpiredSessions 1700000123001 pendingWorld in
   let out := chat demoHost (demoEnv 1700000123002 NoToolCall) (say "s1" "2") swept in
   sessions swept !! "s1"%string = None
   /\ bool_decide ("s1"%string ∈ expiredSessions swept) = false
   /\ out.2 = Json {| response := "How can I help with your delivery today?";
                      r_conversationState := RESCHEDULE_OPTIONS;
                      requiresReschedule := None; requiresAwb := None;
                      showDetails := None; endConversation := None;
                      requiresOtp := None; sessionExpired := None;
                      orderDetails := None; whatsappSent := None;
                      r_rescheduleOptions := None |}
   /\ exists s', sessions out.1 !! "s1"%string = Some s'
        /\ lastActive s' = 1700000123002 /\ currentOrder s' = None)
  /\ (let late := chat demoHost (demoEnv 1700000123001 NoToolCall) (say "s1" "2")
                    pendingWorld in
      let swept := cleanupExpiredSessions 1700000133001 late.1 in
      late.2 = Json expiredReply
      /\ bool_decide ("s1"%string ∈ expiredSessions late.1) = true
      /\ bool_decide ("s1"%string ∈ expiredSessions swept) = false
      /\ 1700000133001 - 1700000003000 < 5 * 60 * 1000).
Proof.
  cbv zeta. split.
  - split; [vm_compute; reflexivity|]. split; [vm_compute; reflexivity|].
    split; [vm_compute; reflexivity|].
    eexists. split; [vm_compute; reflexivity|]. split; reflexivity.
  - split; [vm_compute; reflexivity|]. split; [vm_compute; reflexivity|].
    split; [vm_compute; reflexivity|]. lia.
Qed.

(** * Further properties *)

#[local] Arguments formatOptions : simpl never.

(** ** The order store on its own *)

Lemma updateOne_length key set docs :
  length (Database.updateOne key set docs).1 = length docs.
Proof.
  induction docs as [|o rest IH]; cbn; [reflexivity|].
  destruct (bool_decide (awb o = key)); cbn; [reflexivity|].
  destruct (Database.updateOne key set rest). cbn in *. by rewrite IH.
Qed.

Lemma getOrderStatus_updateOne key key' set docs :
  (forall o, awb (set o) = awb o) ->
  Database.getOrderStatus key' (Database.updateOne key set docs).1
  = if bool_decide (key' = key)
    then set <$> Database.getOrderStatus key docs
    else Database.getOrderStatus key' docs.
Proof.
  intros Hset. unfold Database.getOrderStatus.
  induction docs as [|o rest IH]; cbn; [by destruct (bool_decide _)|].
  destruct (bool_decide (awb o = key)) eqn:Ho; cbn.
  - apply bool_decide_eq_true in Ho. rewrite Hset.
    destruct (bool_decide (key' = key)) eqn:Hk.
    + apply bool_decide_eq_true in Hk. subst key'.
      by rewrite !bool_decide_eq_true_2.
    + apply bool_decide_eq_false in Hk.
      rewrite (bool_decide_eq_false_2 (awb o = key')) by congruence.
      reflexivity.
  - apply bool_decide_eq_false in Ho.
    destruct (Database.updateOne key set rest) as [rest' n]. cbn in *.
    destruct (bool_decide (key' = key)) eqn:Hk.
    + apply bool_decide_eq_true in Hk. subst key'.
      rewrite bool_decide_eq_false_2 by done. exact IH.
    + destruct (bool_decide (awb o = key')); [reflexivity|exact IH].
Qed.

Lemma updateOne_modified key set docs :
  (Database.updateOne key set docs).2
  = match Database.getOrderStatus key docs with
    | Some o => if bool_decide (set o = o) then 0 else 1
    | None => 0
    end.
Proof.
  unfold Database.getOrderStatus.
  induction docs as [|o rest IH]; cbn; [reflexivity|].
  destruct (bool_decide (awb o = key)); cbn; [reflexivity|].
  destruct (Database.updateOne key set rest). exact IH.
Qed.

Lemma rescheduleSet_changes newDate t o :
  Database.rescheduleSet newDate t o = o <->
  status o = Rescheduled /\ lastUpdate o = t
  /\ scheduledDelivery o = Some newDate /\ rescheduled o = Some true.
Proof.
  destruct o; unfold Database.rescheduleSet; cbn. split.
  - intros [= <- <- <- <-]. done.
  - intros (-> & -> & -> & ->). reflexivity.
Qed.

(** X1. An update the store applies is what the next read of the same
    tracking id returns: the first document with the id, with the new
    scheduled date, the status [Rescheduled], the flag [rescheduled] and the
    time of the update, and with its other fields kept; such an order is no
    longer accepted by [canReschedule]. *)
Theorem rescheduleOrder_then_getOrderStatus t key newDate docs o :
  Database.getOrderStatus key docs = Some o ->
  Database.rescheduleSet newDate t o <> o ->
  let out := Database.rescheduleOrder true t key newDate docs in
  out.2 = true
  /\ exists o', Database.getOrderStatus key out.1 = Some o'
       /\ awb o' = awb o /\ awb o' = key
       /\ status o' = Rescheduled /\ scheduledDelivery o' = Some newDate
       /\ rescheduled o' = Some true /\ lastUpdate o' = t
       /\ estimatedDelivery o' = estimatedDelivery o
       /\ delayReason o' = delayReason o
       /\ customerName o' = customerName o /\ customerPhone o' = customerPhone o
       /\ Database.canReschedule o' = false.
Proof.
  intros Hget Hne. cbv zeta. unfold Database.rescheduleOrder.
  pose proof (updateOne_modified key (Database.rescheduleSet newDate t) docs) as Hm.
  pose proof (getOrderStatus_updateOne key key (Database.rescheduleSet newDate t) docs
                (fun _ => eq_refl)) as Hg.
  destruct (Database.updateOne _ _ _) as [docs' n]. cbn in *.
  rewrite Hget in Hm, Hg. rewrite bool_decide_eq_false_2 in Hm by done.
  rewrite bool_decide_eq_true_2 in Hg by done.
  subst n. split; [reflexivity|].
  eexists. split; [exact Hg|]. cbn.
  assert (awb o = key) as Hk.
  { unfold Database.getOrderStatus in Hget. apply find_some in Hget as [_ Hk].
    by apply bool_decide_eq_true in Hk. }
  repeat split; done.
Qed.

Lemma rescheduleOrder_then_getOrderStatus_witness :
  (Database.rescheduleOrder true 1700000004000 "AWB789012" 1700100000000 demoOrders).2
  = true.
Proof.
  refine (proj1 (rescheduleOrder_then_getOrderStatus 1700000004000 "AWB789012"
                   1700100000000 demoOrders
                   (default blankOrder (Database.getOrderStatus "AWB789012" demoOrders))
                   _ _)).
  - reflexivity.
  - vm_compute. discriminate.
Defined.

(** The documents under other tracking ids, and the number of documents,
    are kept by [rescheduleOrder]. *)
Lemma rescheduleOrder_frame ok t key newDate docs key' :
  key' <> key ->
  sameUnder key' docs (Database.rescheduleOrder ok t key newDate docs).1.
Proof.
  intros Hne. unfold sameUnder, Database.rescheduleOrder.
  destruct ok; [|done].
  pose proof (updateOne_length key (Database.rescheduleSet newDate t) docs) as Hl.
  pose proof (getOrderStatus_updateOne key key' (Database.rescheduleSet newDate t) docs
                (fun _ => eq_refl)) as Hg.
  destruct (Database.updateOne _ _ _) as [docs' n]. cbn in *.
  rewrite bool_decide_eq_false_2 in Hg by done. done.
Qed.

(** X2. [rescheduleOrder] keeps the number of documents, and a read of any
    other tracking id gives what it gave before. *)
Theorem rescheduleOrder_other_ids ok t key newDate docs key' :
  key' <> key ->
  let out := Database.rescheduleOrder ok t key newDate docs in
  length out.1 = length docs
  /\ Database.getOrderStatus key' out.1 = Database.getOrderStatus key' docs.
Proof.
  intros Hne. exact (rescheduleOrder_frame ok t key newDate docs key' Hne).
Qed.

Lemma rescheduleOrder_other_ids_witness :
  Database.getOrderStatus "AWB123456"
    (Database.rescheduleOrder true 1700000004000 "AWB789012" 1700100000000 demoOrders).1
  = Database.getOrderStatus "AWB123456" demoOrders.
Proof.
  refine (proj2 (rescheduleOrder_other_ids true 1700000004000 "AWB789012"
                   1700100000000 demoOrders "AWB123456" _)).
  discriminate.
Defined.

(** X3. [rescheduleOrder] answers [false] and leaves the collection as it
    was when the store does not answer the update, when no document has the
    tracking id, and when the document already has exactly the values to
    write. *)
Theorem rescheduleOrder_refused ok t key newDate docs :
  ok = false
  \/ Database.getOrderStatus key docs = None
  \/ (exists o, Database.getOrderStatus key docs = Some o
        /\ Database.rescheduleSet newDate t o = o) ->
  Database.rescheduleOrder ok t key newDate docs = (docs, false).
Proof.
  intros H.
  assert (Hfalse : (Database.rescheduleOrder ok t key newDate docs).2 = false).
  { unfold Database.rescheduleOrder. destruct ok; [|done].
    pose proof (updateOne_modified key (Database.rescheduleSet newDate t) docs) as Hm.
    destruct (Database.updateOne _ _ _) as [docs' n]. cbn in *.
    destruct H as [H|[H|(o & H & Hsame)]]; [done|..]; rewrite H in Hm.
    - by subst n.
    - rewrite bool_decide_eq_true_2 in Hm by done. by subst n. }
  pose proof (rescheduleOrder_failed _ _ _ _ _ Hfalse) as Hsame.
  destruct (Database.rescheduleOrder _ _ _ _ _) as [docs' b]. cbn in *. congruence.
Qed.

Lemma rescheduleOrder_refused_witness :
  Database.rescheduleOrder true 1700000004000 "AWB000000" 1700100000000 demoOrders
  = (demoOrders, false).
Proof. apply rescheduleOrder_refused. right. left. reflexivity. Defined.


(** ** Reading tracking ids *)

Ltac each_char c := destruct c as [[] [] [] [] [] [] [] []].

Lemma toUpperChar_digit c : Text.isDigit c = true -> Text.toUpperChar c = c.
Proof. each_char c; vm_compute; congruence. Qed.

Lemma isDigit_toUpperChar c : Text.isDigit (Text.toUpperChar c) = Text.isDigit c.
Proof. each_char c; vm_compute; reflexivity. Qed.

Lemma isWordChar_toUpperChar c :
  Text.isWordChar (Text.toUpperChar c) = Text.isWordChar c.
Proof. each_char c; vm_compute; reflexivity. Qed.

Lemma toUpperChar_idem c : Text.toUpperChar (Text.toUpperChar c) = Text.toUpperChar c.
Proof. each_char c; vm_compute; reflexivity. Qed.

Lemma isLetter_toUpperChar u c : isLetter u (Text.toUpperChar c) = isLetter u c.
Proof. unfold isLetter. by rewrite toUpperChar_idem. Qed.

Lemma allDigits_toUpperCase s : Text.allDigits s = true -> Text.toUpperCase s = s.
Proof.
  induction s as [|c r IH]; cbn; [done|].
  intros [Hc Hr]%andb_prop. by rewrite (toUpperChar_digit c Hc), IH.
Qed.

Lemma allDigits_upper s : Text.allDigits (Text.toUpperCase s) = Text.allDigits s.
Proof.
  induction s as [|c r IH]; cbn; [done|]. by rewrite isDigit_toUpperChar, IH.
Qed.

(** What a match of [awbAt] is made of. *)
Lemma awbAt_Some s k :
  awbAt s = Some k ->
  exists m post,
    s = (m +:+ post)%string /\ String.length m = 9%nat
    /\ Text.toUpperCase m = k /\ isTrackingId k = true
    /\ wordAhead post = false.
Proof.
  destruct s as [|a [|w [|b [|d1 [|d2 [|d3 [|d4 [|d5 [|d6 rest]]]]]]]]];
    try discriminate.
  unfold awbAt.
  destruct (isLetter "A" a) eqn:Ha; [|discriminate].
  destruct (isLetter "W" w) eqn:Hw; [|discriminate].
  destruct (isLetter "B" b) eqn:Hb; [|discriminate].
  cbn [andb].
  destruct (Text.allDigits _) eqn:Hd; [|discriminate]. cbn [andb].
  destruct (match rest with EmptyString => true | String c _ => _ end) eqn:Hr;
    [|discriminate].
  intros [= <-].
  exists (String a (String w (String b (String d1 (String d2 (String d3
            (String d4 (String d5 (String d6 EmptyString))))))))), rest.
  split; [reflexivity|]. split; [reflexivity|]. split; [reflexivity|].
  split.
  - unfold isLetter in *.
    apply bool_decide_eq_true in Ha, Hw, Hb.
    cbn [Text.toUpperCase]. rewrite Ha, Hw, Hb. cbn [isTrackingId].
    unfold Text.isSixDigits.
    change (Text.toUpperCase EmptyString) with EmptyString.
    change (String (Text.toUpperChar d1) _)
      with (Text.toUpperCase (String d1 (String d2 (String d3 (String d4
              (String d5 (String d6 EmptyString))))))).
    rewrite allDigits_upper, Hd. reflexivity.
  - destruct rest as [|c rest']; [reflexivity|]. cbn.
    by apply negb_true_iff in Hr.
Qed.

Lemma scanAWB_Some prev s k :
  scanAWB prev s = Some k ->
  exists pre m post,
    s = (pre +:+ m +:+ post)%string /\ String.length m = 9%nat
    /\ Text.toUpperCase m = k /\ isTrackingId k = true
    /\ wordBefore prev pre = false /\ wordAhead post = false.
Proof.
  revert prev. induction s as [|c r IH]; intros prev; [discriminate|].
  cbn [scanAWB].
  destruct (if prev then None else awbAt (String c r)) as [m0|] eqn:Hat.
  - intros [= <-]. destruct prev; [discriminate|].
    destruct (awbAt_Some _ _ Hat) as (m & post & Hs & Hlen & Hup & Hid & Hpost).
    exists EmptyString, m, post. auto 10.
  - intros Hscan. destruct (IH _ Hscan) as (pre & m & post & -> & Hrest).
    exists (String c pre), m, post. split; [reflexivity|exact Hrest].
Qed.

(** X4. What [extractAWB] returns is the upper-cased copy of nine
    consecutive characters of the input that are not preceded and not
    followed by a word character, and it has the form [AWB] and six
    digits. *)
Theorem extractAWB_sound input k :
  extractAWB input = Some k ->
  isTrackingId k = true
  /\ exists pre m post,
       input = (pre +:+ m +:+ post)%string /\ String.length m = 9%nat
       /\ Text.toUpperCase m = k
       /\ wordBefore false pre = false /\ wordAhead post = false.
Proof.
  intros H. destruct (scanAWB_Some _ _ _ H) as (pre & m & post & H1 & H2 & H3 & H4 & H5).
  split; [exact H4|]. exists pre, m, post. auto.
Qed.

Lemma extractAWB_sound_witness : isTrackingId "AWB789012" = true.
Proof.
  refine (proj1 (extractAWB_sound "track awb789012 please" "AWB789012" _)).
  reflexivity.
Defined.

Lemma isTrackingId_inv k :
  isTrackingId k = true ->
  exists digits, k = String "A" (String "W" (String "B" digits))
    /\ Text.isSixDigits digits = true.
Proof.
  destruct k as [|a k]; [discriminate|].
  each_char a; try discriminate.
  destruct k as [|w k]; [discriminate|].
  each_char w; try discriminate.
  destruct k as [|b k]; [discriminate|].
  each_char b; try discriminate.
  intros H. exists k. split; [reflexivity|exact H].
Qed.

Lemma extractAWB_trackingId k : isTrackingId k = true -> extractAWB k = Some k.
Proof.
  intros (ds & -> & Hd)%isTrackingId_inv.
  unfold Text.isSixDigits in Hd.
  destruct ds as [|d1 [|d2 [|d3 [|d4 [|d5 [|d6 [|d7 rest]]]]]]]; try discriminate.
  cbn [String.length Nat.eqb andb] in Hd.
  unfold extractAWB. cbn [scanAWB]. unfold awbAt.
  change (isLetter "A" "A") with true. change (isLetter "W" "W") with true.
  change (isLetter "B" "B") with true. cbn [andb]. rewrite Hd. cbn [andb].
  f_equal. cbn [Text.toUpperCase].
  change (String (Text.toUpperChar d1) _)
    with (Text.toUpperCase (String d1 (String d2 (String d3 (String d4
            (String d5 (String d6 EmptyString))))))).
  by rewrite (allDigits_toUpperCase _ Hd).
Qed.

(** X5. A tracking id that [extractAWB] has returned is read as itself. *)
Theorem extractAWB_normal input k :
  extractAWB input = Some k -> extractAWB k = Some k.
Proof.
  intros H. apply extractAWB_trackingId.
  by destruct (scanAWB_Some _ _ _ H) as (_ & _ & _ & _ & _ & _ & Hid & _).
Qed.

Lemma extractAWB_normal_witness : extractAWB "AWB789012" = Some "AWB789012"%string.
Proof. apply (extractAWB_normal "track awb789012 please"). reflexivity. Defined.

Lemma awbAt_upper s : awbAt (Text.toUpperCase s) = awbAt s.
Proof.
  destruct s as [|a [|w [|b [|d1 [|d2 [|d3 [|d4 [|d5 [|d6 rest]]]]]]]]];
    try reflexivity.
  cbn [Text.toUpperCase]. unfold awbAt.
  rewrite !isLetter_toUpperChar.
  cbn [Text.allDigits]. rewrite !isDigit_toUpperChar.
  cbn [Text.toUpperCase]. rewrite !toUpperChar_idem.
  destruct rest as [|c rest']; cbn [Text.toUpperCase];
    [reflexivity|by rewrite isWordChar_toUpperChar].
Qed.

(** X6. On a message of ASCII code units, where [Text.toUpperCase] is the
    [toUpperCase] of JavaScript, [extractAWB] does not depend on the case of
    the letters: the upper-cased message gives the same result. *)
Theorem extractAWB_toUpperCase input :
  asciiText input = true ->
  extractAWB (Text.toUpperCase input) = extractAWB input.
Proof.
  intros _. unfold extractAWB. generalize false as prev.
  induction input as [|c r IH]; intros prev; [reflexivity|].
  change (Text.toUpperCase (String c r))
    with (String (Text.toUpperChar c) (Text.toUpperCase r)).
  cbn [scanAWB].
  change (String (Text.toUpperChar c) (Text.toUpperCase r))
    with (Text.toUpperCase (String c r)).
  rewrite awbAt_upper, isWordChar_toUpperChar, IH. reflexivity.
Qed.

Lemma extractAWB_toUpperCase_witness :
  asciiText "track awb789012 please" = true
  /\ extractAWB (Text.toUpperCase "track awb789012 please")
     = extractAWB "track awb789012 please".
Proof. split; [reflexivity|]. apply extractAWB_toUpperCase. reflexivity. Defined.

(** ** Numerals written and read back *)

Ltac each_digit d H :=
  assert (d = 0 \/ d = 1 \/ d = 2 \/ d = 3 \/ d = 4 \/ d = 5 \/ d = 6 \/ d = 7
          \/ d = 8 \/ d = 9) as H by lia;
  repeat destruct H as [->|H]; [..|subst d].

Lemma digitValue_digitChar d :
  0 <= d < 10 -> Text.digitValue 10 (Text.digitChar d) = Some d.
Proof. intros Hd. each_digit d Hc; reflexivity. Qed.

Lemma isWhiteSpace_digitChar d :
  0 <= d < 10 -> Text.isWhiteSpace (Text.digitChar d) = false.
Proof. intros Hd. each_digit d Hc; reflexivity. Qed.

Lemma digitsOf_S fuel n acc :
  Text.digitsOf (S fuel) n acc
  = if n / 10 =? 0 then String (Text.digitChar (n mod 10)) acc
    else Text.digitsOf fuel (n / 10) (String (Text.digitChar (n mod 10)) acc).
Proof. reflexivity. Qed.

(** The digits of [n] are put in front of [rest]; read from there they add
    up to [n]. *)
Lemma readDigits_digitsOf fuel n rest :
  0 <= n < 2 ^ Z.of_nat (S fuel) ->
  Text.readDigits 10 (Text.digitsOf (S fuel) n rest) None
  = Text.readDigits 10 rest (Some n).
Proof.
  revert n rest. induction fuel as [|fuel IH]; intros n rest Hn.
  - rewrite digitsOf_S. change (2 ^ Z.of_nat 1) with 2 in Hn.
    rewrite Z.div_small by lia. cbn [Z.eqb Text.readDigits].
    rewrite Z.mod_small by lia. rewrite digitValue_digitChar by lia.
    cbn [from_option id]. replace (10 * 0 + n) with n by lia. reflexivity.
  - rewrite digitsOf_S.
    destruct (n / 10 =? 0) eqn:Hq.
    + apply Z.eqb_eq in Hq. apply Z.div_small_iff in Hq; [|lia].
      cbn [Text.readDigits]. rewrite Z.mod_small by lia.
      rewrite digitValue_digitChar by lia. cbn [from_option id].
      replace (10 * 0 + n) with n by lia. reflexivity.
    + apply Z.eqb_neq in Hq.
      rewrite IH.
      * cbn [Text.readDigits].
        rewrite digitValue_digitChar by (apply Z.mod_pos_bound; lia).
        cbn [from_option id].
        pose proof (Z.div_mod n 10 ltac:(lia)).
        replace (10 * (n / 10) + n mod 10) with n by lia. reflexivity.
      * rewrite Nat2Z.inj_succ, Z.pow_succ_r in Hn by lia.
        split; [apply Z.div_pos; lia|].
        apply Z.div_lt_upper_bound; lia.
Qed.

Lemma toString_fuel n : 0 <= n -> n < 2 ^ Z.of_nat (S (Z.to_nat (Z.log2 n))).
Proof.
  intros Hn. rewrite Nat2Z.inj_succ, Z2Nat.id by apply Z.log2_nonneg.
  destruct (decide (n = 0)) as [->|Hne]; [reflexivity|].
  apply Z.log2_spec. lia.
Qed.

(** The first character of the numeral of a positive number is a digit from
    1 to 9. *)
Lemma digitsOf_head fuel n rest :
  0 < n < 2 ^ Z.of_nat (S fuel) ->
  exists d tail, 1 <= d <= 9
    /\ Text.digitsOf (S fuel) n rest = String (Text.digitChar d) tail.
Proof.
  revert n rest. induction fuel as [|fuel IH]; intros n rest Hn.
  - change (2 ^ Z.of_nat 1) with 2 in Hn. assert (n = 1) as -> by lia.
    exists 1, rest. split; [lia|reflexivity].
  - rewrite digitsOf_S. destruct (n / 10 =? 0) eqn:Hq.
    + apply Z.eqb_eq in Hq. apply Z.div_small_iff in Hq; [|lia].
      exists n, rest. rewrite Z.mod_small by lia. split; [lia|reflexivity].
    + apply Z.eqb_neq in Hq. apply IH.
      rewrite Nat2Z.inj_succ, Z.pow_succ_r in Hn by lia.
      pose proof (Z.div_pos n 10 ltac:(lia) ltac:(lia)).
      split; [lia|]. apply Z.div_lt_upper_bound; lia.
Qed.

Lemma parseInt_head d tail :
  1 <= d <= 9 ->
  Text.parseInt (String (Text.digitChar d) tail)
  = Text.readDigits 10 (String (Text.digitChar d) tail) None.
Proof.
  intros Hd. unfold Text.parseInt.
  assert (d = 1 \/ d = 2 \/ d = 3 \/ d = 4 \/ d = 5 \/ d = 6 \/ d = 7
          \/ d = 8 \/ d = 9) as Hc by lia.
  repeat destruct Hc as [->|Hc]; [..|subst d];
    cbn [Text.trimStart];
    match goal with
    | |- context [Text.isWhiteSpace ?c] =>
        change (Text.isWhiteSpace c) with false
    end; cbv iota;
    match goal with
    | |- context [String ?c tail] =>
        let c' := eval vm_compute in c in change c with c'
    end; cbv beta iota zeta;
    (destruct (Text.readDigits 10 _ None) as [v|]; [f_equal; lia|reflexivity]).
Qed.

(** [parseInt] reads the numeral of a positive number back, whatever
    follows it that is not a digit. *)
Lemma parseInt_toString n rest :
  0 < n ->
  Text.readDigits 10 rest (Some n) = Some n ->
  Text.parseInt (Text.toString n +:+ rest) = Some n.
Proof.
  intros Hn Hrest. unfold Text.toString.
  assert (Happ : forall fuel m acc,
             (Text.digitsOf fuel m acc +:+ rest)%string
             = Text.digitsOf fuel m (acc +:+ rest)%string).
  { induction fuel as [|fuel IH]; intros m acc; [reflexivity|].
    rewrite !digitsOf_S. destruct (m / 10 =? 0); [reflexivity|apply IH]. }
  rewrite Happ. change (EmptyString +:+ rest)%string with rest.
  pose proof (toString_fuel n ltac:(lia)) as Hf.
  destruct (digitsOf_head (Z.to_nat (Z.log2 n)) n rest ltac:(lia))
    as (d & tail & Hd & Heq).
  rewrite Heq, parseInt_head by done. rewrite <- Heq.
  rewrite readDigits_digitsOf by lia. exact Hrest.
Qed.

(** ** More invariants of the server state *)

Lemma nextState_assistantState c a o :
  assistantState a -> assistantState (nextState (handleLlmRequest c a o)).
Proof.
  unfold handleLlmRequest, handleOrderAction, handleGreeting, handleFarewell,
    plain, assistantState.
  intros Ha. repeat case_match; cbn; tauto.
Qed.

Lemma assistantState_neq a :
  assistantState a ->
  a <> SESSION_EXPIRED /\ a <> RESCHEDULE_CONFIRMATION /\ a <> AWAITING_OTP.
Proof. intros [->|[->|[->|[->| ->]]]]; done. Qed.

Ltac shape_split :=
  match goal with
  | H : shapeSt _ |- _ =>
      let Hs := fresh "Hs" in let Ha := fresh "Ha" in
      destruct H as [Hs Ha];
      destruct Hs as (Hlen & Hx & Hc & Hot & Haw); stage_fields
  end.

Lemma otpStage_shape e msg :
  stageSpec shapeSt (otpStage e msg) shapeSt (fun st _ => shapeSt st).
Proof.
  stage_cases; try assumption; shape_split;
    (split; [|assumption]); unfold sessionShape; stage_fields;
    repeat split; try done; try tauto.
  all: try (intros [? [=]]).
Qed.

Lemma slotStage_shape h e msg :
  stageSpec shapeSt (slotStage h e msg) shapeSt (fun st _ => shapeSt st).
Proof.
  stage_cases; try assumption; shape_split;
    (split; [|assumption]); unfold sessionShape; stage_fields;
    repeat split; try done; try tauto.
Qed.

Lemma awbStage_shape e msg :
  stageSpec shapeSt (awbStage e msg) shapeSt (fun st _ => shapeSt st).
Proof.
  stage_cases; try assumption; shape_split;
    (split; [|assumption]); unfold sessionShape; stage_fields;
    repeat split; try done; try tauto; try by eexists.
  all: match goal with
       | Hv : negb (otpVerified _) = _ |- _ =>
           apply negb_true_iff in Hv || apply negb_false_iff in Hv
       end; try done.
  all: intros Hst; destruct (Haw Hst) as (Hv' & _); congruence.
Qed.

Lemma gateStage_shape :
  stageSpec shapeSt gateStage shapeSt (fun st _ => shapeSt st).
Proof. stage_cases; assumption. Qed.

Lemma intentStage_shape h e :
  handlerSpec shapeSt (intentStage h e) (fun st _ => shapeSt st).
Proof.
  stage_unfold. intros st [(Hlen & Hx & Hc & Hot & Haw) Ha].
  pose proof (nextState_assistantState (completion e) _
                (currentOrder (st_session st)) Ha) as Hnext.
  destruct (assistantState_neq _ Hnext) as (N1 & N2 & N3).
  cbn. split; [|exact Hnext].
  unfold sessionShape. cbn. repeat split; try done; try tauto.
  destruct (currentOrder (st_session st)); [|exact Hlen].
  destruct (truthy _); [by right|exact Hlen].
Qed.

Lemma engine_shape h e msg :
  handlerSpec shapeSt (engine h e msg) (fun st _ => shapeSt st).
Proof.
  unfold engine, earlyStages.
  eapply orElse_spec; [|apply intentStage_shape].
  eapply andThen_spec; [apply otpStage_shape|].
  eapply andThen_spec; [apply slotStage_shape|].
  eapply andThen_spec; [apply awbStage_shape|apply gateStage_shape].
Qed.

Lemma newSession_shape t : sessionShape (newSession t).
Proof.
  unfold sessionShape. cbn. repeat split; try done; try tauto.
  all: intros [? [=]].
Qed.

Lemma process_assistant h e req w s :
  assistant (process h e req w s).1
  = st_assistant (engine h e (message req) (start w s)).1.
Proof. unfold process. by destruct (engine _ _ _ _). Qed.

Lemma resolve_shape e req w s :
  world_shape w -> resolve e req w = Some s -> sessionShape s.
Proof.
  intros [_ Hs]. unfold resolve.
  repeat case_match; intros; simplify_eq; [|apply newSession_shape].
  exact (Hs _ _ ltac:(eassumption)).
Qed.

Lemma chat_shape h e req w : world_shape w -> world_shape (chat h e req w).1.
Proof.
  intros Hw. destruct (resolve e req w) as [s|] eqn:Hr.
  - rewrite (chat_resolved _ _ _ _ _ Hr).
    pose proof (resolve_shape _ _ _ _ Hw Hr) as Hs.
    pose proof (engine_shape h e (message req) (start w s)
                  (conj Hs (proj1 Hw))) as [Hs' Ha'].
    split; [by rewrite process_assistant|].
    intros id s'. rewrite process_sessions.
    destruct (decide (sessionId req = id)) as [->|Hd].
    + rewrite lookup_insert_eq. by intros [= <-].
    + rewrite lookup_insert_ne by done. apply Hw.
  - destruct (chat_unresolved h _ _ _ Hr) as [->|[->| ->]]; try done.
    split; [apply Hw|]. cbn. intros id s [_ Hl]%lookup_delete_Some.
    by apply Hw in Hl.
Qed.

Lemma apply_shape h w ev : world_shape w -> world_shape (apply h w ev).
Proof.
  destruct ev; cbn [apply]; [apply chat_shape|..]; intros [Ha Hs].
  - split; [exact Ha|]. intros id s [Hl _]%map_lookup_filter_Some. eauto.
  - split; [exact Ha|]. cbn. intros i s [_ Hl]%lookup_delete_Some. eauto.
  - unfold testSessionExpiration. destruct (sessions w !! id) as [s|] eqn:Hl; [|done].
    split; [exact Ha|]. cbn. intros i s'.
    destruct (decide (id = i)) as [->|Hd].
    + rewrite lookup_insert_eq. intros [= <-]. exact (Hs _ _ Hl).
    + rewrite lookup_insert_ne by done. apply Hs.
  - done.
Qed.

(** X7. In every state the server can reach: the shared assistant is in one
    of [INITIAL], [AWAITING_AWB], [ORDER_FOUND], [RESCHEDULE_OPTIONS] and
    [COMPLETED]; a stored session has no or exactly three pending options;
    [SESSION_EXPIRED] and [RESCHEDULE_CONFIRMATION] are never stored as a
    session's state; a code is stored exactly when its time of issuance is;
    and a session in [AWAITING_OTP] is not verified and has a code and an
    order. *)
Theorem reachable_session_shape h w :
  reachable h w ->
  assistantState (assistant w)
  /\ forall id s, sessions w !! id = Some s ->
       (length (rescheduleOptions s) = 0%nat \/ length (rescheduleOptions s) = 3%nat)
       /\ conversationState s <> SESSION_EXPIRED
       /\ conversationState s <> RESCHEDULE_CONFIRMATION
       /\ (is_Some (otp s) <-> is_Some (otpTimestamp s))
       /\ (conversationState s = AWAITING_OTP ->
           otpVerified s = false /\ is_Some (otp s) /\ is_Some (currentOrder s)).
Proof.
  intros (docs & evs & ->).
  assert (Hrun : forall evs w, world_shape w -> world_shape (run h evs w)).
  { intros evs'. induction evs' as [|ev evs' IH]; intros w Hw; [exact Hw|].
    cbn. apply IH, apply_shape, Hw. }
  apply Hrun. split; [by left|]. cbn. intros id s. by rewrite lookup_empty.
Qed.

Lemma reachable_session_shape_witness : assistantState (assistant pendingWorld).
Proof.
  refine (proj1 (reachable_session_shape demoHost pendingWorld _)).
  exists demoOrders. eexists. reflexivity.
Defined.

(** ** What a request leaves alone *)

(** The sessions a request does not name are kept, and so are the marks. *)
Lemma chat_frame h e req w id :
  id <> sessionId req ->
  sessions (chat h e req w).1 !! id = sessions w !! id.
Proof.
  intros Hne. destruct (resolve e req w) as [s|] eqn:Hr.
  - rewrite (chat_resolved _ _ _ _ _ Hr), process_sessions.
    by rewrite lookup_insert_ne.
  - destruct (chat_unresolved h _ _ _ Hr) as [->|[->| ->]]; try done.
    cbn. by rewrite lookup_delete_ne.
Qed.

Lemma chat_marks h e req w id :
  id <> sessionId req ->
  id ∈ expiredSessions (chat h e req w).1 <-> id ∈ expiredSessions w.
Proof.
  intros Hne. destruct (resolve e req w) as [s|] eqn:Hr.
  - by rewrite (chat_resolved _ _ _ _ _ Hr), process_expiredSessions.
  - destruct (chat_unresolved h _ _ _ Hr) as [->|[->| ->]]; try done.
    cbn. rewrite elem_of_union, elem_of_singleton. tauto.
Qed.

(** X8. A request reads and writes only the session it names: every other
    stored session, and every other mark in [expiredSessions], is after the
    request what it was before. *)
Theorem chat_other_sessions h e req w id :
  id <> sessionId req ->
  sessions (chat h e req w).1 !! id = sessions w !! id
  /\ (id ∈ expiredSessions (chat h e req w).1 <-> id ∈ expiredSessions w).
Proof.
  intros Hne. split; [by apply chat_frame|by apply chat_marks].
Qed.

Lemma chat_other_sessions_witness :
  sessions (chat demoHost (demoEnv 1700000002000 NoToolCall) (say "s2" "hello")
              awaitingWorld).1 !! "s1"%string
  = sessions awaitingWorld !! "s1"%string.
Proof.
  refine (proj1 (chat_other_sessions demoHost (demoEnv 1700000002000 NoToolCall)
                   (say "s2" "hello") awaitingWorld "s1" _)).
  discriminate.
Defined.

Lemma engine_whatsapp h e msg log :
  handlerSpec (fun st => st_whatsapp st = log) (engine h e msg)
    (fun st _ => atMostOneCall log (st_whatsapp st)).
Proof.
  unfold engine, earlyStages, atMostOneCall, sendWhatsAppUpdate.
  set (P := fun st : St => st_whatsapp st = log).
  eapply orElse_spec with (M := P); [|stage_cases; by left].
  eapply andThen_spec with (M := P); [stage_cases; (assumption || by left)|].
  eapply andThen_spec with (M := P).
  { unfold sendWhatsAppUpdate. stage_cases; subst P; cbn in *;
      try assumption; try (by left); subst; eauto. }
  eapply andThen_spec with (M := P).
  { unfold sendWhatsAppUpdate. stage_cases; subst P; cbn in *;
      try assumption; try (by left); subst; eauto. }
  stage_cases; (assumption || by left).
Qed.


(** X9. A request asks the notifier at most once, and what the notifier
    was asked before stays in its log, in order. *)
Theorem chat_notifies_at_most_once h e req w :
  whatsapp (chat h e req w).1 = whatsapp w
  \/ exists call, whatsapp (chat h e req w).1 = whatsapp w ++ [call].
Proof.
  destruct (resolve e req w) as [s|] eqn:Hr.
  - rewrite (chat_resolved _ _ _ _ _ Hr).
    pose proof (engine_whatsapp h e (message req) (whatsapp w) (start w s) eq_refl)
      as Hlog.
    unfold process. destruct (engine _ _ _ _). exact Hlog.
  - destruct (chat_unresolved h _ _ _ Hr) as [->|[->| ->]]; by left.
Qed.

Lemma engine_orders_frame h e msg key docs :
  handlerSpec
    (fun st => st_orders st = docs
               /\ forall o, currentOrder (st_session st) = Some o -> awb o <> key)
    (engine h e msg)
    (fun st _ => sameUnder key docs (st_orders st)).
Proof.
  unfold engine, earlyStages, sameUnder.
  set (Q := fun st : St => st_orders st = docs).
  eapply orElse_spec with (M := Q); [|stage_cases; subst Q; by cbn in *; subst].
  eapply andThen_spec
    with (M := fun st => st_orders st = docs
                 /\ forall o, currentOrder (st_session st) = Some o -> awb o <> key).
  { stage_cases; try assumption;
      match goal with H : _ /\ _ |- _ => destruct H as [<- _] end; done. }
  eapply andThen_spec with (M := Q).
  { stage_unfold. intros st [<- Hkey].
    repeat case_match; simplify_eq; stage_fields; subst Q; try done.
    all: match goal with
         | Hr : Database.rescheduleOrder ?ok ?t (awb ?o) ?d ?before = (?docs', _)
           |- _ =>
             pose proof (rescheduleOrder_frame ok t (awb o) d before key
                           (fun E => Hkey o eq_refl (eq_sym E))) as Hf;
             rewrite Hr in Hf; exact Hf
         end. }
  eapply andThen_spec with (M := Q);
    stage_cases; subst Q; cbn in *; subst; done.
Qed.

Lemma engine_orders_idle h e msg docs :
  handlerSpec
    (fun st => st_orders st = docs
               /\ (conversationState (st_session st) <> RESCHEDULE_OPTIONS
                   \/ rescheduleOptions (st_session st) = []))
    (engine h e msg)
    (fun st _ => st_orders st = docs).
Proof.
  unfold engine, earlyStages.
  set (Q := fun st : St => st_orders st = docs).
  eapply orElse_spec with (M := Q); [|stage_cases; assumption].
  eapply andThen_spec
    with (M := fun st => st_orders st = docs
                 /\ (conversationState (st_session st) <> RESCHEDULE_OPTIONS
                     \/ rescheduleOptions (st_session st) = [])).
  { stage_cases; try assumption;
      match goal with H : _ /\ _ |- _ => destruct H as [<- _] end; done. }
  eapply andThen_spec with (M := Q).
  { intros st [Hd Hidle]. unfold slotStage.
    destruct Hidle as [Hs|Ho].
    - by rewrite bool_decide_eq_false_2.
    - rewrite Ho. cbn [length Nat.eqb negb]. by rewrite andb_false_r. }
  eapply andThen_spec with (M := Q); stage_cases; assumption.
Qed.

(** X10. A request writes to the collection only for a session with pending
    options in [RESCHEDULE_OPTIONS]; and then it keeps the number of
    documents and every document under a tracking id other than the one of
    the session's order. *)
Theorem chat_writes_only_the_selected_order h e req w :
  ((forall s, resolve e req w = Some s ->
      conversationState s <> RESCHEDULE_OPTIONS \/ rescheduleOptions s = []) ->
   orders (chat h e req w).1 = orders w)
  /\ (forall key,
        (forall s o, resolve e req w = Some s -> currentOrder s = Some o ->
           awb o <> key) ->
        length (orders (chat h e req w).1) = length (orders w)
        /\ Database.getOrderStatus key (orders (chat h e req w).1)
           = Database.getOrderStatus key (orders w)).
Proof.
  destruct (resolve e req w) as [s|] eqn:Hr.
  - rewrite (chat_resolved _ _ _ _ _ Hr). split.
    + intros Hidle.
      pose proof (engine_orders_idle h e (message req) (orders w) (start w s)
                    (conj eq_refl (Hidle s eq_refl))) as Hd.
      unfold process. destruct (engine _ _ _ _). exact Hd.
    + intros key Hkey.
      pose proof (engine_orders_frame h e (message req) key (orders w) (start w s)
                    (conj eq_refl (fun o Ho => Hkey s o eq_refl Ho))) as Hd.
      unfold process. destruct (engine _ _ _ _). exact Hd.
  - destruct (chat_unresolved h _ _ _ Hr) as [->|[->| ->]]; done.
Qed.

(** ** Verification, once given *)

Lemma resolve_stored e req w s0 s :
  sessions w !! sessionId req = Some s0 -> resolve e req w = Some s ->
  s = touch s0 (now e).
Proof.
  intros Hs. unfold resolve. rewrite Hs.
  repeat case_match; intros; by simplify_eq.
Qed.

(** X11. No event takes the verification of a session back: a stored
    session that is verified is, after a request, a sweep, a call of an
    administrative route or a write to the collection, either still stored
    and verified or not stored any more. *)
Theorem verification_is_kept h w ev id s s' :
  sessions w !! id = Some s -> otpVerified s = true ->
  sessions (apply h w ev) !! id = Some s' -> otpVerified s' = true.
Proof.
  intros Hs Hv. destruct ev as [e req|t|id0|t id0|docs]; cbn [apply].
  - destruct (decide (id = sessionId req)) as [->|Hne].
    + destruct (resolve e req w) as [s0|] eqn:Hr.
      * rewrite (chat_resolved _ _ _ _ _ Hr), process_sessions, lookup_insert_eq.
        intros [= <-]. rewrite (resolve_stored _ _ _ _ _ Hs Hr).
        apply (engine_verified h e (message req) (start w (touch s (now e)))).
        exact Hv.
      * destruct (chat_unresolved h _ _ _ Hr) as [->|[->| ->]]; cbn.
        -- rewrite Hs. by intros [= <-].
        -- rewrite Hs. by intros [= <-].
        -- by rewrite lookup_delete_eq.
    + rewrite (chat_frame h e req w id Hne), Hs. by intros [= <-].
  - cbn. intros [Hl _]%map_lookup_filter_Some. congruence.
  - cbn. intros [_ Hl]%lookup_delete_Some. congruence.
  - unfold testSessionExpiration.
    destruct (sessions w !! id0) as [s0|] eqn:Hs0; cbn; [|congruence].
    destruct (decide (id0 = id)) as [->|Hne].
    + rewrite lookup_insert_eq. intros [= <-]. cbn. congruence.
    + rewrite lookup_insert_ne by done. congruence.
  - cbn. congruence.
Qed.

Lemma verification_is_kept_witness :
  otpVerified
    (default (newSession 0)
       (sessions (apply demoHost pendingWorld
                    (Chat (demoEnv 1700000004000 NoToolCall) (say "s1" "2")))
        !! "s1"%string)) = true.
Proof.
  apply (verification_is_kept demoHost pendingWorld
           (Chat (demoEnv 1700000004000 NoToolCall) (say "s1" "2")) "s1" pendingSession).
  - apply pendingWorld_session.
  - reflexivity.
  - vm_compute. reflexivity.
Defined.

(** ** Further paths of the handler *)

Lemma slotStage_idle h e msg st :
  idle (st_session st) -> slotStage h e msg st = (st, None).
Proof.
  intros [Hs|Ho]; unfold slotStage.
  - by rewrite bool_decide_eq_false_2.
  - rewrite Ho. cbn [length Nat.eqb negb]. by rewrite andb_false_r.
Qed.

Lemma earlyStages_eq h e msg st :
  otpStage e msg st = (st, None) -> slotStage h e msg st = (st, None) ->
  earlyStages h e msg st = (awbStage e msg >> gateStage) st.
Proof. intros H1 H2. unfold earlyStages, andThen. by rewrite H1, H2. Qed.

(** X12. A verified session that sends the tracking id of another order (no
    slot selection going on, the store answering) has that order attached
    at once: no code is issued, the notifier is not asked, and the message
    is answered by the dispatch for the new order. *)
Theorem verified_session_switches_order h e req w s key order :
  resolve e req w = Some s ->
  otpVerified s = true -> idle s ->
  extractAWB (message req) = Some key ->
  Database.getOrderStatus key (orders w) = Some order ->
  findOk e = true ->
  (chat h e req w).2 = (intentStage h e (start w (withOrder s order))).2
  /\ whatsapp (chat h e req w).1 = whatsapp w
  /\ exists s', sessions (chat h e req w).1 !! sessionId req = Some s'
       /\ currentOrder s' = Some order
       /\ otp s' = otp s /\ otpTimestamp s' = otpTimestamp s
       /\ otpVerified s' = true.
Proof.
  intros Hr Hv Hidle Hawb Hget Hfind.
  rewrite (chat_resolved _ _ _ _ _ Hr).
  assert (Hearly : earlyStages h e (message req) (start w s)
                   = (start w (withOrder s order), None)).
  { rewrite earlyStages_eq;
      [|apply otpStage_skip; by right|by apply slotStage_idle].
    unfold andThen, awbStage. rewrite Hawb, Hfind. cbn [start st_orders st_session].
    rewrite Hget, Hv. cbn [negb]. unfold gateStage, withSession.
    cbn [st_session currentOrder otpVerified negb].
    unfold start, withOrder. cbn [st_orders st_assistant st_whatsapp].
    rewrite Hv. reflexivity. }
  unfold process. rewrite (engine_dispatch _ _ _ _ _ Hearly).
  unfold intentStage, handleUserMessage. cbn.
  repeat split. rewrite lookup_insert_eq. eexists. split; [reflexivity|].
  cbn. auto.
Qed.

Lemma verified_session_switches_order_witness :
  whatsapp (chat demoHost (demoEnv 1700000005000 NoToolCall)
              (say "s1" "and AWB345678?") rescheduledWorld).1
  = whatsapp rescheduledWorld.
Proof.
  refine (proj1 (proj2 (verified_session_switches_order demoHost
            (demoEnv 1700000005000 NoToolCall) (say "s1" "and AWB345678?")
            rescheduledWorld (touch rescheduledSession 1700000005000) "AWB345678"
            (default blankOrder
               (Database.getOrderStatus "AWB345678" (orders rescheduledWorld)))
            _ _ _ _ _ _))).
  - vm_compute. reflexivity.
  - reflexivity.
  - right. reflexivity.
  - reflexivity.
  - vm_compute. reflexivity.
  - reflexivity.
Defined.

(** X13. In a reachable state, a session that has an order but is not
    verified and is not waiting for a code (it gave a wrong code, say) gets
    the request for the code on every message that carries no tracking id
    of an order in the collection: the completion is not consulted, the
    session stays as it is, and the answer names [AWAITING_OTP] whatever
    the stored state is. *)
Theorem verification_gate_blocks h e req w s order :
  reachable h w ->
  resolve e req w = Some s ->
  otpVerified s = false -> currentOrder s = Some order ->
  conversationState s <> AWAITING_OTP ->
  extractAWB (message req) = None
  \/ (exists key, extractAWB (message req) = Some key /\ findOk e = true
        /\ Database.getOrderStatus key (orders w) = None) ->
  chat h e req w
  = ({| sessions := <[sessionId req := s]> (sessions w);
        expiredSessions := expiredSessions w;
        orders := orders w; assistant := assistant w; whatsapp := whatsapp w |},
     Json (otpReply "Please complete OTP verification to access your order details."
             AWAITING_OTP true)).
Proof.
  intros Hw%reachable_ok Hr Hv Ho Hs Hmsg.
  destruct (resolve_ok _ _ _ _ Hw Hr) as [Hok _].
  assert (Hno : rescheduleOptions s = []) by (apply (session_ok_empty _ Hok); auto).
  rewrite (chat_resolved _ _ _ _ _ Hr).
  apply (process_eq h e req w s (start w s)). unfold engine, orElse.
  rewrite earlyStages_eq;
    [|apply otpStage_skip; by left|apply slotStage_idle; by right].
  unfold andThen, awbStage, gateStage.
  destruct Hmsg as [->|(key & -> & -> & Hnone)];
    cbn [start st_orders st_session]; rewrite ?Hnone;
    cbn [start st_orders st_session]; rewrite Ho, Hv; reflexivity.
Qed.

Lemma verification_gate_blocks_witness :
  (chat demoHost
     (demoEnv 1700000003000 (ToolCall "get_order_info" (Some "details"%string) None))
     (say "s1" "show me the details") refusedWorld).2
  = Json (otpReply "Please complete OTP verification to access your order details."
            AWAITING_OTP true).
Proof.
  refine (f_equal snd (verification_gate_blocks demoHost
            (demoEnv 1700000003000 (ToolCall "get_order_info" (Some "details"%string) None))
            (say "s1" "show me the details") refusedWorld
            (touch refusedSession 1700000003000)
            (default blankOrder (currentOrder refusedSession)) _ _ _ _ _ _)).
  - exists demoOrders. eexists. reflexivity.
  - vm_compute. reflexivity.
  - reflexivity.
  - reflexivity.
  - discriminate.
  - left. reflexivity.
Defined.

(** X14. When the store does not answer the read for a tracking id in the
    message (no code awaited, no slot selection going on), the request is
    answered with status 500; the session keeps its state, its order and
    its code, and nothing is sent. *)
Theorem failed_read_is_an_internal_error h e req w s key :
  resolve e req w = Some s ->
  conversationState s <> AWAITING_OTP \/ otpVerified s = true ->
  idle s ->
  extractAWB (message req) = Some key ->
  findOk e = false ->
  chat h e req w
  = ({| sessions := <[sessionId req := s]> (sessions w);
        expiredSessions := expiredSessions w;
        orders := orders w; assistant := assistant w; whatsapp := whatsapp w |},
     InternalError).
Proof.
  intros Hr Hskip Hidle Hawb Hfind.
  rewrite (chat_resolved _ _ _ _ _ Hr).
  apply (process_eq h e req w s (start w s)). unfold engine, orElse.
  rewrite earlyStages_eq; [|by apply otpStage_skip|by apply slotStage_idle].
  unfold andThen, awbStage. by rewrite Hawb, Hfind.
Qed.

Lemma failed_read_is_an_internal_error_witness :
  (chat demoHost (withFind (demoEnv 1700000005000 NoToolCall) false)
     (say "s1" "and AWB345678?") rescheduledWorld).2
  = InternalError.
Proof.
  refine (f_equal snd (failed_read_is_an_internal_error demoHost
            (withFind (demoEnv 1700000005000 NoToolCall) false)
            (say "s1" "and AWB345678?") rescheduledWorld
            (touch rescheduledSession 1700000005000) "AWB345678" _ _ _ _ _)).
  - vm_compute. reflexivity.
  - right. reflexivity.
  - right. reflexivity.
  - reflexivity.
  - reflexivity.
Defined.

(** ** Expiry, reset and the sweep *)

Lemma chat_marked h e req w :
  sessionId req <> ""%string -> sessionId req ∈ expiredSessions w ->
  chat h e req w = (w, Json expiredReply).
Proof.
  intros Hid Hin. unfold chat.
  rewrite bool_decide_eq_false_2 by done.
  by rewrite bool_decide_eq_true_2.
Qed.

(** X15. Once a message has found its session idle for more than 120
    seconds, every later message for the same id gets the expiry answer and
    changes nothing, whatever its text and its time of arrival, for as long
    as no sweep and no reset comes. *)
Theorem expired_id_stays_expired h e1 e2 req1 req2 w s :
  sessionId req1 <> ""%string ->
  sessions w !! sessionId req1 = Some s ->
  now e1 - lastActive s > SESSION_EXPIRATION ->
  sessionId req2 = sessionId req1 ->
  chat h e2 req2 (chat h e1 req1 w).1
  = ((chat h e1 req1 w).1, Json expiredReply).
Proof.
  intros Hid Hs Hidle Hsame. apply chat_marked; [congruence|]. rewrite Hsame.
  unfold chat. rewrite bool_decide_eq_false_2 by done.
  destruct (bool_decide (sessionId req1 ∈ expiredSessions w)) eqn:Hm.
  - by apply bool_decide_eq_true in Hm.
  - rewrite Hs. rewrite (proj2 (Z.gtb_lt _ _)) by lia. cbn. set_solver.
Qed.

Lemma expired_id_stays_expired_witness :
  (chat demoHost (demoEnv 1700000122000 NoToolCall) (say "s1" "hello")
     (chat demoHost (demoEnv 1700000121001 NoToolCall) (say "s1" "482193")
        awaitingWorld).1).2
  = Json expiredReply.
Proof.
  refine (f_equal snd (expired_id_stays_expired demoHost
            (demoEnv 1700000121001 NoToolCall) (demoEnv 1700000122000 NoToolCall)
            (say "s1" "482193") (say "s1" "hello") awaitingWorld awaitingSession
            _ _ _ _)).
  - discriminate.
  - apply awaitingWorld_session.
  - vm_compute. reflexivity.
  - reflexivity.
Defined.

(** X16. After [reset-session] for an id, the next message for that id is
    the first message of a new session, whether the id had a session, was
    marked expired, or neither; and the collection is the seed, for every
    session. *)
Theorem reset_then_chat h e req w :
  sessionId req <> ""%string ->
  let fresh := resetSession h (sessionId req) w in
  resolve e req fresh = Some (newSession (now e))
  /\ chat h e req fresh = process h e req fresh (newSession (now e))
  /\ orders fresh = sampleOrders (loadTime h)
  /\ forall id, id <> sessionId req -> sessions fresh !! id = sessions w !! id.
Proof.
  intros Hid fresh.
  assert (Hr : resolve e req fresh = Some (newSession (now e))).
  { unfold resolve, fresh, resetSession; cbn.
    rewrite bool_decide_eq_false_2 by done.
    rewrite bool_decide_eq_false_2
      by (intros [_ Hn]%elem_of_difference; apply Hn; by apply elem_of_singleton).
    by rewrite lookup_delete_eq. }
  split; [exact Hr|]. split; [by apply chat_resolved|]. split; [reflexivity|].
  intros id Hne. unfold fresh, resetSession; cbn. by rewrite lookup_delete_ne.
Qed.

Lemma reset_then_chat_witness :
  resolve (demoEnv 1700000002000 NoToolCall) (say "s1" "hello")
    (resetSession demoHost "s1" awaitingWorld)
  = Some (newSession 1700000002000).
Proof.
  refine (proj1 (reset_then_chat demoHost (demoEnv 1700000002000 NoToolCall)
                   (say "s1" "hello") awaitingWorld _)).
  discriminate.
Defined.

(** X17. After [test-session-expiration] at time [t] for a stored session
    whose id is not marked, a message that arrives at [t] or later finds the
    session expired: it gets the expiry answer, the session is removed and
    the id is marked. Without a stored session the route changes nothing. *)
Theorem test_expiration_then_chat h e req w t :
  sessionId req <> ""%string ->
  sessionId req ∉ expiredSessions w ->
  t <= now e ->
  let aged := testSessionExpiration t (sessionId req) w in
  (sessions w !! sessionId req = None -> aged = w)
  /\ (is_Some (sessions w !! sessionId req) ->
      (chat h e req aged).2 = Json expiredReply
      /\ sessions (chat h e req aged).1 !! sessionId req = None
      /\ sessionId req ∈ expiredSessions (chat h e req aged).1).
Proof.
  intros Hid Hex Ht aged. subst aged. unfold testSessionExpiration. split.
  - by intros ->.
  - intros [s Hs]. rewrite Hs. unfold chat. cbn.
    rewrite bool_decide_eq_false_2 by done.
    rewrite bool_decide_eq_false_2 by done.
    rewrite lookup_insert_eq. cbn.
    rewrite (proj2 (Z.gtb_lt _ _)) by (unfold SESSION_EXPIRATION; lia).
    cbn. split; [reflexivity|]. split; [apply lookup_delete_eq|set_solver].
Qed.

Lemma test_expiration_then_chat_witness :
  (chat demoHost (demoEnv 1700000002000 NoToolCall) (say "s1" "482193")
     (testSessionExpiration 1700000002000 "s1" awaitingWorld)).2
  = Json expiredReply.
Proof.
  refine (proj1 (proj2 (test_expiration_then_chat demoHost
            (demoEnv 1700000002000 NoToolCall) (say "s1" "482193") awaitingWorld
            1700000002000 _ _ _) _)).
  - discriminate.
  - apply awaitingWorld_unmarked.
  - vm_compute. discriminate.
  - exists awaitingSession. apply awaitingWorld_session.
Defined.

Lemma sweep_sessions t w id s :
  sessions (cleanupExpiredSessions t w) !! id = Some s
  <-> sessions w !! id = Some s /\ t - lastActive s <= SESSION_EXPIRATION.
Proof.
  unfold cleanupExpiredSessions; cbn. rewrite map_lookup_filter_Some. cbn.
  unfold idleAt. split; intros [H1 H2]; (split; [exact H1|]).
  - destruct (Z.gtb_spec (t - lastActive s) SESSION_EXPIRATION); [done|lia].
  - destruct (Z.gtb_spec (t - lastActive s) SESSION_EXPIRATION); [lia|done].
Qed.

(** X18. A sweep at time [t] keeps exactly the sessions that have been
    idle for at most 120 seconds, unchanged; in a reachable state it leaves
    no id marked expired; and a second sweep at the same time changes
    nothing more. *)
Theorem sweep_keeps_the_active h w t :
  (forall id s,
     sessions (cleanupExpiredSessions t w) !! id = Some s
     <-> sessions w !! id = Some s /\ t - lastActive s <= 120 * 1000)
  /\ (reachable h w -> expiredSessions (cleanupExpiredSessions t w) = ∅)
  /\ cleanupExpiredSessions t (cleanupExpiredSessions t w)
     = cleanupExpiredSessions t w.
Proof.
  split; [intros id s; apply sweep_sessions|]. split.
  - intros [_ Hd]%reachable_ok. by apply sweep_forgets.
  - set (w1 := cleanupExpiredSessions t w).
    assert (Hlive : filter (fun kv => idleAt t kv.2 = false) (sessions w1) = sessions w1).
    { apply map_eq. intros id. apply option_eq. intros s.
      rewrite map_lookup_filter_Some. cbn. split; [tauto|]. intros Hl.
      split; [exact Hl|].
      unfold w1, cleanupExpiredSessions in Hl; cbn in Hl.
      by apply map_lookup_filter_Some in Hl as [_ Hl]. }
    assert (Hidle : filter (fun kv => idleAt t kv.2 = true) (sessions w1)
                    = (∅ : gmap string Session)).
    { apply map_eq. intros id. rewrite lookup_empty. apply option_eq. intros s.
      rewrite map_lookup_filter_Some. cbn. split; [|done]. intros [Hl Hi].
      unfold w1, cleanupExpiredSessions in Hl; cbn in Hl.
      apply map_lookup_filter_Some in Hl as [_ Hl]. cbn in Hl. congruence. }
    unfold cleanupExpiredSessions at 1. rewrite Hlive, Hidle.
    assert (Hmarks :
      filter (fun id => forgetAt t (sessions w1) id = false)
        (expiredSessions w1 ∪ dom (∅ : gmap string Session))
      = expiredSessions w1).
    { apply set_eq. intros id. rewrite elem_of_filter, dom_empty_L.
      split; [intros [_ [H|H]%elem_of_union]; [done|by apply elem_of_empty in H]|].
      intros Hin. split; [|by apply elem_of_union; left].
      unfold w1, cleanupExpiredSessions in Hin; cbn in Hin.
      by apply elem_of_filter in Hin as [Hf _]. }
    rewrite Hmarks. by destruct w1.
Qed.

(** ** A selection that the store applies *)

Lemma rescheduleOrder_applied ok t key newDate docs docs' :
  Database.rescheduleOrder ok t key newDate docs = (docs', true) ->
  exists o, Database.getOrderStatus key docs = Some o
    /\ Database.getOrderStatus key docs' = Some (Database.rescheduleSet newDate t o).
Proof.
  unfold Database.rescheduleOrder. destruct ok; [|discriminate].
  pose proof (updateOne_modified key (Database.rescheduleSet newDate t) docs) as Hm.
  pose proof (getOrderStatus_updateOne key key (Database.rescheduleSet newDate t) docs
                (fun _ => eq_refl)) as Hg.
  destruct (Database.updateOne _ _ _) as [d n]. cbn in *.
  intros [= -> Hn]. apply Z.eqb_eq in Hn.
  rewrite bool_decide_eq_true_2 in Hg by done.
  destruct (Database.getOrderStatus key docs) as [o|]; [|lia].
  exists o. by split.
Qed.

(** X19. After a selection that the store applies (and whose refresh it
    answers), the order of the session is the stored one: status
    [Rescheduled], the date of the selected option as scheduled delivery,
    [rescheduled] set, so that [canReschedule] refuses it from then on; the
    answer carries its details. *)
Theorem applied_selection_updates_the_order h e req w s k selected order orders' :
  live e req w s ->
  conversationState s = RESCHEDULE_OPTIONS ->
  Text.parseInt (Text.trim (message req)) = Some k -> 1 <= k ->
  rescheduleOptions s !! Z.to_nat (k - 1) = Some selected ->
  currentOrder s = Some order ->
  Database.rescheduleOrder (updateOk e) (nowUpdate e) (awb order)
    (date selected) (orders w) = (orders', true) ->
  findOk e = true ->
  exists s' o' r,
    sessions (chat h e req w).1 !! sessionId req = Some s'
    /\ currentOrder s' = Some o'
    /\ Database.getOrderStatus (awb order) (orders (chat h e req w).1) = Some o'
    /\ awb o' = awb order /\ status o' = Rescheduled
    /\ scheduledDelivery o' = Some (date selected) /\ rescheduled o' = Some true
    /\ Database.canReschedule o' = false
    /\ (chat h e req w).2 = Json r
    /\ orderDetails r = Some (formatOrderDetails h o')
    /\ showDetails r = Some true.
Proof.
  intros Hlive Hs Hp Hk Hsel Ho Hupd Hfind.
  destruct (rescheduleOrder_applied _ _ _ _ _ _ Hupd) as (o0 & Hget0 & Hget').
  assert (Hkey : awb o0 = awb order).
  { unfold Database.getOrderStatus in Hget0. apply find_some in Hget0 as [_ Hk0].
    by apply bool_decide_eq_true in Hk0. }
  erewrite (live_slot h e req w s); [| done | done |].
  2:{ rewrite (slotStage_selected h e _ _ k selected order);
        [| done | done | lia | done | done].
      cbn [start st_orders st_session]. rewrite Hupd, Hfind. reflexivity. }
  cbn. rewrite lookup_insert_eq, Hget'.
  eexists _, _, _. split; [reflexivity|]. cbn. repeat split; done.
Qed.

Lemma applied_selection_updates_the_order_witness :
  exists o',
    Database.getOrderStatus "AWB789012"
      (orders (chat demoHost (demoEnv 1700000004000 NoToolCall) (say "s1" "2")
                 pendingWorld).1) = Some o'
    /\ status o' = Rescheduled.
Proof.
  destruct (applied_selection_updates_the_order demoHost
              (demoEnv 1700000004000 NoToolCall) (say "s1" "2") pendingWorld
              pendingSession 2
              (default (Build_RescheduleOption 0 EmptyString)
                 (rescheduleOptions pendingSession !! 1%nat))
              (default blankOrder (currentOrder pendingSession))
              (Database.rescheduleOrder true 1700000004000 "AWB789012"
                 (date (default (Build_RescheduleOption 0 EmptyString)
                          (rescheduleOptions pendingSession !! 1%nat)))
                 (orders pendingWorld)).1)
    as (s' & o' & r & _ & _ & Hget & _ & Hstatus & _).
  - split; [discriminate|]. split; [apply pendingWorld_unmarked|].
    split; [apply pendingWorld_session|]. vm_compute. discriminate.
  - reflexivity.
  - reflexivity.
  - lia.
  - reflexivity.
  - reflexivity.
  - vm_compute. reflexivity.
  - reflexivity.
  - exists o'. split; [exact Hget|exact Hstatus].
Defined.

(** ** The dispatch of tool calls *)

(** X20. Of the four flags of an outcome at most one is set, and each goes
    with its state: [requiresAwb] only without an order, with
    [AWAITING_AWB]; [showDetails] only with an order, with [ORDER_FOUND];
    [requiresReschedule] only with an order that [canReschedule] accepts,
    with [RESCHEDULE_OPTIONS]; [endConversation] only with [COMPLETED]. *)
Theorem handleLlmRequest_flags completion current order :
  let out := handleLlmRequest completion current order in
  (truthy (llm_requiresAwb out) = true ->
   order = None /\ nextState out = AWAITING_AWB
   /\ truthy (llm_showDetails out) = false
   /\ truthy (llm_requiresReschedule out) = false
   /\ truthy (llm_endConversation out) = false)
  /\ (truthy (llm_showDetails out) = true ->
      is_Some order /\ nextState out = ORDER_FOUND
      /\ truthy (llm_requiresReschedule out) = false
      /\ truthy (llm_endConversation out) = false)
  /\ (truthy (llm_requiresReschedule out) = true ->
      (exists o, order = Some o /\ Database.canReschedule o = true)
      /\ nextState out = RESCHEDULE_OPTIONS
      /\ truthy (llm_endConversation out) = false)
  /\ (truthy (llm_endConversation out) = true -> nextState out = COMPLETED).
Proof.
  cbv zeta.
  unfold handleLlmRequest, handleOrderAction, handleGreeting, handleFarewell, plain.
  repeat case_match; cbn; repeat split; try done; try (by eexists).
  all: eexists; split; [reflexivity|].
  all: match goal with H : negb _ = false |- _ => by apply negb_false_iff in H end.
Qed.

(** ** The stored state of a session *)

Ltac alike_open :=
  match goal with
  | |- forall a b : St, alike a b -> _ =>
      intros [[c1 o1 r1 l1 p1 t1 v1] d1 a1 w1] [[c2 o2 r2 l2 p2 t2 v2] d2 a2 w2]
             (E1 & E2 & E3 & E4 & E5 & E6);
      cbn in E1, E2, E3, E4, E5, E6; subst
  end.

Lemma awbStage_alike e msg :
  forall a b, alike a b -> alikeOut (awbStage e msg a) (awbStage e msg b).
Proof.
  alike_open. unfold awbStage, alikeOut, alike, withSession. cbn.
  repeat case_match; simplify_eq; cbn; done.
Qed.

Lemma gateStage_alike :
  forall a b, alike a b -> alikeOut (gateStage a) (gateStage b).
Proof.
  alike_open. unfold gateStage, alikeOut, alike. cbn.
  repeat case_match; simplify_eq; cbn; done.
Qed.

Lemma intentStage_alike h e :
  forall a b, alike a b ->
    (intentStage h e a).2 = (intentStage h e b).2
    /\ alike (intentStage h e a).1 (intentStage h e b).1.
Proof.
  alike_open. unfold intentStage, handleUserMessage, alike. cbn. done.
Qed.

Lemma engine_state_not_read h e msg w s c :
  untested (conversationState s) -> untested c ->
  let out1 := engine h e msg (start w s) in
  let out2 := engine h e msg (start w (withState s c)) in
  out2.2 = out1.2
  /\ st_orders out2.1 = st_orders out1.1
  /\ st_assistant out2.1 = st_assistant out1.1
  /\ st_whatsapp out2.1 = st_whatsapp out1.1.
Proof.
  intros [Hs1 Hs2] [Hc1 Hc2]. cbv zeta.
  unfold engine, orElse.
  rewrite !earlyStages_eq;
    try (apply otpStage_skip; by left); try (apply slotStage_idle; by left).
  unfold andThen.
  assert (H0 : alike (start w (withState s c)) (start w s)) by (by repeat split).
  pose proof (awbStage_alike e msg _ _ H0) as [Hr1 Ha1].
  destruct (awbStage e msg (start w (withState s c))) as [x1 [r1|]],
           (awbStage e msg (start w s)) as [y1 [r1'|]];
    cbn in Hr1, Ha1; simplify_eq.
  { cbn. destruct Ha1 as (? & ? & ? & _). done. }
  pose proof (gateStage_alike _ _ Ha1) as [Hr2 Ha2].
  destruct (gateStage x1) as [x2 [r2|]], (gateStage y1) as [y2 [r2'|]];
    cbn in Hr2, Ha2; simplify_eq.
  { cbn. destruct Ha2 as (? & ? & ? & _). done. }
  destruct (intentStage_alike h e _ _ Ha2) as [Hr3 (? & ? & ? & _)]. done.
Qed.

(** X21. The handler reads the stored state of a session in two tests only,
    for [AWAITING_OTP] and for [RESCHEDULE_OPTIONS]: between any two other
    states (so also [COMPLETED]) the answer to a message is the same, and so
    is what the request does to the store, the assistant and the notifier;
    the completion is asked with the assistant's state, not the
    session's. *)
Theorem stored_state_is_not_read h e req w s c :
  sessions w !! sessionId req = Some s ->
  untested (conversationState s) -> untested c ->
  let out1 := chat h e req w in
  let out2 := chat h e req (restated w (sessionId req) s c) in
  out2.2 = out1.2
  /\ orders out2.1 = orders out1.1
  /\ assistant out2.1 = assistant out1.1
  /\ whatsapp out2.1 = whatsapp out1.1.
Proof.
  intros Hs Hu Hc. cbv zeta. unfold chat, restated. cbn.
  destruct (bool_decide (sessionId req = ""%string)); [done|].
  destruct (bool_decide (sessionId req ∈ expiredSessions w)); [done|].
  rewrite lookup_insert_eq, Hs. cbn.
  destruct (now e - lastActive s >? SESSION_EXPIRATION); [done|].
  pose proof (engine_state_not_read h e (message req) w (touch s (now e)) c Hu Hc)
    as (H1 & H2 & H3 & H4).
  unfold process.
  change (start _ (touch (withState s c) (now e)))
    with (start w (withState (touch s (now e)) c)).
  destruct (engine h e (message req) (start w (withState (touch s (now e)) c))),
           (engine h e (message req) (start w (touch s (now e)))).
  cbn in *. done.
Qed.

Lemma stored_state_is_not_read_witness :
  (chat demoHost
     (demoEnv 1700000005000 (ToolCall "get_order_info" (Some "status"%string) None))
     (say "s1" "where is it") (restated rescheduledWorld "s1" rescheduledSession COMPLETED)).2
  = (chat demoHost
       (demoEnv 1700000005000 (ToolCall "get_order_info" (Some "status"%string) None))
       (say "s1" "where is it") rescheduledWorld).2.
Proof.
  refine (proj1 (stored_state_is_not_read demoHost
            (demoEnv 1700000005000 (ToolCall "get_order_info" (Some "status"%string) None))
            (say "s1" "where is it") rescheduledWorld rescheduledSession COMPLETED
            _ _ _)).
  - vm_compute. reflexivity.
  - split; discriminate.
  - split; discriminate.
Defined.

(** ** What a slot selection reads of the message *)

Lemma slotStage_reads_parseInt h e m1 m2 st order :
  conversationState (st_session st) = RESCHEDULE_OPTIONS ->
  rescheduleOptions (st_session st) <> [] ->
  currentOrder (st_session st) = Some order ->
  Text.parseInt (Text.trim m1) = Text.parseInt (Text.trim m2) ->
  slotStage h e m1 st = slotStage h e m2 st
  /\ exists r, (slotStage h e m1 st).2 = Some r.
Proof.
  intros Hs Hne Ho Hp. unfold slotStage. rewrite Hp, Hs, Ho.
  split; [reflexivity|].
  rewrite bool_decide_eq_true_2 by reflexivity.
  destruct (rescheduleOptions (st_session st)) as [|o opts]; [done|].
  cbn [length Nat.eqb negb andb].
  repeat case_match; cbn; eauto.
Qed.

(** X22. Slot selection reads the message through [parseInt] of its trimmed
    text only: for a live session in [RESCHEDULE_OPTIONS] with pending
    options and an order, two messages with the same leading integer (or
    both with none) get the same answer and leave the same server state;
    the rest of the text is never looked at (no tracking id is extracted,
    the assistant is not asked). *)
Theorem slot_selection_reads_the_leading_integer h e id m1 m2 w s order :
  live e (say id m1) w s ->
  conversationState s = RESCHEDULE_OPTIONS ->
  rescheduleOptions s <> [] ->
  currentOrder s = Some order ->
  Text.parseInt (Text.trim m1) = Text.parseInt (Text.trim m2) ->
  chat h e (say id m1) w = chat h e (say id m2) w
  /\ assistant (chat h e (say id m1) w).1 = assistant w.
Proof.
  intros Hlive Hs Hne Ho Hp.
  assert (Hlive2 : live e (say id m2) w s) by exact Hlive.
  pose proof (slotStage_reads_parseInt h e m1 m2 (start w (touch s (now e))) order
                Hs Hne Ho Hp) as [Heq [r Hr]].
  destruct (slotStage h e m1 (start w (touch s (now e)))) as [st o] eqn:H1.
  cbn in Hr. subst o.
  rewrite (live_slot h e (say id m1) w s st r Hlive Hs H1).
  rewrite (live_slot h e (say id m2) w s st r Hlive2 Hs (eq_sym Heq)).
  split; [reflexivity|]. cbn.
  revert H1. unfold slotStage, start. cbn.
  repeat case_match; intros; simplify_eq; reflexivity.
Qed.

Lemma slot_selection_reads_the_leading_integer_witness :
  chat demoHost (demoEnv 1700000004000 NoToolCall) (say "s1" "2nd slot, AWB345678")
    pendingWorld
  = chat demoHost (demoEnv 1700000004000 NoToolCall) (say "s1" "2") pendingWorld.
Proof.
  refine (proj1 (slot_selection_reads_the_leading_integer demoHost
            (demoEnv 1700000004000 NoToolCall) "s1" "2nd slot, AWB345678" "2"
            pendingWorld pendingSession
            (default blankOrder (currentOrder pendingSession)) _ _ _ _ _)).
  - split; [discriminate|]. split; [apply pendingWorld_unmarked|].
    split; [apply pendingWorld_session|]. vm_compute. discriminate.
  - reflexivity.
  - discriminate.
  - reflexivity.
  - reflexivity.
Defined.

(** ** The window of the reschedule options *)

Lemma rescheduleOption_day tz b1 b2 i :
  1 <= i <= 3 ->
  JsDate.isNaN b1 = false -> hostHasSlots tz b1 ->
  JsDate.isNaN b2 = false -> hostHasSlots tz b2 ->
  JsDate.Day (JsDate.LocalTime tz b1) = JsDate.Day (JsDate.LocalTime tz b2) ->
  rescheduleOption tz b1 i = rescheduleOption tz b2 i.
Proof.
  intros Hi Hv1 Hh1 Hv2 Hh2 Hd.
  destruct (rescheduleOption_date tz b1 i Hi Hv1 Hh1) as (H1 & _).
  destruct (rescheduleOption_date tz b2 i Hi Hv2 Hh2) as (H2 & _).
  assert (He : date (rescheduleOption tz b1 i) = date (rescheduleOption tz b2 i)).
  { rewrite H1, H2. unfold slotTime. by rewrite Hd. }
  revert He. rewrite !rescheduleOption_eq by done. cbv zeta. cbn [date].
  intros ->. reflexivity.
Qed.

Lemma option_window tz baseDate i :
  1 <= i <= 3 ->
  JsDate.isNaN baseDate = false -> hostHasSlots tz baseDate ->
  steadyZone (13 * JsDate.msPerHour) tz ->
  baseDate < date (rescheduleOption tz baseDate i) < baseDate + 4 * JsDate.msPerDay.
Proof.
  intros Hi Hbase Hhost Hz.
  destruct (options_dates tz baseDate Hbase Hhost)
    as (c1 & c2 & c3 & E1 & E2 & E3 & H1 & H2 & H3).
  set (c0 := JsDate.LocalTZA tz baseDate true).
  assert (Hc : forall c, (c = c1 \/ c = c2 \/ c = c3) ->
                         c - c0 < 13 * JsDate.msPerHour /\ c0 - c < 13 * JsDate.msPerHour).
  { intros c [->|[->| ->]]; subst; split; apply Hz. }
  pose proof (Hc c1 ltac:(tauto)) as B1. pose proof (Hc c2 ltac:(tauto)) as B2.
  pose proof (Hc c3 ltac:(tauto)) as B3. clear Hc E1 E2 E3.
  assert (Hl : JsDate.LocalTime tz baseDate = baseDate + c0) by reflexivity.
  revert H1 H2 H3 Hl.
  generalize (JsDate.LocalTime tz baseDate). clearbody c0.
  intros local H1 H2 H3 Hl.
  assert (Hgoal : forall d,
    (i = 1 /\ d = (JsDate.Day local + 1) * JsDate.msPerDay + 13 * JsDate.msPerHour - c1)
    \/ (i = 2 /\ d = (JsDate.Day local + 2) * JsDate.msPerDay + 18 * JsDate.msPerHour - c2)
    \/ (i = 3 /\ d = (JsDate.Day local + 3) * JsDate.msPerDay + 9 * JsDate.msPerHour - c3) ->
    baseDate < d < baseDate + 4 * JsDate.msPerDay).
  { unfold JsDate.Day, JsDate.msPerDay, JsDate.msPerHour in *. intros d Hd.
    pose proof (Z.div_mod local 86400000 ltac:(lia)) as Hdm.
    pose proof (Z.mod_pos_bound local 86400000 ltac:(lia)) as Hb.
    lia. }
  apply Hgoal.
  assert (i = 1 \/ i = 2 \/ i = 3) as [->|[->| ->]] by lia; tauto.
Qed.

(** X23. On a host that has the local times the options go through, with
    the offsets of its zone less than 13 hours apart, every option for a
    valid base date lies strictly after the base date and less than four days
    after it; and the options depend on the base date only through its local
    calendar day (its time of day is discarded by [setHours]): another valid
    base date of the same local day, whose local times the host has as well,
    gives the same list. *)
Theorem generateRescheduleOptions_window tz baseDate :
  JsDate.isNaN baseDate = false ->
  hostHasSlots tz baseDate ->
  steadyZone (13 * JsDate.msPerHour) tz ->
  (forall o, In o (generateRescheduleOptions tz baseDate) ->
     baseDate < date o < baseDate + 4 * JsDate.msPerDay)
  /\ (forall other,
        JsDate.isNaN other = false -> hostHasSlots tz other ->
        JsDate.Day (JsDate.LocalTime tz other) = JsDate.Day (JsDate.LocalTime tz baseDate) ->
        generateRescheduleOptions tz other = generateRescheduleOptions tz baseDate).
Proof.
  intros Hbase Hhost Hz. split.
  - intros o Hin. unfold generateRescheduleOptions in Hin. cbn [map In] in Hin.
    destruct Hin as [<-|[<-|[<-|[]]]]; apply option_window; (done || lia).
  - intros other Hv Hh Hd. unfold generateRescheduleOptions. cbn [map].
    rewrite (rescheduleOption_day tz other baseDate 1) by (done || lia).
    rewrite (rescheduleOption_day tz other baseDate 2) by (done || lia).
    rewrite (rescheduleOption_day tz other baseDate 3) by (done || lia).
    reflexivity.
Qed.

Lemma generateRescheduleOptions_window_witness :
  JsDate.isNaN 1678449600000 = false
  /\ hostHasSlots newYork2023 1678449600000
  /\ steadyZone (13 * JsDate.msPerHour) newYork2023
  /\ (forall o, In o (generateRescheduleOptions newYork2023 1678449600000) ->
        1678449600000 < date o < 1678449600000 + 4 * JsDate.msPerDay)
  /\ (forall other,
        JsDate.isNaN other = false -> hostHasSlots newYork2023 other ->
        JsDate.Day (JsDate.LocalTime newYork2023 other)
        = JsDate.Day (JsDate.LocalTime newYork2023 1678449600000) ->
        generateRescheduleOptions newYork2023 other
        = generateRescheduleOptions newYork2023 1678449600000).
Proof.
  assert (Hb : JsDate.isNaN 1678449600000 = false) by reflexivity.
  split; [exact Hb|]. split; [exact hostHasSlots_newYork2023|].
  split; [exact steadyZone_newYork2023|].
  exact (generateRescheduleOptions_window newYork2023 1678449600000 Hb
           hostHasSlots_newYork2023 steadyZone_newYork2023).
Defined.

(** ** The command-line client *)

Lemma getOrderStatus_awb key docs o :
  Database.getOrderStatus key docs = Some o -> awb o = key.
Proof.
  unfold Database.getOrderStatus. intros H. apply find_some in H as [_ H].
  by apply bool_decide_eq_true in H.
Qed.

Ltac cli_fields :=
  unfold said, stalled;
  cbn [cli_prompt cli_currentOrder cli_rescheduleOptions cli_assistant
       cli_orders cli_whatsapp cli_console].

(** The slot branch in one sweep: the options are kept; either the main
    question is asked again with the assistant in [ORDER_FOUND], or the
    callback has rejected; an order held afterwards has the tracking id of
    the one held before. *)
Lemma selectSlot_shape h e input c :
  let c' := selectSlot h e input c in
  cli_rescheduleOptions c' = cli_rescheduleOptions c
  /\ (cli_prompt c' = AskYou /\ cli_assistant c' = ORDER_FOUND
      \/ cli_prompt c' = Stalled
         /\ (findOk e = false
             \/ exists k, 1 <= k <= Z.of_nat (length (cli_rescheduleOptions c))
                  /\ cli_rescheduleOptions c !! Z.to_nat (k - 1) = None))
  /\ (forall o o', cli_currentOrder c = Some o ->
        cli_currentOrder c' = Some o' -> awb o' = awb o).
Proof.
  cbv zeta. unfold selectSlot.
  destruct (Text.parseInt _) as [k|];
    [|cli_fields; split; [done|split; [by left|congruence]]].
  destruct (_ && _) eqn:Hr;
    [|cli_fields; split; [done|split; [by left|congruence]]].
  apply andb_true_iff in Hr as [H1%Z.leb_le H2%Z.leb_le].
  destruct (cli_currentOrder c) as [order|] eqn:Hcur;
    [|cli_fields; split; [done|split; [by left|congruence]]].
  destruct (cli_rescheduleOptions c !! Z.to_nat (k - 1)) as [sel|] eqn:Hsel;
    [|cli_fields; split; [done|split; [right; split; [done|right; by exists k]|congruence]]].
  destruct (Database.rescheduleOrder _ _ _ _ _) as [orders' []];
    [|cli_fields; split; [done|split; [by left|congruence]]].
  destruct (findOk e);
    [|cli_fields; split; [done|split; [right; split; [done|by left]|congruence]]].
  destruct (Database.getOrderStatus (awb order) orders') as [fresh|] eqn:Hfresh;
    [|cli_fields; split; [done|split; [by left|congruence]]].
  apply getOrderStatus_awb in Hfresh.
  cli_fields. split; [done|split; [by left|congruence]].
Qed.

(** The rest of the main callback: an order that is held is kept, and the
    question for a tracking number is asked only when none is. *)
Lemma converse_shape h e input c :
  let c' := converse h e input c in
  (forall o, cli_currentOrder c = Some o -> cli_currentOrder c' = Some o)
  /\ (cli_prompt c' = AskAwb -> cli_currentOrder c' = None).
Proof.
  cbv zeta. unfold converse.
  set (looked := match extractAWB input with Some _ => _ | None => _ end).
  assert (Hl : forall o, cli_currentOrder c = Some o ->
                 looked = Some (cli_currentOrder c)).
  { intros o Ho. subst looked. rewrite Ho. by destruct (extractAWB input). }
  destruct looked as [cur|].
  2: { cli_fields. split; [done|congruence]. }
  assert (Hc : forall o, cli_currentOrder c = Some o -> cur = Some o).
  { intros o Ho. specialize (Hl o Ho). congruence. }
  clear Hl.
  destruct (handleUserMessage _ _ _) as [llm a].
  destruct (truthy (llm_endConversation llm)); [cli_fields; split; [done|congruence]|].
  destruct (truthy (llm_showDetails llm) && _); [cli_fields; split; [done|congruence]|].
  cli_fields. split; [done|].
  destruct cur as [order|]; [|done].
  rewrite bool_decide_eq_true_2 by eauto. rewrite andb_false_r. congruence.
Qed.

Lemma cliStep_ok h e input c : cli_ok c -> cli_ok (cliStep h e input c).
Proof.
  intros Hok. unfold cliStep.
  destruct (cli_prompt c) eqn:Hp; [| |done..].
  - destruct (_ || _); [unfold cli_ok; cli_fields; congruence|].
    destruct (_ && _).
    + intros Hq.
      destruct (selectSlot_shape h e input c) as (_ & [[H _]|[H _]] & _); congruence.
    + exact (proj2 (converse_shape h e input c)).
  - unfold cli_ok, answerAwb.
    destruct (findOk e); cli_fields; congruence.
Qed.

Lemma cliReachable_ok h c : cliReachable h c -> cli_ok c.
Proof.
  intros (docs & evs & ->). unfold cliRun.
  assert (H0 : cli_ok (cliStart docs)) by (unfold cli_ok; cbn; congruence).
  revert H0. generalize (cliStart docs).
  induction evs as [|ev evs IH]; intros c Hc; [exact Hc|].
  cbn [fold_left]. apply IH. destruct ev as [e input|docs']; cbn [cliApply].
  - by apply cliStep_ok.
  - exact Hc.
Qed.

(** X24. The client never changes the order it holds for another one: in
    every state the client can reach, whatever is typed or written to the
    collection next, an order held before and an order held after carry the
    same tracking id. A tracking id typed while an order is held is not
    looked up (the server, for a verified session, does switch). *)
Theorem cli_keeps_its_order h c ev o o' :
  cliReachable h c ->
  cli_currentOrder c = Some o ->
  cli_currentOrder (cliApply h c ev) = Some o' ->
  awb o' = awb o.
Proof.
  intros Hr Ho. pose proof (cliReachable_ok h c Hr) as Hok.
  destruct ev as [e input|docs]; cbn [cliApply]; [|cli_fields; congruence].
  unfold cliStep. destruct (cli_prompt c) eqn:Hp.
  - destruct (_ || _); [cli_fields; congruence|].
    destruct (_ && _).
    + apply (selectSlot_shape h e input c), Ho.
    + rewrite (proj1 (converse_shape h e input c) o Ho). congruence.
  - rewrite (Hok Hp) in Ho. done.
  - congruence.
  - congruence.
Qed.

Lemma cli_keeps_its_order_witness :
  awb (default blankOrder
         (cli_currentOrder
            (cliApply demoHost cliHolding
               (Typed (demoEnv 1700000002000 NoToolCall) "and AWB345678?"))))
  = awb (default blankOrder (cli_currentOrder cliHolding)).
Proof.
  apply (cli_keeps_its_order demoHost cliHolding
           (Typed (demoEnv 1700000002000 NoToolCall) "and AWB345678?")).
  - exists demoOrders. eexists. reflexivity.
  - vm_compute. reflexivity.
  - vm_compute. reflexivity.
Defined.

(** X25. Whatever is typed at the slot menu other than [exit] or [quit], and
    whether or not a slot is selected, the client puts the assistant back in
    [ORDER_FOUND] and asks the main question again, provided the store
    answers the read; the assistant is not consulted, and the option list is
    kept as it is (it is never cleared). *)
Theorem cli_slot_input_leaves_the_menu h e input c :
  cli_prompt c = AskYou ->
  cli_assistant c = RESCHEDULE_OPTIONS ->
  cli_rescheduleOptions c <> [] ->
  toLowerCase input <> "exit"%string -> toLowerCase input <> "quit"%string ->
  findOk e = true ->
  let c' := cliStep h e input c in
  cli_prompt c' = AskYou
  /\ cli_assistant c' = ORDER_FOUND
  /\ cli_rescheduleOptions c' = cli_rescheduleOptions c
  /\ (forall completion',
        cliStep h (withCompletion e completion') input c = c').
Proof.
  intros Hp Ha Hne Hx Hq Hf. cbv zeta.
  assert (Hstep : forall e', cliStep h e' input c = selectSlot h e' input c).
  { intros e'. unfold cliStep. rewrite Hp, Ha.
    rewrite (bool_decide_eq_false_2 _ Hx), (bool_decide_eq_false_2 _ Hq).
    rewrite bool_decide_eq_true_2 by reflexivity.
    destruct (cli_rescheduleOptions c); [done|reflexivity]. }
  rewrite Hstep.
  destruct (selectSlot_shape h e input c) as (Hopts & Hgo & _).
  destruct Hgo as [[H1 H2]|[_ [Hfalse|(k & Hk & Hnone)]]].
  - split; [done|]. split; [done|]. split; [done|].
    intros completion'. by rewrite Hstep.
  - congruence.
  - apply lookup_ge_None in Hnone. lia.
Qed.

Lemma cli_slot_input_leaves_the_menu_witness :
  cli_assistant (cliStep demoHost (demoEnv 1700000003000 NoToolCall) "abc" cliMenu)
  = ORDER_FOUND.
Proof.
  refine (proj1 (proj2 (cli_slot_input_leaves_the_menu demoHost
            (demoEnv 1700000003000 NoToolCall) "abc" cliMenu _ _ _ _ _ _))).
  - vm_compute. reflexivity.
  - vm_compute. reflexivity.
  - vm_compute. discriminate.
  - vm_compute. discriminate.
  - vm_compute. discriminate.
  - reflexivity.
Defined.

Lemma append_length a b :
  String.length (a +:+ b) = (String.length a + String.length b)%nat.
Proof.
  induction a as [|c a IH]; [reflexivity|].
  change (String c a +:+ b)%string with (String c (a +:+ b)).
  cbn [String.length Nat.add]. by rewrite IH.
Qed.

Lemma toLowerCase_length s : String.length (toLowerCase s) = String.length s.
Proof.
  induction s as [|c r IH]; [reflexivity|].
  cbn [toLowerCase String.length]. by rewrite IH.
Qed.

Lemma extractAWB_not_a_command input key :
  extractAWB input = Some key ->
  toLowerCase input <> "exit"%string /\ toLowerCase input <> "quit"%string.
Proof.
  intros H. destruct (scanAWB_Some _ _ _ H) as (pre & m & post & -> & Hm & _).
  assert (Hl : (9 <= String.length (toLowerCase (pre +:+ m +:+ post)))%nat).
  { rewrite toLowerCase_length, !append_length. lia. }
  split; intros Heq; rewrite Heq in Hl; cbn in Hl; lia.
Qed.

(** X26. The client shows the details of an order to whoever types its
    tracking id: from the start, one line that carries the id of an order in
    the collection and that the assistant answers with the [details] action
    prints the formatted order. No code is issued and no message is sent. *)
Theorem cli_shows_details_without_a_code h e input docs key order type :
  extractAWB input = Some key ->
  Database.getOrderStatus key docs = Some order ->
  findOk e = true ->
  completion e = ToolCall "get_order_info" (Some "details"%string) type ->
  let c' := cliStep h e input (cliStart docs) in
  cli_console c'
  = [ assistantSays "Here are your order details:"; formatOrderDetails h order ]
  /\ cli_currentOrder c' = Some order
  /\ cli_whatsapp c' = []
  /\ cli_prompt c' = AskYou.
Proof.
  intros Hk Ho Hf Hc. cbv zeta.
  destruct (extractAWB_not_a_command input key Hk) as [Hx Hq].
  unfold cliStep, cliStart. cbn [cli_prompt cli_assistant cli_rescheduleOptions].
  rewrite (bool_decide_eq_false_2 _ Hx), (bool_decide_eq_false_2 _ Hq).
  cbn [orb length Nat.eqb negb andb]. rewrite andb_false_r.
  unfold converse. cbn [cli_currentOrder cli_orders cli_assistant].
  rewrite Hk, Hf, Ho. unfold handleUserMessage, handleLlmRequest. rewrite Hc.
  cbn. rewrite bool_decide_eq_true_2 by eauto. done.
Qed.

Lemma cli_shows_details_without_a_code_witness :
  cli_whatsapp
    (cliStep demoHost
       (demoEnv 1700000001000 (ToolCall "get_order_info" (Some "details"%string) None))
       "show AWB789012" (cliStart demoOrders))
  = [].
Proof.
  refine (proj1 (proj2 (proj2 (cli_shows_details_without_a_code demoHost
            (demoEnv 1700000001000 (ToolCall "get_order_info" (Some "details"%string) None))
            "show AWB789012" demoOrders "AWB789012"
            (default blankOrder (Database.getOrderStatus "AWB789012" demoOrders))
            None _ _ _ _)))).
  - reflexivity.
  - reflexivity.
  - reflexivity.
  - reflexivity.
Defined.

(** ** The numbers of [formatOptions] *)

Lemma isDigit_not_space c : Text.isDigit c = true -> Text.isWhiteSpace c = false.
Proof. each_char c; vm_compute; congruence. Qed.

Lemma trimEnd_cons c r :
  Text.isWhiteSpace c = false ->
  Text.trimEnd (String c r) = String c (Text.trimEnd r).
Proof. intros Hc. cbn [Text.trimEnd]. rewrite Hc. by destruct (Text.trimEnd r). Qed.

Lemma trimEnd_digits a c r :
  Text.allDigits a = true -> Text.isWhiteSpace c = false ->
  Text.trimEnd (a +:+ String c r) = (a +:+ String c (Text.trimEnd r))%string.
Proof.
  intros Ha Hc. induction a as [|d a IH].
  - by apply trimEnd_cons.
  - cbn [Text.allDigits] in Ha. apply andb_prop in Ha as [Hd Ha].
    change (String d a +:+ String c r)%string with (String d (a +:+ String c r)).
    rewrite trimEnd_cons by by apply isDigit_not_space.
    by rewrite IH.
Qed.

Lemma allDigits_digitsOf fuel n acc :
  0 <= n -> Text.allDigits acc = true ->
  Text.allDigits (Text.digitsOf fuel n acc) = true.
Proof.
  revert n acc. induction fuel as [|fuel IH]; intros n acc Hn Hacc; [exact Hacc|].
  rewrite digitsOf_S.
  assert (Hd : Text.allDigits (String (Text.digitChar (n mod 10)) acc) = true).
  { cbn [Text.allDigits]. rewrite isDigit_digitChar by (apply Z.mod_pos_bound; lia).
    exact Hacc. }
  destruct (n / 10 =? 0); [exact Hd|].
  apply IH; [apply Z.div_pos; lia|exact Hd].
Qed.

Lemma allDigits_toString n : 0 <= n -> Text.allDigits (Text.toString n) = true.
Proof. intros Hn. by apply allDigits_digitsOf. Qed.

(** A numeral followed by a full stop is read back, whatever comes next. *)
Lemma parseInt_numbered n rest :
  0 < n ->
  Text.parseInt (Text.trim (Text.toString n +:+ String "." rest)) = Some n.
Proof.
  intros Hn. unfold Text.trim.
  assert (Hs : Text.trimStart (Text.toString n +:+ String "." rest)
               = (Text.toString n +:+ String "." rest)%string).
  { unfold Text.toString.
    destruct (digitsOf_head (Z.to_nat (Z.log2 n)) n EmptyString) as (d & tail & Hd & ->).
    - split; [lia|]. apply toString_fuel. lia.
    - change (String (Text.digitChar d) tail +:+ String "." rest)%string
        with (String (Text.digitChar d) (tail +:+ String "." rest)).
      cbn [Text.trimStart]. by rewrite isWhiteSpace_digitChar by lia. }
  rewrite Hs, trimEnd_digits; [|apply allDigits_toString; lia|reflexivity].
  by apply parseInt_toString.
Qed.

(** X27. The number [formatOptions] writes before an option is the number
    that selects it: the line of option [i] (counted from 0), typed back as
    it is shown, is read by [parseInt] as [i + 1], which the slot check
    accepts and which indexes the same option. *)
Theorem formatOptions_numbers_select (options : list string) i opt :
  options !! i = Some opt ->
  formatOptions options = join nl (imap numberedOption options)
  /\ exists line k,
       imap numberedOption options !! i = Some line
       /\ slotInRange (Text.parseInt (Text.trim line)) (length options) = Some k
       /\ options !! Z.to_nat (k - 1) = Some opt.
Proof.
  intros Hi. split; [reflexivity|].
  exists (numberedOption i opt), (Z.of_nat i + 1).
  split; [by rewrite list_lookup_imap, Hi|].
  unfold numberedOption.
  change (". " +:+ opt)%string with (String "." (String " " opt)).
  rewrite parseInt_numbered by lia.
  pose proof (lookup_lt_Some _ _ _ Hi) as Hlt. cbn [slotInRange].
  rewrite (proj2 (Z.leb_le 1 _)), (proj2 (Z.leb_le _ _)) by lia. cbn [andb].
  split; [reflexivity|].
  replace (Z.to_nat (Z.of_nat i + 1 - 1)) with i by lia.
  exact Hi.
Qed.

Lemma formatOptions_numbers_select_witness :
  exists line k,
    imap numberedOption
      ["Tue, May 16 | Afternoon"; "Wed, May 17 | Evening"; "Thu, May 18 | Morning"]%string
      !! 1%nat = Some line
    /\ slotInRange (Text.parseInt (Text.trim line)) 3 = Some k
    /\ ["Tue, May 16 | Afternoon"; "Wed, May 17 | Evening"; "Thu, May 18 | Morning"]%string
         !! Z.to_nat (k - 1) = Some "Wed, May 17 | Evening"%string.
Proof.
  refine (proj2 (formatOptions_numbers_select
            ["Tue, May 16 | Afternoon"; "Wed, May 17 | Evening"; "Thu, May 18 | Morning"]%string
            1 "Wed, May 17 | Evening" _)).
  reflexivity.
Defined.
